(** * Affirmation generator: the action handlers of [src/actions/index.ts]

    A shallow embedding of the eight Astro actions (create / update /
    delete / list for collections and for affirmations) over the two tables
    of the database configuration, followed by the properties of the
    handlers: authorization, validation, ownership isolation, the delete
    cascade, the partial updates and the list filters.

    Modelling choices.
    - A request body is a JavaScript value ([Js.value]); the zod schemas
      are parsers from such values to typed inputs.
    - The database is a pair of row lists in storage order, with the
      constraints the table definitions declare: an insert whose [id] is
      already a key is refused, and so is a statement that would leave a
      [collectionId] referencing no collection.  A refused statement
      changes no row and throws a store error, which no handler catches.
    - Handlers run in a state-and-exception monad over a [World]: the two
      tables, the trace of database statements issued so far, and the two
      ambient generators [new Date()] and [crypto.randomUUID()], each an
      infinite sequence read through a call counter.  A throw keeps the
      state reached so far, as in JavaScript. *)

From Stdlib Require Import String List ZArith Bool Arith Lia.
Import ListNotations.
Local Open Scope string_scope.
Local Open Scope list_scope.

(* ===================================================================== *)
(** ** JavaScript values and the zod combinators used by the schemas    *)
(* ===================================================================== *)

Module Js.

(** The values a JSON request body can hold, plus [undefined]. *)
#[local] Unset Elimination Schemes.
Inductive value : Type :=
| VUndefined
| VNull
| VBool (b : bool)
| VNumber (n : Z)
| VString (s : string)
| VObject (fields : list (string * value)).
#[local] Set Elimination Schemes.

(** Property read [o.k]: a missing key reads as [undefined]. *)
Fixpoint get (k : string) (fields : list (string * value)) : value :=
  match fields with
  | [] => VUndefined
  | (k', v) :: rest => if k' =? k then v else get k rest
  end.

(** Truthiness of a string: only the empty string is falsy. *)
Definition truthy_string (s : string) : bool := negb (s =? "").

(** Truthiness of [string | undefined] and of [string | null | undefined],
    as tested by [if (input.collectionId)]. *)
Definition truthy_opt (o : option string) : bool :=
  match o with Some s => truthy_string s | None => false end.

Definition truthy_nullable (o : option (option string)) : bool :=
  match o with Some (Some s) => truthy_string s | _ => false end.

(** Truthiness of [boolean | undefined]. *)
Definition truthy_bool (o : option bool) : bool :=
  match o with Some b => b | None => false end.

End Js.

Module Zod.
Import Js.

(** A schema parses a value and either rejects it ([None]) or yields the
    typed result.  For an optional schema the result [None] inside
    [Some] is [undefined]. *)

(** [z.string()] *)
Definition string_ (v : value) : option string :=
  match v with VString s => Some s | _ => None end.

(** [z.string().min(1)] *)
Definition string_min1 (v : value) : option string :=
  match v with
  | VString s => if (1 <=? String.length s)%nat then Some s else None
  | _ => None
  end.

(** [z.boolean()] *)
Definition boolean (v : value) : option bool :=
  match v with VBool b => Some b | _ => None end.

(** [z.enum([...])] *)
Definition enum (allowed : list string) (v : value) : option string :=
  match v with
  | VString s => if existsb (String.eqb s) allowed then Some s else None
  | _ => None
  end.

(** [schema.optional()] *)
Definition optional {A} (schema : value -> option A) (v : value)
  : option (option A) :=
  match v with
  | VUndefined => Some None
  | _ => match schema v with Some a => Some (Some a) | None => None end
  end.

(** [schema.nullable()] *)
Definition nullable {A} (schema : value -> option A) (v : value)
  : option (option A) :=
  match v with
  | VNull => Some None
  | _ => match schema v with Some a => Some (Some a) | None => None end
  end.

(** [schema.refine(check)] *)
Definition refine {A} (schema : value -> option A) (check : A -> bool)
    (v : value) : option A :=
  match schema v with
  | Some a => if check a then Some a else None
  | None => None
  end.

(** [x !== undefined] on an optional field. *)
Definition defined {A} (o : option A) : bool :=
  match o with Some _ => true | None => false end.

End Zod.

(* ===================================================================== *)
(** ** The two tables ([db/config.ts])                                   *)
(* ===================================================================== *)

(** A row of [AffirmationCollections].  In an optional column [None] is
    SQL NULL; in the object literal a create handler returns it stands for
    a property left [undefined], which the insert stores as NULL. *)
Record Collection : Type := mkCollection {
  c_id : string;
  c_userId : string;
  c_name : string;
  c_description : option string;
  c_icon : option string;
  c_isDefault : bool;
  c_createdAt : Z;
  c_updatedAt : Z
}.

(** A row of [Affirmations]. *)
Record Affirmation : Type := mkAffirmation {
  a_id : string;
  a_collectionId : option string;
  a_userId : string;
  a_text : string;
  a_category : option string;
  a_language : option string;
  a_tags : option string;
  a_useTimeOfDay : option string;
  a_isFavorite : bool;
  a_isSystem : bool;
  a_createdAt : Z;
  a_updatedAt : Z
}.

(** The statements a handler can send to the database, as they appear in
    the trace. *)
Inductive Statement : Type :=
| SelectCollections
| InsertCollection
| UpdateCollections
| DeleteCollections
| SelectAffirmations
| InsertAffirmation
| UpdateAffirmations
| DeleteAffirmations.

Record World : Type := mkWorld {
  AffirmationCollections : list Collection;
  Affirmations : list Affirmation;
  trace : list Statement;
  dates : nat -> Z;           (* the n-th reading of the clock *)
  date_calls : nat;
  uuids : nat -> string;      (* the n-th identifier generated *)
  uuid_calls : nat
}.

(* ===================================================================== *)
(** ** Errors and the handler monad                                      *)
(* ===================================================================== *)

Inductive ErrorCode : Type := UNAUTHORIZED | NOT_FOUND.

(** The constraints of the table definitions: [primaryKey] on both [id]
    columns, [references] on [Affirmations.collectionId]. *)
Inductive Constraint : Type := UNIQUE | FOREIGN_KEY.

(** What a call can throw: an [ActionError] raised by a handler, the
    [ActionInputError] raised when the input schema rejects the request
    (its list of zod issues is not modelled), or the error of the
    database client when a statement violates a constraint. *)
Inductive Thrown : Type :=
| ActionError (code : ErrorCode) (message : string)
| ActionInputError
| StoreError (violated : Constraint).

Inductive Outcome (A : Type) : Type :=
| Returned (a : A)
| Threw (e : Thrown).
Arguments Returned {A} a.
Arguments Threw {A} e.

Definition M (A : Type) : Type := World -> Outcome A * World.

Definition ret {A} (a : A) : M A := fun w => (Returned a, w).

Definition throw {A} (e : Thrown) : M A := fun w => (Threw e, w).

Definition bind {A B} (m : M A) (k : A -> M B) : M B :=
  fun w =>
    match m w with
    | (Returned a, w') => k a w'
    | (Threw e, w') => (Threw e, w')
    end.

Declare Scope action_scope.
Delimit Scope action_scope with action.
Notation "x <- m ;; k" := (bind m (fun x => k))
  (at level 100, m at next level, right associativity) : action_scope.
Notation "m ;; k" := (bind m (fun _ => k))
  (at level 100, right associativity) : action_scope.
Local Open Scope action_scope.

(* ===================================================================== *)
(** ** The ambient collaborators: clock, identifiers, database           *)
(* ===================================================================== *)

Definition with_collections (w : World) (cs : list Collection) : World :=
  mkWorld cs (Affirmations w) (trace w)
          (dates w) (date_calls w) (uuids w) (uuid_calls w).

Definition with_affirmations (w : World) (rows : list Affirmation) : World :=
  mkWorld (AffirmationCollections w) rows (trace w)
          (dates w) (date_calls w) (uuids w) (uuid_calls w).

Definition with_trace (w : World) (t : list Statement) : World :=
  mkWorld (AffirmationCollections w) (Affirmations w) t
          (dates w) (date_calls w) (uuids w) (uuid_calls w).

(** [new Date()] *)
Definition new_Date : M Z :=
  fun w =>
    (Returned (dates w (date_calls w)),
     mkWorld (AffirmationCollections w) (Affirmations w) (trace w)
             (dates w) (S (date_calls w)) (uuids w) (uuid_calls w)).

(** [crypto.randomUUID()] *)
Definition randomUUID : M string :=
  fun w =>
    (Returned (uuids w (uuid_calls w)),
     mkWorld (AffirmationCollections w) (Affirmations w) (trace w)
             (dates w) (date_calls w) (uuids w) (S (uuid_calls w))).

(** Every statement sent to the database is recorded in the trace. *)
Definition issue (s : Statement) : M unit :=
  fun w => (Returned tt, with_trace w (trace w ++ [s])).

(** *** Partial updates *)

(** The [updates] object of [updateCollection]: a key is present exactly
    when its field is [Some]. *)
Record CollectionUpdates : Type := mkCollectionUpdates {
  cu_name : option string;
  cu_description : option string;
  cu_icon : option string;
  cu_isDefault : option bool;
  cu_updatedAt : Z
}.

(** The [updates] object of [updateAffirmation]; [au_collectionId] may be
    present with the value [null]. *)
Record AffirmationUpdates : Type := mkAffirmationUpdates {
  au_text : option string;
  au_collectionId : option (option string);
  au_category : option string;
  au_language : option string;
  au_tags : option string;
  au_useTimeOfDay : option string;
  au_isFavorite : option bool;
  au_updatedAt : Z
}.

(** Overlay of an optional key on a required column. *)
Definition overlay {A} (prior : A) (supplied : option A) : A :=
  match supplied with Some v => v | None => prior end.

(** Overlay of an optional key on a nullable column. *)
Definition overlay_nullable {A} (prior : option A) (supplied : option A)
  : option A :=
  match supplied with Some v => Some v | None => prior end.

(** [{ ...existing, ...updates }], which is also what [.set(updates)]
    writes into a selected row. *)
Definition spread_collection (existing : Collection)
    (updates : CollectionUpdates) : Collection :=
  mkCollection
    (c_id existing)
    (c_userId existing)
    (overlay (c_name existing) (cu_name updates))
    (overlay_nullable (c_description existing) (cu_description updates))
    (overlay_nullable (c_icon existing) (cu_icon updates))
    (overlay (c_isDefault existing) (cu_isDefault updates))
    (c_createdAt existing)
    (cu_updatedAt updates).

Definition spread_affirmation (existing : Affirmation)
    (updates : AffirmationUpdates) : Affirmation :=
  mkAffirmation
    (a_id existing)
    (overlay (a_collectionId existing) (au_collectionId updates))
    (a_userId existing)
    (overlay (a_text existing) (au_text updates))
    (overlay_nullable (a_category existing) (au_category updates))
    (overlay_nullable (a_language existing) (au_language updates))
    (overlay_nullable (a_tags existing) (au_tags updates))
    (overlay_nullable (a_useTimeOfDay existing) (au_useTimeOfDay updates))
    (overlay (a_isFavorite existing) (au_isFavorite updates))
    (a_isSystem existing)
    (a_createdAt existing)
    (au_updatedAt updates).

Module Db.

(** [eq(column, value)] on a text column. *)
Definition eq {R} (column : R -> string) (v : string) : R -> bool :=
  fun r => column r =? v.

(** [eq(column, value)] on a nullable text column: NULL equals nothing. *)
Definition eq_nullable {R} (column : R -> option string) (v : string)
  : R -> bool :=
  fun r => match column r with Some s => s =? v | None => false end.

(** [eq(column, value)] on a boolean column. *)
Definition eq_bool {R} (column : R -> bool) (v : bool) : R -> bool :=
  fun r => Bool.eqb (column r) v.

(** [and(...filters)] *)
Definition and {R} (filters : list (R -> bool)) : R -> bool :=
  fun r => forallb (fun f => f r) filters.

(** [db.select().from(AffirmationCollections).where(cond)] *)
Definition select_collections (cond : Collection -> bool)
  : M (list Collection) :=
  issue SelectCollections ;;
  fun w => (Returned (filter cond (AffirmationCollections w)), w).

(** [db.select().from(Affirmations).where(cond)] *)
Definition select_affirmations (cond : Affirmation -> bool)
  : M (list Affirmation) :=
  issue SelectAffirmations ;;
  fun w => (Returned (filter cond (Affirmations w)), w).

(** Whether a row with this primary key is stored. *)
Definition collection_exists (id : string) (w : World) : bool :=
  existsb (fun r => c_id r =? id) (AffirmationCollections w).

Definition affirmation_exists (id : string) (w : World) : bool :=
  existsb (fun r => a_id r =? id) (Affirmations w).

(** Whether a value of [collectionId] satisfies [references]: NULL
    references nothing, a string must be the [id] of a collection. *)
Definition reference_holds (collectionId : option string) (w : World)
  : bool :=
  match collectionId with
  | Some c => collection_exists c w
  | None => true
  end.

(** Whether some affirmation references the collection [id]. *)
Definition referenced (id : string) (w : World) : bool :=
  existsb (eq_nullable a_collectionId id) (Affirmations w).

(** [db.insert(AffirmationCollections).values(row)] *)
Definition insert_collection (row : Collection) : M unit :=
  issue InsertCollection ;;
  fun w =>
    if collection_exists (c_id row) w
    then (Threw (StoreError UNIQUE), w)
    else (Returned tt,
          with_collections w (AffirmationCollections w ++ [row])).

(** [db.insert(Affirmations).values(row)] *)
Definition insert_affirmation (row : Affirmation) : M unit :=
  issue InsertAffirmation ;;
  fun w =>
    if affirmation_exists (a_id row) w
    then (Threw (StoreError UNIQUE), w)
    else if reference_holds (a_collectionId row) w
    then (Returned tt, with_affirmations w (Affirmations w ++ [row]))
    else (Threw (StoreError FOREIGN_KEY), w).

(** [db.update(AffirmationCollections).set(updates).where(cond)]: the
    updates are overlaid on each row the condition selects.  No key of
    [updates] is under a constraint. *)
Definition update_collections (updates : CollectionUpdates)
    (cond : Collection -> bool) : M unit :=
  issue UpdateCollections ;;
  fun w => (Returned tt,
            with_collections w
              (map (fun r => if cond r then spread_collection r updates
                             else r)
                   (AffirmationCollections w))).

(** [db.update(Affirmations).set(updates).where(cond)]: when
    [collectionId] is among the keys assigned and a row is selected, the
    assigned value must satisfy [references]. *)
Definition update_affirmations (updates : AffirmationUpdates)
    (cond : Affirmation -> bool) : M unit :=
  issue UpdateAffirmations ;;
  fun w =>
    if existsb cond (Affirmations w)
       && negb (match au_collectionId updates with
                | Some assigned => reference_holds assigned w
                | None => true
                end)
    then (Threw (StoreError FOREIGN_KEY), w)
    else (Returned tt,
          with_affirmations w
            (map (fun r => if cond r then spread_affirmation r updates
                           else r)
                 (Affirmations w))).

(** [db.delete(AffirmationCollections).where(cond)]: a selected row that
    an affirmation still references cannot be deleted. *)
Definition delete_collections (cond : Collection -> bool) : M unit :=
  issue DeleteCollections ;;
  fun w =>
    if existsb (fun r => cond r && referenced (c_id r) w)
         (AffirmationCollections w)
    then (Threw (StoreError FOREIGN_KEY), w)
    else (Returned tt,
          with_collections w
            (filter (fun r => negb (cond r)) (AffirmationCollections w))).

(** [db.delete(Affirmations).where(cond)] *)
Definition delete_affirmations (cond : Affirmation -> bool) : M unit :=
  issue DeleteAffirmations ;;
  fun w => (Returned tt,
            with_affirmations w
              (filter (fun r => negb (cond r)) (Affirmations w))).

End Db.

(* ===================================================================== *)
(** ** Call context and [requireUser]                                    *)
(* ===================================================================== *)

Record User : Type := mkUser { user_id : string }.

(** [App.Locals]: the identity provider may have placed a user there. *)
Record Locals : Type := mkLocals { user : option User }.

(** [ActionAPIContext], reduced to the part the handlers read. *)
Record Context : Type := mkContext { locals : option Locals }.

Definition requireUser (context : Context) : M User :=
  match locals context with
  | Some l =>
      match user l with
      | Some u => ret u
      | None =>
          throw (ActionError UNAUTHORIZED
                   "You must be signed in to perform this action.")
      end
  | None =>
      throw (ActionError UNAUTHORIZED
               "You must be signed in to perform this action.")
  end.

(** The context of a request authenticated as [uid], and of an anonymous
    one. *)
Definition signed_in (uid : string) : Context :=
  mkContext (Some (mkLocals (Some (mkUser uid)))).

Definition anonymous : Context := mkContext (Some (mkLocals None)).

(** [locals?.user] *)
Definition caller (context : Context) : option User :=
  match locals context with Some l => user l | None => None end.

(* ===================================================================== *)
(** ** Input schemas                                                     *)
(* ===================================================================== *)

Import Js Zod.

Definition timeOfDay : list string := ["morning"; "evening"; "any"].

Record CreateCollectionInput : Type := mkCreateCollectionInput {
  cc_name : string;
  cc_description : option string;
  cc_icon : option string;
  cc_isDefault : option bool
}.

Record UpdateCollectionInput : Type := mkUpdateCollectionInput {
  uc_id : string;
  uc_name : option string;
  uc_description : option string;
  uc_icon : option string;
  uc_isDefault : option bool
}.

Record IdInput : Type := mkIdInput { in_id : string }.

Record CreateAffirmationInput : Type := mkCreateAffirmationInput {
  ca_text : string;
  ca_collectionId : option string;
  ca_category : option string;
  ca_language : option string;
  ca_tags : option string;
  ca_useTimeOfDay : option string;
  ca_isFavorite : option bool
}.

(** [ua_collectionId]: [None] is [undefined], [Some None] is [null]. *)
Record UpdateAffirmationInput : Type := mkUpdateAffirmationInput {
  ua_id : string;
  ua_text : option string;
  ua_collectionId : option (option string);
  ua_category : option string;
  ua_language : option string;
  ua_tags : option string;
  ua_useTimeOfDay : option string;
  ua_isFavorite : option bool
}.

Record ListAffirmationsInput : Type := mkListAffirmationsInput {
  la_collectionId : option string;
  la_favoritesOnly : option bool
}.

(** The [z.object({...})] of [createCollection]. *)
Definition createCollectionSchema (v : value) : option CreateCollectionInput :=
  match v with
  | VObject o =>
      match string_min1 (get "name" o),
            optional string_ (get "description" o),
            optional string_ (get "icon" o),
            optional boolean (get "isDefault" o) with
      | Some name, Some description, Some icon, Some isDefault =>
          Some (mkCreateCollectionInput name description icon isDefault)
      | _, _, _, _ => None
      end
  | _ => None
  end.

Definition updateCollectionObject (v : value) : option UpdateCollectionInput :=
  match v with
  | VObject o =>
      match string_ (get "id" o),
            optional string_min1 (get "name" o),
            optional string_ (get "description" o),
            optional string_ (get "icon" o),
            optional boolean (get "isDefault" o) with
      | Some id, Some name, Some description, Some icon, Some isDefault =>
          Some (mkUpdateCollectionInput id name description icon isDefault)
      | _, _, _, _, _ => None
      end
  | _ => None
  end.

Definition updateCollectionSchema : value -> option UpdateCollectionInput :=
  refine updateCollectionObject
    (fun input =>
       defined (uc_name input) || defined (uc_description input)
       || defined (uc_icon input) || defined (uc_isDefault input)).

(** [z.object({ id: z.string() })], the input of both delete actions. *)
Definition idSchema (v : value) : option IdInput :=
  match v with
  | VObject o =>
      match string_ (get "id" o) with
      | Some id => Some (mkIdInput id)
      | None => None
      end
  | _ => None
  end.

(** [z.object({}).optional()], the input of [listCollections]. *)
Definition listCollectionsSchema (v : value) : option (option unit) :=
  optional (fun v => match v with VObject _ => Some tt | _ => None end) v.

Definition createAffirmationSchema (v : value)
  : option CreateAffirmationInput :=
  match v with
  | VObject o =>
      match string_min1 (get "text" o),
            optional string_ (get "collectionId" o),
            optional string_ (get "category" o),
            optional string_ (get "language" o),
            optional string_ (get "tags" o),
            optional (enum timeOfDay) (get "useTimeOfDay" o),
            optional boolean (get "isFavorite" o) with
      | Some text, Some collectionId, Some category, Some language,
        Some tags, Some useTimeOfDay, Some isFavorite =>
          Some (mkCreateAffirmationInput text collectionId category language
                  tags useTimeOfDay isFavorite)
      | _, _, _, _, _, _, _ => None
      end
  | _ => None
  end.

Definition updateAffirmationObject (v : value)
  : option UpdateAffirmationInput :=
  match v with
  | VObject o =>
      match string_ (get "id" o),
            optional string_min1 (get "text" o),
            optional (nullable string_) (get "collectionId" o),
            optional string_ (get "category" o),
            optional string_ (get "language" o),
            optional string_ (get "tags" o),
            optional (enum timeOfDay) (get "useTimeOfDay" o),
            optional boolean (get "isFavorite" o) with
      | Some id, Some text, Some collectionId, Some category, Some language,
        Some tags, Some useTimeOfDay, Some isFavorite =>
          Some (mkUpdateAffirmationInput id text collectionId category
                  language tags useTimeOfDay isFavorite)
      | _, _, _, _, _, _, _, _ => None
      end
  | _ => None
  end.

Definition updateAffirmationSchema
  : value -> option UpdateAffirmationInput :=
  refine updateAffirmationObject
    (fun input =>
       defined (ua_text input) || defined (ua_collectionId input)
       || defined (ua_category input) || defined (ua_language input)
       || defined (ua_tags input) || defined (ua_useTimeOfDay input)
       || defined (ua_isFavorite input)).

(** The optional [z.object({...})] of [listAffirmations]. *)
Definition listAffirmationsSchema (v : value)
  : option (option ListAffirmationsInput) :=
  optional
    (fun v =>
       match v with
       | VObject o =>
           match optional string_ (get "collectionId" o),
                 optional boolean (get "favoritesOnly" o) with
           | Some collectionId, Some favoritesOnly =>
               Some (mkListAffirmationsInput collectionId favoritesOnly)
           | _, _ => None
           end
       | _ => None
       end) v.

(* ===================================================================== *)
(** ** Results, partial updates and [defineAction]                       *)
(* ===================================================================== *)

(** The [data] property of a result. *)
Inductive Data : Type :=
| OneCollection (collection : Collection)
| OneAffirmation (affirmation : Affirmation)
| CollectionItems (items : list Collection) (total : nat)
| AffirmationItems (items : list Affirmation) (total : nat).

(** [{ success: true, data?: ... }] *)
Record Response : Type := mkResponse {
  success : bool;
  data : option Data
}.

(** [a ?? b] *)
Definition nullish {A} (a : option A) (b : A) : A :=
  match a with Some v => v | None => b end.

(** [a ?? null] into a nullable column. *)
Definition or_null {A} (a : option A) : option A :=
  match a with Some v => Some v | None => None end.

(** [defineAction({ input, handler })]: the request is parsed with the
    input schema first; the handler runs only on a request the schema
    accepts, and a rejected request throws the input error. *)
Definition defineAction {I} (input : value -> option I)
    (handler : I -> Context -> M Response) : value -> Context -> M Response :=
  fun request context =>
    match input request with
    | Some parsed => handler parsed context
    | None => throw ActionInputError
    end.

(* ===================================================================== *)
(** ** The handlers                                                      *)
(* ===================================================================== *)

Module Handler.

Definition createCollection (input : CreateCollectionInput)
    (context : Context) : M Response :=
  user <- requireUser context ;;
  now <- new_Date ;;
  id <- randomUUID ;;
  let collection :=
    mkCollection id (user_id user) (cc_name input) (cc_description input)
      (cc_icon input) (nullish (cc_isDefault input) false) now now in
  Db.insert_collection collection ;;
  ret (mkResponse true (Some (OneCollection collection))).

Definition updateCollection (input : UpdateCollectionInput)
    (context : Context) : M Response :=
  user <- requireUser context ;;
  rows <- Db.select_collections
            (Db.and [Db.eq c_id (uc_id input);
                     Db.eq c_userId (user_id user)]) ;;
  match hd_error rows with
  | None => throw (ActionError NOT_FOUND "Collection not found.")
  | Some existing =>
      now <- new_Date ;;
      let updates :=
        mkCollectionUpdates (uc_name input) (uc_description input)
          (uc_icon input) (uc_isDefault input) now in
      Db.update_collections updates
        (Db.and [Db.eq c_id (uc_id input);
                 Db.eq c_userId (user_id user)]) ;;
      ret (mkResponse true
             (Some (OneCollection (spread_collection existing updates))))
  end.

Definition deleteCollection (input : IdInput) (context : Context)
  : M Response :=
  user <- requireUser context ;;
  rows <- Db.select_collections
            (Db.and [Db.eq c_id (in_id input);
                     Db.eq c_userId (user_id user)]) ;;
  match hd_error rows with
  | None => throw (ActionError NOT_FOUND "Collection not found.")
  | Some _ =>
      Db.delete_affirmations
        (Db.and [Db.eq_nullable a_collectionId (in_id input);
                 Db.eq a_userId (user_id user)]) ;;
      Db.delete_collections
        (Db.and [Db.eq c_id (in_id input);
                 Db.eq c_userId (user_id user)]) ;;
      ret (mkResponse true None)
  end.

Definition listCollections (_input : option unit) (context : Context)
  : M Response :=
  user <- requireUser context ;;
  collections <- Db.select_collections (Db.eq c_userId (user_id user)) ;;
  ret (mkResponse true
         (Some (CollectionItems collections (length collections)))).

(** The block both affirmation writers run under [if (collectionId)]:
    select the collection by id and owner, throw when there is none. *)
Definition requireCollection (collectionId : string) (user : User)
  : M unit :=
  rows <- Db.select_collections
            (Db.and [Db.eq c_id collectionId;
                     Db.eq c_userId (user_id user)]) ;;
  match hd_error rows with
  | None => throw (ActionError NOT_FOUND "Collection not found.")
  | Some _ => ret tt
  end.

Definition createAffirmation (input : CreateAffirmationInput)
    (context : Context) : M Response :=
  user <- requireUser context ;;
  match ca_collectionId input with
  | Some collectionId =>
      if truthy_string collectionId
      then requireCollection collectionId user
      else ret tt
  | None => ret tt
  end ;;
  now <- new_Date ;;
  id <- randomUUID ;;
  let affirmation :=
    mkAffirmation id (or_null (ca_collectionId input)) (user_id user)
      (ca_text input) (ca_category input) (ca_language input)
      (ca_tags input) (ca_useTimeOfDay input)
      (nullish (ca_isFavorite input) false) false now now in
  Db.insert_affirmation affirmation ;;
  ret (mkResponse true (Some (OneAffirmation affirmation))).

Definition updateAffirmation (input : UpdateAffirmationInput)
    (context : Context) : M Response :=
  user <- requireUser context ;;
  rows <- Db.select_affirmations
            (Db.and [Db.eq a_id (ua_id input);
                     Db.eq a_userId (user_id user)]) ;;
  match hd_error rows with
  | None => throw (ActionError NOT_FOUND "Affirmation not found.")
  | Some existing =>
      match ua_collectionId input with
      | Some (Some collectionId) =>
          if truthy_string collectionId
          then requireCollection collectionId user
          else ret tt
      | _ => ret tt
      end ;;
      now <- new_Date ;;
      let updates :=
        mkAffirmationUpdates (ua_text input) (ua_collectionId input)
          (ua_category input) (ua_language input) (ua_tags input)
          (ua_useTimeOfDay input) (ua_isFavorite input) now in
      Db.update_affirmations updates
        (Db.and [Db.eq a_id (ua_id input);
                 Db.eq a_userId (user_id user)]) ;;
      ret (mkResponse true
             (Some (OneAffirmation (spread_affirmation existing updates))))
  end.

Definition deleteAffirmation (input : IdInput) (context : Context)
  : M Response :=
  user <- requireUser context ;;
  rows <- Db.select_affirmations
            (Db.and [Db.eq a_id (in_id input);
                     Db.eq a_userId (user_id user)]) ;;
  match hd_error rows with
  | None => throw (ActionError NOT_FOUND "Affirmation not found.")
  | Some _ =>
      Db.delete_affirmations
        (Db.and [Db.eq a_id (in_id input);
                 Db.eq a_userId (user_id user)]) ;;
      ret (mkResponse true None)
  end.

(** [input?.collectionId] and [input?.favoritesOnly] *)
Definition input_collectionId (input : option ListAffirmationsInput)
  : option string :=
  match input with Some i => la_collectionId i | None => None end.

Definition input_favoritesOnly (input : option ListAffirmationsInput)
  : option bool :=
  match input with Some i => la_favoritesOnly i | None => None end.

(** The [filters] array of [listAffirmations] after the two conditional
    pushes. *)
Definition filters (input : option ListAffirmationsInput) (user : User)
  : list (Affirmation -> bool) :=
  let filters := [Db.eq a_userId (user_id user)] in
  let filters :=
    match input_collectionId input with
    | Some collectionId =>
        if truthy_string collectionId
        then filters ++ [Db.eq_nullable a_collectionId collectionId]
        else filters
    | None => filters
    end in
  if truthy_bool (input_favoritesOnly input)
  then filters ++ [Db.eq_bool a_isFavorite true]
  else filters.

Definition listAffirmations (input : option ListAffirmationsInput)
    (context : Context) : M Response :=
  user <- requireUser context ;;
  affirmations <- Db.select_affirmations (Db.and (filters input user)) ;;
  ret (mkResponse true
         (Some (AffirmationItems affirmations (length affirmations)))).

End Handler.

(** [export const server = { ... }] *)
Module server.

Definition createCollection :=
  defineAction createCollectionSchema Handler.createCollection.
Definition updateCollection :=
  defineAction updateCollectionSchema Handler.updateCollection.
Definition deleteCollection :=
  defineAction idSchema Handler.deleteCollection.
Definition listCollections :=
  defineAction listCollectionsSchema Handler.listCollections.
Definition createAffirmation :=
  defineAction createAffirmationSchema Handler.createAffirmation.
Definition updateAffirmation :=
  defineAction updateAffirmationSchema Handler.updateAffirmation.
Definition deleteAffirmation :=
  defineAction idSchema Handler.deleteAffirmation.
Definition listAffirmations :=
  defineAction listAffirmationsSchema Handler.listAffirmations.

End server.

(* ===================================================================== *)
(** ** A concrete scenario                                               *)
(* ===================================================================== *)

Module Scenario.

(** A clock that ticks by one millisecond per reading and a generator of
    distinct identifiers. *)
Definition clock (n : nat) : Z := 1000 + Z.of_nat n.

Definition ids (n : nat) : string :=
  match n with
  | O => "C1"
  | S O => "A1"
  | S (S O) => "A2"
  | _ => "X"
  end.

Definition empty : World := mkWorld [] [] [] clock 0 ids 0.

Definition run {A} (m : M A) (w : World) : World := snd (m w).
Definition result {A} (m : M A) (w : World) : Outcome A := fst (m w).

Definition U : Context := signed_in "u".
Definition V : Context := signed_in "v".

Definition w1 : World :=
  run (server.createCollection
         (VObject [("name", VString "Confidence")]) U) empty.

Definition w2 : World :=
  run (server.createAffirmation
         (VObject [("text", VString "I am capable");
                   ("collectionId", VString "C1")]) U) w1.

Definition w3 : World :=
  run (server.deleteCollection (VObject [("id", VString "C1")]) U) w2.

(** The affirmation the second step stores. *)
Definition A1 : Affirmation :=
  mkAffirmation "A1" (Some "C1") "u" "I am capable" None None None None
    false false 1001 1001.

(** The same first two steps when both requests fall within one
    millisecond: every reading of the clock is the same. *)
Definition same_millisecond : World :=
  mkWorld [] [] [] (fun _ => 1000%Z) 0 ids 0.

Definition f1 : World :=
  run (server.createCollection
         (VObject [("name", VString "Confidence")]) U) same_millisecond.

Definition f2 : World :=
  run (server.createAffirmation
         (VObject [("text", VString "I am capable");
                   ("collectionId", VString "C1")]) U) f1.

(** The affirmation stored in [f2]. *)
Definition A1' : Affirmation :=
  mkAffirmation "A1" (Some "C1") "u" "I am capable" None None None None
    false false 1000 1000.

(** That affirmation after its text is updated, still within the same
    millisecond. *)
Definition A1'' : Affirmation :=
  mkAffirmation "A1" (Some "C1") "u" "I am able" None None None None
    false false 1000 1000.

(** A row of another user that references the collection of [U], as a
    seeded store could hold it, and the world [w2] with that row. *)
Definition B1 : Affirmation :=
  mkAffirmation "B1" (Some "C1") "v" "I am calm" None None None None
    true false 900 900.

Definition shared : World := with_affirmations w2 (Affirmations w2 ++ [B1]).

(** The collection stored in [w2]. *)
Definition C1 : Collection :=
  mkCollection "C1" "u" "Confidence" None None false 1000 1000.

End Scenario.

(* ===================================================================== *)
(** ** The eight operations as one family                                *)
(* ===================================================================== *)

(** The keys of [server]. *)
Inductive Operation : Type :=
| CreateCollection
| UpdateCollection
| DeleteCollection
| ListCollections
| CreateAffirmation
| UpdateAffirmation
| DeleteAffirmation
| ListAffirmations.

(** [server[op]] *)
Definition call (op : Operation) : value -> Context -> M Response :=
  match op with
  | CreateCollection => server.createCollection
  | UpdateCollection => server.updateCollection
  | DeleteCollection => server.deleteCollection
  | ListCollections => server.listCollections
  | CreateAffirmation => server.createAffirmation
  | UpdateAffirmation => server.updateAffirmation
  | DeleteAffirmation => server.deleteAffirmation
  | ListAffirmations => server.listAffirmations
  end.

(** Whether the input schema of an operation accepts a request. *)
Definition accepts (op : Operation) (request : value) : bool :=
  match op with
  | CreateCollection => defined (createCollectionSchema request)
  | UpdateCollection => defined (updateCollectionSchema request)
  | DeleteCollection => defined (idSchema request)
  | ListCollections => defined (listCollectionsSchema request)
  | CreateAffirmation => defined (createAffirmationSchema request)
  | UpdateAffirmation => defined (updateAffirmationSchema request)
  | DeleteAffirmation => defined (idSchema request)
  | ListAffirmations => defined (listAffirmationsSchema request)
  end.

(** The rows a result carries in its success payload. *)
Definition payload_collections (r : Outcome Response) : list Collection :=
  match r with
  | Returned (mkResponse _ (Some (OneCollection c))) => [c]
  | Returned (mkResponse _ (Some (CollectionItems items _))) => items
  | _ => []
  end.

Definition payload_affirmations (r : Outcome Response) : list Affirmation :=
  match r with
  | Returned (mkResponse _ (Some (OneAffirmation a))) => [a]
  | Returned (mkResponse _ (Some (AffirmationItems items _))) => items
  | _ => []
  end.

(** The rows of each table that belong to somebody other than [uid]. *)
Definition foreign_collections (uid : string) (w : World)
  : list Collection :=
  filter (fun c => negb (c_userId c =? uid)) (AffirmationCollections w).

Definition foreign_affirmations (uid : string) (w : World)
  : list Affirmation :=
  filter (fun a => negb (a_userId a =? uid)) (Affirmations w).

(** The world after the given statements were sent and nothing else
    changed. *)
Definition issued (w : World) (statements : list Statement) : World :=
  with_trace w (trace w ++ statements).

(** The affirmation a successful [createAffirmation] builds in [w]. *)
Definition created_affirmation (input : CreateAffirmationInput) (u : User)
    (w : World) : Affirmation :=
  let now := dates w (date_calls w) in
  mkAffirmation (uuids w (uuid_calls w)) (or_null (ca_collectionId input))
    (user_id u) (ca_text input) (ca_category input) (ca_language input)
    (ca_tags input) (ca_useTimeOfDay input)
    (nullish (ca_isFavorite input) false) false now now.

(** The [updates] object [updateAffirmation] builds in [w]. *)
Definition affirmation_updates (input : UpdateAffirmationInput) (w : World)
  : AffirmationUpdates :=
  mkAffirmationUpdates (ua_text input) (ua_collectionId input)
    (ua_category input) (ua_language input) (ua_tags input)
    (ua_useTimeOfDay input) (ua_isFavorite input) (dates w (date_calls w)).

(** Selection of an affirmation by identifier and owner. *)
Definition own_affirmation (id : string) (u : User) : Affirmation -> bool :=
  Db.and [Db.eq a_id id; Db.eq a_userId (user_id u)].

(** Selection of a collection by identifier and owner. *)
Definition own_collection (id : string) (u : User) : Collection -> bool :=
  Db.and [Db.eq c_id id; Db.eq c_userId (user_id u)].

(** The world after a successful [updateAffirmation]. *)
Definition updated_world (input : UpdateAffirmationInput) (u : User)
    (w : World) (statements : list Statement) : World :=
  mkWorld (AffirmationCollections w)
    (map (fun r => if own_affirmation (ua_id input) u r
                   then spread_affirmation r (affirmation_updates input w)
                   else r)
         (Affirmations w))
    (trace w ++ statements)
    (dates w) (S (date_calls w)) (uuids w) (uuid_calls w).

(** Ownership isolation of one call made by [uid] in [w]: every row in
    the success payload belongs to [uid], and the rows of everybody else
    are, in both tables, exactly what they were. *)
Definition isolated (uid : string) (w : World)
    (result : Outcome Response * World) : Prop :=
  (forall c, In c (payload_collections (fst result)) -> c_userId c = uid)
  /\ (forall a, In a (payload_affirmations (fst result)) -> a_userId a = uid)
  /\ foreign_collections uid (snd result) = foreign_collections uid w
  /\ foreign_affirmations uid (snd result) = foreign_affirmations uid w.

(** A request object in which none of the listed keys is supplied. *)
Definition none_supplied (keys : list string) (o : list (string * value))
  : Prop :=
  forall k, In k keys -> get k o = VUndefined.

(** The error thrown by [requireUser]. *)
Definition unauthorized : Thrown :=
  ActionError UNAUTHORIZED "You must be signed in to perform this action.".

(** A field of a merged record against the supplied input and the prior
    row: replaced when supplied, kept otherwise. *)
Definition replaced_or_kept {A} (supplied : option A) (prior merged : A)
  : Prop :=
  match supplied with
  | Some v => merged = v
  | None => merged = prior
  end.

(** The same for a nullable column fed by an optional value. *)
Definition replaced_or_kept_nullable {A} (supplied : option A)
    (prior merged : option A) : Prop :=
  match supplied with
  | Some v => merged = Some v
  | None => merged = prior
  end.

(** The rows [listAffirmations] is specified to return: the caller's own,
    from the given collection when a non-empty one is named, favourites
    only when [favoritesOnly] is true. *)
Definition listed (uid : string) (collectionId : option string)
    (favoritesOnly : option bool) (a : Affirmation) : bool :=
  (a_userId a =? uid)
  && match collectionId with
     | Some "" | None => true
     | Some c => match a_collectionId a with
                 | Some c' => c' =? c
                 | None => false
                 end
     end
  && match favoritesOnly with
     | Some true => a_isFavorite a
     | _ => true
     end.

(* ===================================================================== *)
(** ** State invariants and the effect of a call                         *)
(* ===================================================================== *)

(** The collection a successful [createCollection] builds in [w]. *)
Definition created_collection (input : CreateCollectionInput) (u : User)
    (w : World) : Collection :=
  let now := dates w (date_calls w) in
  mkCollection (uuids w (uuid_calls w)) (user_id u) (cc_name input)
    (cc_description input) (cc_icon input)
    (nullish (cc_isDefault input) false) now now.

(** The [updates] object [updateCollection] builds in [w]. *)
Definition collection_updates (input : UpdateCollectionInput) (w : World)
  : CollectionUpdates :=
  mkCollectionUpdates (uc_name input) (uc_description input)
    (uc_icon input) (uc_isDefault input) (dates w (date_calls w)).

(** Selection of the affirmations of a collection that belong to [u], the
    condition of the first delete of [deleteCollection]. *)
Definition in_own_collection (id : string) (u : User) : Affirmation -> bool :=
  Db.and [Db.eq_nullable a_collectionId id; Db.eq a_userId (user_id u)].

(** Identifiers are unique within each table, as the primary keys
    declare. *)
Definition unique_ids (w : World) : Prop :=
  NoDup (map c_id (AffirmationCollections w))
  /\ NoDup (map a_id (Affirmations w)).

(** Referential integrity: a non-null [collectionId] names a collection
    of the affirmation's owner. *)
Definition references_hold (w : World) : Prop :=
  forall a c,
    In a (Affirmations w) -> a_collectionId a = Some c ->
    exists col, In col (AffirmationCollections w)
                /\ c_id col = c /\ c_userId col = a_userId a.

(** The [collectionId] property of a request. *)
Definition supplied_collectionId (request : value) : value :=
  match request with
  | VObject o => get "collectionId" o
  | _ => VUndefined
  end.

(** The column constraints the schemas enforce on what they let in:
    a collection has a name, an affirmation has a text and, if any, one
    of the three times of day. *)
Definition well_formed_collection (c : Collection) : Prop :=
  c_name c <> "".

Definition well_formed_affirmation (a : Affirmation) : Prop :=
  a_text a <> ""
  /\ forall t, a_useTimeOfDay a = Some t -> In t timeOfDay.

Definition well_formed (w : World) : Prop :=
  (forall c, In c (AffirmationCollections w) -> well_formed_collection c)
  /\ (forall a, In a (Affirmations w) -> well_formed_affirmation a).

(** The operations that work on the table of collections only, and those
    that work on the table of affirmations only ([deleteCollection]
    writes to both). *)
Definition collection_only (op : Operation) : bool :=
  match op with
  | CreateCollection | UpdateCollection | ListCollections => true
  | _ => false
  end.

Definition affirmation_only (op : Operation) : bool :=
  match op with
  | CreateAffirmation | UpdateAffirmation | DeleteAffirmation
  | ListAffirmations => true
  | _ => false
  end.

(** The world after a call that drew a clock reading and an identifier,
    after one that drew a clock reading only, and after one that drew
    neither, with the given tables and the statements it sent. *)
Definition after_create (w : World) (collections : list Collection)
    (affirmations : list Affirmation) (statements : list Statement)
  : World :=
  mkWorld collections affirmations (trace w ++ statements)
    (dates w) (S (date_calls w)) (uuids w) (S (uuid_calls w)).

Definition after_update (w : World) (collections : list Collection)
    (affirmations : list Affirmation) (statements : list Statement)
  : World :=
  mkWorld collections affirmations (trace w ++ statements)
    (dates w) (S (date_calls w)) (uuids w) (uuid_calls w).

Definition after_delete (w : World) (collections : list Collection)
    (affirmations : list Affirmation) (statements : list Statement)
  : World :=
  mkWorld collections affirmations (trace w ++ statements)
    (dates w) (date_calls w) (uuids w) (uuid_calls w).

(** What the insert of [createCollection] makes of the row built in [w]. *)
Definition collection_insertion (row : Collection) (w : World)
    (statements : list Statement) : Outcome Response * World :=
  if Db.collection_exists (c_id row) w
  then (Threw (StoreError UNIQUE),
        after_create w (AffirmationCollections w) (Affirmations w)
          statements)
  else (Returned (mkResponse true (Some (OneCollection row))),
        after_create w (AffirmationCollections w ++ [row]) (Affirmations w)
          statements).

(** What the insert of [createAffirmation] makes of the row built in
    [w]. *)
Definition affirmation_insertion (row : Affirmation) (w : World)
    (statements : list Statement) : Outcome Response * World :=
  if Db.affirmation_exists (a_id row) w
  then (Threw (StoreError UNIQUE),
        after_create w (AffirmationCollections w) (Affirmations w)
          statements)
  else if Db.reference_holds (a_collectionId row) w
  then (Returned (mkResponse true (Some (OneAffirmation row))),
        after_create w (AffirmationCollections w) (Affirmations w ++ [row])
          statements)
  else (Threw (StoreError FOREIGN_KEY),
        after_create w (AffirmationCollections w) (Affirmations w)
          statements).

(** Whether the [collectionId] an update assigns, if it assigns one,
    satisfies [references]. *)
Definition assigned_reference_holds (input : UpdateAffirmationInput)
    (w : World) : bool :=
  match ua_collectionId input with
  | Some assigned => Db.reference_holds assigned w
  | None => true
  end.

(** What the update of [updateAffirmation] makes of the selected row. *)
Definition affirmation_update (input : UpdateAffirmationInput) (u : User)
    (w : World) (existing : Affirmation) (statements : list Statement)
  : Outcome Response * World :=
  if assigned_reference_holds input w
  then (Returned
          (mkResponse true
             (Some (OneAffirmation
                      (spread_affirmation existing
                         (affirmation_updates input w))))),
        updated_world input u w statements)
  else (Threw (StoreError FOREIGN_KEY),
        after_update w (AffirmationCollections w) (Affirmations w)
          statements).

(** The affirmations left by the first delete of [deleteCollection]. *)
Definition after_cascade (id : string) (u : User) (w : World)
  : list Affirmation :=
  filter (fun r => negb (in_own_collection id u r)) (Affirmations w).

(** Whether, after that first delete, an affirmation still references a
    collection the second delete selects. *)
Definition still_referenced (id : string) (u : User) (w : World) : bool :=
  existsb
    (fun r => own_collection id u r
              && existsb (Db.eq_nullable a_collectionId (c_id r))
                   (after_cascade id u w))
    (AffirmationCollections w).

(** Everything one call can do to the world, by outcome: a throw of a
    handler and a listing only add to the trace; a statement the store
    refuses changes no row, but in [deleteCollection] it comes after the
    delete of the affirmations; each write is one of six shapes. *)
Inductive effect (op : Operation) (request : value) (context : Context)
    (w : World) : Outcome Response -> World -> Prop :=
| threw e statements :
    effect op request context w (Threw e) (issued w statements)
| refused k w' :
    AffirmationCollections w' = AffirmationCollections w ->
    Affirmations w' = Affirmations w ->
    effect op request context w (Threw (StoreError k)) w'
| cascade_refused u id w' :
    op = DeleteCollection ->
    caller context = Some u ->
    AffirmationCollections w' = AffirmationCollections w ->
    Affirmations w'
    = filter (fun r => negb (in_own_collection id u r)) (Affirmations w) ->
    effect op request context w (Threw (StoreError FOREIGN_KEY)) w'
| collections_listed items statements :
    op = ListCollections ->
    effect op request context w
      (Returned (mkResponse true (Some (CollectionItems items (length items)))))
      (issued w statements)
| affirmations_listed items statements :
    op = ListAffirmations ->
    effect op request context w
      (Returned (mkResponse true
                   (Some (AffirmationItems items (length items)))))
      (issued w statements)
| collection_inserted u input statements :
    op = CreateCollection ->
    caller context = Some u ->
    createCollectionSchema request = Some input ->
    effect op request context w
      (Returned (mkResponse true
                   (Some (OneCollection (created_collection input u w)))))
      (mkWorld (AffirmationCollections w ++ [created_collection input u w])
         (Affirmations w) (trace w ++ statements)
         (dates w) (S (date_calls w)) (uuids w) (S (uuid_calls w)))
| collections_updated u input existing statements :
    op = UpdateCollection ->
    caller context = Some u ->
    updateCollectionSchema request = Some input ->
    In existing (AffirmationCollections w) ->
    own_collection (uc_id input) u existing = true ->
    effect op request context w
      (Returned (mkResponse true
                   (Some (OneCollection
                            (spread_collection existing
                               (collection_updates input w))))))
      (mkWorld
         (map (fun r => if own_collection (uc_id input) u r
                        then spread_collection r (collection_updates input w)
                        else r)
              (AffirmationCollections w))
         (Affirmations w) (trace w ++ statements)
         (dates w) (S (date_calls w)) (uuids w) (uuid_calls w))
| collection_deleted u id statements :
    op = DeleteCollection ->
    caller context = Some u ->
    effect op request context w
      (Returned (mkResponse true None))
      (mkWorld
         (filter (fun r => negb (own_collection id u r))
                 (AffirmationCollections w))
         (filter (fun r => negb (in_own_collection id u r)) (Affirmations w))
         (trace w ++ statements)
         (dates w) (date_calls w) (uuids w) (uuid_calls w))
| affirmation_inserted u input statements :
    op = CreateAffirmation ->
    caller context = Some u ->
    createAffirmationSchema request = Some input ->
    (forall c, ca_collectionId input = Some c -> c <> "" ->
       exists col, In col (AffirmationCollections w)
                   /\ c_id col = c /\ c_userId col = user_id u) ->
    effect op request context w
      (Returned (mkResponse true
                   (Some (OneAffirmation (created_affirmation input u w)))))
      (mkWorld (AffirmationCollections w)
         (Affirmations w ++ [created_affirmation input u w])
         (trace w ++ statements)
         (dates w) (S (date_calls w)) (uuids w) (S (uuid_calls w)))
| affirmations_updated u input existing statements :
    op = UpdateAffirmation ->
    caller context = Some u ->
    updateAffirmationSchema request = Some input ->
    (forall c, ua_collectionId input = Some (Some c) -> c <> "" ->
       exists col, In col (AffirmationCollections w)
                   /\ c_id col = c /\ c_userId col = user_id u) ->
    In existing (Affirmations w) ->
    own_affirmation (ua_id input) u existing = true ->
    effect op request context w
      (Returned
         (mkResponse true
            (Some (OneAffirmation
                     (spread_affirmation existing
                        (affirmation_updates input w))))))
      (updated_world input u w statements)
| affirmation_deleted u id statements :
    op = DeleteAffirmation ->
    caller context = Some u ->
    effect op request context w
      (Returned (mkResponse true None))
      (mkWorld (AffirmationCollections w)
         (filter (fun r => negb (own_affirmation id u r)) (Affirmations w))
         (trace w ++ statements)
         (dates w) (date_calls w) (uuids w) (uuid_calls w)).

(* ===================================================================== *)
(** ** Basic facts: filters and table operations                         *)
(* ===================================================================== *)

Section Rows.

Context {R : Type}.
Variable owner : R -> string.

Lemma filter_app_one (p : R -> bool) (l : list R) (r : R) :
  p r = false -> filter p (l ++ [r]) = filter p l.
Proof.
  intros Hr. rewrite filter_app. simpl. rewrite Hr. apply app_nil_r.
Qed.

Lemma filter_map_outside (p cond : R -> bool) (set : R -> R) (l : list R) :
  (forall r, cond r = true -> p r = false /\ p (set r) = false) ->
  filter p (map (fun r => if cond r then set r else r) l) = filter p l.
Proof.
  intros H. induction l as [|r l IH]; simpl; [reflexivity|].
  destruct (cond r) eqn:Hc.
  - destruct (H r Hc) as [H1 H2]. rewrite H1, H2. exact IH.
  - rewrite IH. reflexivity.
Qed.

Lemma filter_filter_outside (p cond : R -> bool) (l : list R) :
  (forall r, cond r = true -> p r = false) ->
  filter p (filter (fun r => negb (cond r)) l) = filter p l.
Proof.
  intros H. induction l as [|r l IH]; simpl; [reflexivity|].
  destruct (cond r) eqn:Hc; simpl.
  - rewrite (H r Hc). exact IH.
  - rewrite IH. reflexivity.
Qed.

Lemma and_owner (id : R -> string) (i uid : string) (r : R) :
  Db.and [Db.eq id i; Db.eq owner uid] r = true <->
  id r = i /\ owner r = uid.
Proof.
  unfold Db.and, Db.eq. simpl. rewrite andb_true_r, andb_true_iff.
  rewrite !String.eqb_eq. tauto.
Qed.

Lemma not_foreign (uid : string) (r : R) :
  owner r = uid -> negb (owner r =? uid) = false.
Proof. intros ->. rewrite String.eqb_refl. reflexivity. Qed.

Lemma filter_none (p : R -> bool) (l : list R) :
  (forall r, In r l -> p r = false) -> filter p l = [].
Proof.
  induction l as [|x l IH]; simpl; intros H; [reflexivity|].
  rewrite (H x (or_introl eq_refl)). apply IH.
  intros r Hr. apply H. right. exact Hr.
Qed.

Lemma select_absent (id : R -> string) (l : list R) (i uid : string) :
  ~ In i (map id l) ->
  filter (Db.and [Db.eq id i; Db.eq owner uid]) l = [].
Proof.
  intros Hn. apply filter_none. intros r Hr.
  destruct (Db.and [Db.eq id i; Db.eq owner uid] r) eqn:E; [|reflexivity].
  apply and_owner in E. destruct E as [E _].
  exfalso. apply Hn. rewrite <- E. apply in_map. exact Hr.
Qed.

(** With unique identifiers, selecting by identifier and owner finds the
    row that has them. *)
Lemma select_unique (id : R -> string) (l : list R) (r : R) (uid : string) :
  NoDup (map id l) -> In r l -> owner r = uid ->
  filter (Db.and [Db.eq id (id r); Db.eq owner uid]) l = [r].
Proof.
  intros Hnd Hin Ho. induction l as [|x l IH]; [destruct Hin|].
  simpl in Hnd. inversion Hnd as [|? ? Hx Hl]; subst.
  cbn [filter]. destruct Hin as [->|Hin].
  - replace (Db.and [Db.eq id (id r); Db.eq owner (owner r)] r) with true.
    + rewrite (select_absent id l (id r) (owner r) Hx). reflexivity.
    + symmetry. apply and_owner. split; reflexivity.
  - destruct (Db.and [Db.eq id (id r); Db.eq owner (owner r)] x) eqn:Hxr.
    + apply and_owner in Hxr. destruct Hxr as [Hxr _].
      exfalso. apply Hx. rewrite Hxr. apply in_map. exact Hin.
    + apply IH; assumption.
Qed.

(** A row of another owner is never selected by identifier and owner
    when identifiers are unique. *)
Lemma select_foreign (id : R -> string) (l : list R) (r : R) (uid : string) :
  NoDup (map id l) -> In r l -> owner r <> uid ->
  filter (Db.and [Db.eq id (id r); Db.eq owner uid]) l = [].
Proof.
  intros Hnd Hin Ho. induction l as [|x l IH]; [reflexivity|].
  simpl in Hnd. inversion Hnd as [|? ? Hx Hl]; subst.
  cbn [filter]. destruct (Db.and [Db.eq id (id r); Db.eq owner uid] x) eqn:Hxr.
  - apply and_owner in Hxr. destruct Hxr as [Hid Hown].
    destruct Hin as [->|Hin]; [contradiction|].
    exfalso. apply Hx. rewrite Hid. apply in_map. exact Hin.
  - destruct Hin as [->|Hin]; [|apply IH; assumption].
    apply select_absent. exact Hx.
Qed.

End Rows.

(* ===================================================================== *)
(** ** What each handler computes                                        *)
(* ===================================================================== *)

Lemma requireUser_some (context : Context) (u : User) (w : World) :
  caller context = Some u -> requireUser context w = (Returned u, w).
Proof.
  unfold caller, requireUser. destruct (locals context) as [l|]; [|discriminate].
  destruct (user l); [|discriminate]. intros [= ->]. reflexivity.
Qed.

Lemma requireUser_none (context : Context) (w : World) :
  caller context = None -> requireUser context w = (Threw unauthorized, w).
Proof.
  unfold caller, requireUser. destruct (locals context) as [l|]; [|reflexivity].
  destruct (user l); [discriminate|reflexivity].
Qed.

(** A handler entered without a caller throws at its first statement. *)
Ltac enter_anonymous H :=
  unfold bind; rewrite (requireUser_none _ _ H); reflexivity.

(** A handler entered by a caller passes [requireUser]. *)
Ltac enter H :=
  unfold bind; rewrite (requireUser_some _ _ _ H); cbn.

Lemma createCollection_run input context u w :
  caller context = Some u ->
  Handler.createCollection input context w =
  collection_insertion (created_collection input u w) w [InsertCollection].
Proof.
  intros H. unfold Handler.createCollection, collection_insertion,
    Db.collection_exists.
  enter H.
  destruct (existsb _ (AffirmationCollections w)); reflexivity.
Qed.

Lemma updateCollection_run input context u w :
  caller context = Some u ->
  Handler.updateCollection input context w =
  let cond := Db.and [Db.eq c_id (uc_id input);
                      Db.eq c_userId (user_id u)] in
  match hd_error (filter cond (AffirmationCollections w)) with
  | None =>
      (Threw (ActionError NOT_FOUND "Collection not found."),
       issued w [SelectCollections])
  | Some existing =>
      let updates :=
        mkCollectionUpdates (uc_name input) (uc_description input)
          (uc_icon input) (uc_isDefault input) (dates w (date_calls w)) in
      (Returned (mkResponse true
                   (Some (OneCollection (spread_collection existing updates)))),
       mkWorld
         (map (fun r => if cond r then spread_collection r updates else r)
              (AffirmationCollections w))
         (Affirmations w)
         ((trace w ++ [SelectCollections]) ++ [UpdateCollections])
         (dates w) (S (date_calls w)) (uuids w) (uuid_calls w))
  end.
Proof.
  intros H. unfold Handler.updateCollection. enter H.
  destruct (hd_error _); reflexivity.
Qed.

Lemma deleteCollection_run input context u w :
  caller context = Some u ->
  Handler.deleteCollection input context w =
  match hd_error (filter (own_collection (in_id input) u)
                         (AffirmationCollections w)) with
  | None =>
      (Threw (ActionError NOT_FOUND "Collection not found."),
       issued w [SelectCollections])
  | Some _ =>
      if still_referenced (in_id input) u w
      then (Threw (StoreError FOREIGN_KEY),
            after_delete w (AffirmationCollections w)
              (after_cascade (in_id input) u w)
              [SelectCollections; DeleteAffirmations; DeleteCollections])
      else (Returned (mkResponse true None),
            after_delete w
              (filter (fun r => negb (own_collection (in_id input) u r))
                      (AffirmationCollections w))
              (after_cascade (in_id input) u w)
              [SelectCollections; DeleteAffirmations; DeleteCollections])
  end.
Proof.
  intros H.
  unfold Handler.deleteCollection, still_referenced, after_cascade,
    own_collection, in_own_collection, after_delete, Db.referenced.
  enter H.
  destruct (hd_error _); [|reflexivity].
  cbn. destruct (existsb _ (AffirmationCollections w));
    rewrite <- !app_assoc; reflexivity.
Qed.

Lemma listCollections_run input context u w :
  caller context = Some u ->
  Handler.listCollections input context w =
  let items := filter (Db.eq c_userId (user_id u)) (AffirmationCollections w) in
  (Returned (mkResponse true (Some (CollectionItems items (length items)))),
   issued w [SelectCollections]).
Proof. intros H. unfold Handler.listCollections. enter H. reflexivity. Qed.

Lemma requireCollection_run collectionId u w :
  Handler.requireCollection collectionId u w =
  match hd_error
          (filter (Db.and [Db.eq c_id collectionId;
                           Db.eq c_userId (user_id u)])
                  (AffirmationCollections w)) with
  | None =>
      (Threw (ActionError NOT_FOUND "Collection not found."),
       issued w [SelectCollections])
  | Some _ => (Returned tt, issued w [SelectCollections])
  end.
Proof.
  unfold Handler.requireCollection, bind. cbn.
  destruct (hd_error _); reflexivity.
Qed.

(** [createAffirmation] when the ownership check is skipped. *)
Lemma createAffirmation_unchecked input context u w :
  caller context = Some u ->
  truthy_opt (ca_collectionId input) = false ->
  Handler.createAffirmation input context w =
  affirmation_insertion (created_affirmation input u w) w [InsertAffirmation].
Proof.
  intros H Ht.
  unfold Handler.createAffirmation, affirmation_insertion,
    created_affirmation, Db.affirmation_exists, Db.reference_holds,
    Db.collection_exists.
  enter H.
  destruct (ca_collectionId input) as [c|]; simpl in Ht.
  - rewrite Ht. cbn.
    destruct (existsb _ (Affirmations w)); [reflexivity|].
    destruct (existsb _ (AffirmationCollections w)); reflexivity.
  - cbn. destruct (existsb _ (Affirmations w)); reflexivity.
Qed.

(** [createAffirmation] when the ownership check runs. *)
Lemma createAffirmation_checked input context u w collectionId :
  caller context = Some u ->
  ca_collectionId input = Some collectionId ->
  truthy_string collectionId = true ->
  Handler.createAffirmation input context w =
  match hd_error (filter (own_collection collectionId u)
                         (AffirmationCollections w)) with
  | None =>
      (Threw (ActionError NOT_FOUND "Collection not found."),
       issued w [SelectCollections])
  | Some _ =>
      affirmation_insertion (created_affirmation input u w) w
        [SelectCollections; InsertAffirmation]
  end.
Proof.
  intros H Hc Ht.
  unfold Handler.createAffirmation, affirmation_insertion,
    created_affirmation, own_collection, Db.affirmation_exists,
    Db.reference_holds, Db.collection_exists.
  enter H. rewrite Hc, Ht, requireCollection_run.
  destruct (hd_error _); [|reflexivity].
  cbn. destruct (existsb _ (Affirmations w));
    [rewrite <- app_assoc; reflexivity|].
  destruct (existsb _ (AffirmationCollections w));
    rewrite <- app_assoc; reflexivity.
Qed.

Lemma updateAffirmation_missing input context u w :
  caller context = Some u ->
  filter (own_affirmation (ua_id input) u) (Affirmations w) = [] ->
  Handler.updateAffirmation input context w =
  (Threw (ActionError NOT_FOUND "Affirmation not found."),
   issued w [SelectAffirmations]).
Proof.
  intros H He. unfold Handler.updateAffirmation. enter H.
  unfold own_affirmation in He. rewrite He. reflexivity.
Qed.

(** A row the select found is one the update selects. *)
Lemma selected_exists {R} (cond : R -> bool) (l : list R) (first : R) :
  hd_error (filter cond l) = Some first -> existsb cond l = true.
Proof.
  intros H. apply existsb_exists. exists first.
  destruct (filter cond l) as [|x rest] eqn:E; [discriminate|].
  injection H as ->. apply filter_In. rewrite E. left. reflexivity.
Qed.

(** [updateAffirmation] on an existing row when the ownership check of
    the collection is skipped. *)
Lemma updateAffirmation_unchecked input context u w existing :
  caller context = Some u ->
  hd_error (filter (own_affirmation (ua_id input) u) (Affirmations w))
  = Some existing ->
  truthy_nullable (ua_collectionId input) = false ->
  Handler.updateAffirmation input context w =
  affirmation_update input u w existing
    [SelectAffirmations; UpdateAffirmations].
Proof.
  intros H He Ht. pose proof (selected_exists _ _ _ He) as Hsel.
  unfold Handler.updateAffirmation, affirmation_update,
    assigned_reference_holds, updated_world, affirmation_updates,
    after_update, Db.reference_holds, Db.collection_exists.
  enter H. unfold own_affirmation in *. rewrite He.
  destruct (ua_collectionId input) as [[c|]|]; cbn in Ht |- *;
    rewrite ?Ht; cbn; rewrite Hsel; cbn;
    try destruct (existsb _ (AffirmationCollections w)); cbn;
    rewrite <- app_assoc; reflexivity.
Qed.

(** [updateAffirmation] on an existing row when the ownership check of
    the collection runs. *)
Lemma updateAffirmation_checked input context u w existing collectionId :
  caller context = Some u ->
  hd_error (filter (own_affirmation (ua_id input) u) (Affirmations w))
  = Some existing ->
  ua_collectionId input = Some (Some collectionId) ->
  truthy_string collectionId = true ->
  Handler.updateAffirmation input context w =
  match hd_error (filter (own_collection collectionId u)
                         (AffirmationCollections w)) with
  | None =>
      (Threw (ActionError NOT_FOUND "Collection not found."),
       issued w [SelectAffirmations; SelectCollections])
  | Some _ =>
      affirmation_update input u w existing
        [SelectAffirmations; SelectCollections; UpdateAffirmations]
  end.
Proof.
  intros H He Hc Ht. pose proof (selected_exists _ _ _ He) as Hsel.
  unfold Handler.updateAffirmation, affirmation_update,
    assigned_reference_holds, updated_world, affirmation_updates,
    after_update, Db.reference_holds, Db.collection_exists.
  enter H.
  unfold own_affirmation, own_collection in *. rewrite He, Hc, Ht.
  rewrite requireCollection_run. cbn.
  destruct (hd_error (filter _ (AffirmationCollections w)));
    cbn; unfold issued, with_trace; cbn;
    [|rewrite <- ?app_assoc; reflexivity].
  rewrite Hsel. cbn.
  destruct (existsb _ (AffirmationCollections w)); cbn;
    rewrite <- !app_assoc; reflexivity.
Qed.

Lemma deleteAffirmation_run input context u w :
  caller context = Some u ->
  Handler.deleteAffirmation input context w =
  match hd_error (filter (own_affirmation (in_id input) u) (Affirmations w))
  with
  | None =>
      (Threw (ActionError NOT_FOUND "Affirmation not found."),
       issued w [SelectAffirmations])
  | Some _ =>
      (Returned (mkResponse true None),
       mkWorld (AffirmationCollections w)
         (filter (fun r => negb (own_affirmation (in_id input) u r))
                 (Affirmations w))
         (trace w ++ [SelectAffirmations; DeleteAffirmations])
         (dates w) (date_calls w) (uuids w) (uuid_calls w))
  end.
Proof.
  intros H. unfold Handler.deleteAffirmation, own_affirmation. enter H.
  destruct (hd_error _); cbn; rewrite <- ?app_assoc; reflexivity.
Qed.

Lemma listAffirmations_run input context u w :
  caller context = Some u ->
  Handler.listAffirmations input context w =
  let items := filter (Db.and (Handler.filters input u)) (Affirmations w) in
  (Returned (mkResponse true (Some (AffirmationItems items (length items)))),
   issued w [SelectAffirmations]).
Proof. intros H. unfold Handler.listAffirmations. enter H. reflexivity. Qed.

(** Every handler called without a caller throws [UNAUTHORIZED] before it
    touches anything. *)
Lemma handlers_anonymous context w :
  caller context = None ->
  (forall i, Handler.createCollection i context w = (Threw unauthorized, w))
  /\ (forall i, Handler.updateCollection i context w = (Threw unauthorized, w))
  /\ (forall i, Handler.deleteCollection i context w = (Threw unauthorized, w))
  /\ (forall i, Handler.listCollections i context w = (Threw unauthorized, w))
  /\ (forall i, Handler.createAffirmation i context w = (Threw unauthorized, w))
  /\ (forall i, Handler.updateAffirmation i context w = (Threw unauthorized, w))
  /\ (forall i, Handler.deleteAffirmation i context w = (Threw unauthorized, w))
  /\ (forall i, Handler.listAffirmations i context w = (Threw unauthorized, w)).
Proof.
  intros H. repeat split; intros i.
  - unfold Handler.createCollection. enter_anonymous H.
  - unfold Handler.updateCollection. enter_anonymous H.
  - unfold Handler.deleteCollection. enter_anonymous H.
  - unfold Handler.listCollections. enter_anonymous H.
  - unfold Handler.createAffirmation. enter_anonymous H.
  - unfold Handler.updateAffirmation. enter_anonymous H.
  - unfold Handler.deleteAffirmation. enter_anonymous H.
  - unfold Handler.listAffirmations. enter_anonymous H.
Qed.
(* ===================================================================== *)
(** ** Authorization and validation                                      *)
(* ===================================================================== *)

(** A request the schema rejects never reaches the handler. *)
Lemma defineAction_rejects {I} (schema : value -> option I) handler
    request context w :
  schema request = None ->
  defineAction schema handler request context w = (Threw ActionInputError, w).
Proof. intros H. unfold defineAction. rewrite H. reflexivity. Qed.

Lemma defineAction_accepts {I} (schema : value -> option I) handler
    request context input :
  schema request = Some input ->
  defineAction schema handler request context = handler input context.
Proof. intros H. unfold defineAction. rewrite H. reflexivity. Qed.

(** C2, the claim as stated fails: an anonymous [updateCollection] request
    that carries only an id is turned down by the input schema before
    [requireUser] runs, so the error is the validation error and not
    [UNAUTHORIZED]. *)
Lemma anonymous_invalid_request_is_not_unauthorized :
  caller anonymous = None
  /\ fst (call UpdateCollection (VObject [("id", VString "C1")])
            anonymous Scenario.w2)
     = Threw ActionInputError
  /\ fst (call UpdateCollection (VObject [("id", VString "C1")])
            anonymous Scenario.w2)
     <> Threw unauthorized.
Proof. repeat split. discriminate. Qed.

(** C2 (amended): for each of the eight operations, a request that its
    input schema accepts and that carries no authenticated user fails with
    [UNAUTHORIZED] and leaves the whole world as it was: no statement is
    sent to the database, no row changes.  Whatever the request, an
    anonymous call changes nothing. *)
Theorem anonymous_call_unauthorized (op : Operation) (request : value)
    (context : Context) (w : World) :
  caller context = None ->
  (accepts op request = true ->
   call op request context w = (Threw unauthorized, w))
  /\ snd (call op request context w) = w.
Proof.
  intros H. destruct (handlers_anonymous context w H)
    as (H1 & H2 & H3 & H4 & H5 & H6 & H7 & H8).
  destruct op; cbn [call accepts];
    unfold server.createCollection, server.updateCollection,
      server.deleteCollection, server.listCollections,
      server.createAffirmation, server.updateAffirmation,
      server.deleteAffirmation, server.listAffirmations, defineAction.
  - destruct (createCollectionSchema request); [rewrite H1|]; split;
      (reflexivity || discriminate).
  - destruct (updateCollectionSchema request); [rewrite H2|]; split;
      (reflexivity || discriminate).
  - destruct (idSchema request); [rewrite H3|]; split;
      (reflexivity || discriminate).
  - destruct (listCollectionsSchema request); [rewrite H4|]; split;
      (reflexivity || discriminate).
  - destruct (createAffirmationSchema request); [rewrite H5|]; split;
      (reflexivity || discriminate).
  - destruct (updateAffirmationSchema request); [rewrite H6|]; split;
      (reflexivity || discriminate).
  - destruct (idSchema request); [rewrite H7|]; split;
      (reflexivity || discriminate).
  - destruct (listAffirmationsSchema request); [rewrite H8|]; split;
      (reflexivity || discriminate).
Qed.

Lemma anonymous_call_unauthorized_witness :
  call DeleteCollection (VObject [("id", VString "C1")]) anonymous Scenario.w2
  = (Threw unauthorized, Scenario.w2)
  /\ snd (call UpdateCollection (VObject [("id", VString "C1")])
            anonymous Scenario.w2) = Scenario.w2.
Proof.
  split.
  - apply (anonymous_call_unauthorized DeleteCollection
             (VObject [("id", VString "C1")]) anonymous Scenario.w2);
      reflexivity.
  - apply (anonymous_call_unauthorized UpdateCollection
             (VObject [("id", VString "C1")]) anonymous Scenario.w2).
    reflexivity.
Defined.

(** C6: for every caller, authenticated or not, [updateCollection] and
    [updateAffirmation] called with an object that supplies none of the
    optional fields fail with the validation error and leave the world
    unchanged. *)
Theorem update_without_fields_is_invalid (o : list (string * value))
    (context : Context) (w : World) :
  (none_supplied ["name"; "description"; "icon"; "isDefault"] o ->
   server.updateCollection (VObject o) context w = (Threw ActionInputError, w))
  /\ (none_supplied ["text"; "collectionId"; "category"; "language"; "tags";
                     "useTimeOfDay"; "isFavorite"] o ->
      server.updateAffirmation (VObject o) context w
      = (Threw ActionInputError, w)).
Proof.
  split; intros H.
  - apply defineAction_rejects.
    unfold updateCollectionSchema, refine, updateCollectionObject.
    rewrite (H "name"), (H "description"), (H "icon"), (H "isDefault")
      by (simpl; tauto).
    destruct (string_ (get "id" o)); reflexivity.
  - apply defineAction_rejects.
    unfold updateAffirmationSchema, refine, updateAffirmationObject.
    rewrite (H "text"), (H "collectionId"), (H "category"), (H "language"),
      (H "tags"), (H "useTimeOfDay"), (H "isFavorite") by (simpl; tauto).
    destruct (string_ (get "id" o)); reflexivity.
Qed.

Lemma update_without_fields_is_invalid_witness :
  server.updateCollection (VObject [("id", VString "C1")])
    (signed_in "u") Scenario.w2
  = (Threw ActionInputError, Scenario.w2)
  /\ server.updateAffirmation (VObject [("id", VString "A1")])
       anonymous Scenario.w2
     = (Threw ActionInputError, Scenario.w2).
Proof.
  split.
  - apply (update_without_fields_is_invalid [("id", VString "C1")]
             (signed_in "u") Scenario.w2).
    intros k Hk. simpl in Hk.
    repeat (destruct Hk as [<-|Hk]; [reflexivity|]). destruct Hk.
  - apply (update_without_fields_is_invalid [("id", VString "A1")]
             anonymous Scenario.w2).
    intros k Hk. simpl in Hk.
    repeat (destruct Hk as [<-|Hk]; [reflexivity|]). destruct Hk.
Defined.

(* ===================================================================== *)
(** ** The constraints of the store                                      *)
(* ===================================================================== *)

Lemma collection_exists_iff (id : string) (w : World) :
  Db.collection_exists id w = true
  <-> In id (map c_id (AffirmationCollections w)).
Proof.
  unfold Db.collection_exists. rewrite existsb_exists, in_map_iff.
  split; intros (r & H1 & H2).
  - apply String.eqb_eq in H2. exists r. auto.
  - exists r. split; [exact H2|]. apply String.eqb_eq. exact H1.
Qed.

Lemma affirmation_exists_iff (id : string) (w : World) :
  Db.affirmation_exists id w = true <-> In id (map a_id (Affirmations w)).
Proof.
  unfold Db.affirmation_exists. rewrite existsb_exists, in_map_iff.
  split; intros (r & H1 & H2).
  - apply String.eqb_eq in H2. exists r. auto.
  - exists r. split; [exact H2|]. apply String.eqb_eq. exact H1.
Qed.

Lemma collection_unused (id : string) (w : World) :
  ~ In id (map c_id (AffirmationCollections w)) ->
  Db.collection_exists id w = false.
Proof.
  intros H. apply not_true_is_false. rewrite collection_exists_iff. exact H.
Qed.

Lemma affirmation_unused (id : string) (w : World) :
  ~ In id (map a_id (Affirmations w)) ->
  Db.affirmation_exists id w = false.
Proof.
  intros H. apply not_true_is_false. rewrite affirmation_exists_iff. exact H.
Qed.

Lemma collection_found (col : Collection) (w : World) :
  In col (AffirmationCollections w) ->
  Db.collection_exists (c_id col) w = true.
Proof. intros H. apply collection_exists_iff, in_map. exact H. Qed.

(** The insert of a collection under a fresh identifier goes through. *)
Lemma collection_insertion_fresh row w statements :
  ~ In (c_id row) (map c_id (AffirmationCollections w)) ->
  collection_insertion row w statements
  = (Returned (mkResponse true (Some (OneCollection row))),
     after_create w (AffirmationCollections w ++ [row]) (Affirmations w)
       statements).
Proof.
  intros H. unfold collection_insertion.
  rewrite (collection_unused _ _ H). reflexivity.
Qed.

(** The insert of an affirmation under a fresh identifier and with a
    reference that holds goes through. *)
Lemma affirmation_insertion_fresh row w statements :
  ~ In (a_id row) (map a_id (Affirmations w)) ->
  Db.reference_holds (a_collectionId row) w = true ->
  affirmation_insertion row w statements
  = (Returned (mkResponse true (Some (OneAffirmation row))),
     after_create w (AffirmationCollections w) (Affirmations w ++ [row])
       statements).
Proof.
  intros H Href. unfold affirmation_insertion.
  rewrite (affirmation_unused _ _ H), Href. reflexivity.
Qed.

(* ===================================================================== *)
(** ** Creating rows                                                     *)
(* ===================================================================== *)

Lemma string_min1_accepts (s : string) :
  (1 <= String.length s)%nat -> string_min1 (VString s) = Some s.
Proof.
  intros H. unfold string_min1.
  destruct (Nat.leb_spec 1 (String.length s)); [reflexivity|lia].
Qed.

(** C8: [createCollection] with an empty name fails validation and
    inserts nothing.  With a name of length at least 1 (and the other
    fields well-typed) a signed-in caller succeeds, the identifier the
    generator hands out being a fresh one: the returned record carries
    that identifier, the caller as owner, [isDefault] false when omitted,
    equal creation and update timestamps, and it is the row appended to
    the table. *)
Theorem createCollection_spec (o : list (string * value))
    (context : Context) (w : World) :
  (get "name" o = VString "" ->
   server.createCollection (VObject o) context w
   = (Threw ActionInputError, w))
  /\ (forall caller_ name description icon isDefault,
        caller context = Some caller_ ->
        get "name" o = VString name ->
        (1 <= String.length name)%nat ->
        optional string_ (get "description" o) = Some description ->
        optional string_ (get "icon" o) = Some icon ->
        optional boolean (get "isDefault" o) = Some isDefault ->
        ~ In (uuids w (uuid_calls w)) (map c_id (AffirmationCollections w)) ->
        exists collection w',
          server.createCollection (VObject o) context w
          = (Returned (mkResponse true (Some (OneCollection collection))), w')
          /\ c_id collection = uuids w (uuid_calls w)
          /\ uuid_calls w' = S (uuid_calls w)
          /\ c_userId collection = user_id caller_
          /\ c_name collection = name
          /\ (get "isDefault" o = VUndefined -> c_isDefault collection = false)
          /\ c_createdAt collection = c_updatedAt collection
          /\ AffirmationCollections w' = AffirmationCollections w ++ [collection]
          /\ Affirmations w' = Affirmations w).
Proof.
  split.
  - intros H. apply defineAction_rejects.
    unfold createCollectionSchema. rewrite H. reflexivity.
  - intros u name description icon isDefault Hu Hn Hlen Hd Hi Hb Hfresh.
    unfold server.createCollection.
    rewrite (defineAction_accepts _ _ _ _
               (mkCreateCollectionInput name description icon isDefault)).
    + rewrite (createCollection_run _ _ u w Hu).
      rewrite collection_insertion_fresh by exact Hfresh.
      eexists. eexists. split; [reflexivity|]. cbn.
      repeat split.
      intros Hundef. rewrite Hundef in Hb. cbn in Hb.
      injection Hb as <-. reflexivity.
    + unfold createCollectionSchema.
      rewrite Hn, (string_min1_accepts name Hlen), Hd, Hi, Hb. reflexivity.
Qed.

Lemma createCollection_spec_witness :
  server.createCollection (VObject [("name", VString "")])
    Scenario.U Scenario.empty
  = (Threw ActionInputError, Scenario.empty)
  /\ exists collection w',
       server.createCollection (VObject [("name", VString "Morning")])
         Scenario.U Scenario.empty
       = (Returned (mkResponse true (Some (OneCollection collection))), w')
       /\ c_id collection = "C1"
       /\ c_userId collection = "u"
       /\ c_isDefault collection = false
       /\ c_createdAt collection = c_updatedAt collection.
Proof.
  split.
  - apply (createCollection_spec [("name", VString "")]
             Scenario.U Scenario.empty).
    reflexivity.
  - destruct (proj2 (createCollection_spec [("name", VString "Morning")]
                       Scenario.U Scenario.empty)
                (mkUser "u") "Morning" None None None
                eq_refl eq_refl ltac:(simpl; lia) eq_refl eq_refl eq_refl
                ltac:(simpl; tauto))
      as (c & w' & Hrun & Hid & _ & Hu & _ & Hdef & Ht & _).
    exists c, w'. repeat split; try assumption.
    apply Hdef. reflexivity.
Defined.

(** C4, the code misses the claim at the empty string: a supplied
    [collectionId] equal to [""] passes the schema and is falsy, so the
    ownership check is skipped and the call does not fail [NOT_FOUND];
    since [??] keeps the empty string, the insert is sent with
    [collectionId = ""], and the store refuses it as long as no
    collection has the empty identifier.  Nothing is inserted, but the
    clock and the identifier generator have been read. *)
Theorem createAffirmation_empty_collectionId (request : value)
    (context : Context) (caller_ : User) (input : CreateAffirmationInput)
    (w : World) :
  caller context = Some caller_ ->
  createAffirmationSchema request = Some input ->
  ca_collectionId input = Some "" ->
  ~ In "" (map c_id (AffirmationCollections w)) ->
  ~ In (uuids w (uuid_calls w)) (map a_id (Affirmations w)) ->
  fst (server.createAffirmation request context w)
  = Threw (StoreError FOREIGN_KEY)
  /\ trace (snd (server.createAffirmation request context w))
     = trace w ++ [InsertAffirmation]
  /\ Affirmations (snd (server.createAffirmation request context w))
     = Affirmations w
  /\ AffirmationCollections (snd (server.createAffirmation request context w))
     = AffirmationCollections w
  /\ uuid_calls (snd (server.createAffirmation request context w))
     = S (uuid_calls w).
Proof.
  intros Hu Hs Hc Hnone Hfresh. unfold server.createAffirmation.
  rewrite (defineAction_accepts _ _ _ _ input Hs).
  rewrite (createAffirmation_unchecked _ _ caller_ w Hu)
    by (rewrite Hc; reflexivity).
  unfold affirmation_insertion.
  change (a_id (created_affirmation input caller_ w))
    with (uuids w (uuid_calls w)).
  change (a_collectionId (created_affirmation input caller_ w))
    with (or_null (ca_collectionId input)).
  rewrite (affirmation_unused _ _ Hfresh), Hc.
  cbn [or_null Db.reference_holds]. rewrite (collection_unused _ _ Hnone).
  repeat split.
Qed.

Lemma createAffirmation_empty_collectionId_witness :
  fst (server.createAffirmation
         (VObject [("text", VString "t"); ("collectionId", VString "")])
         Scenario.V Scenario.w2)
  = Threw (StoreError FOREIGN_KEY)
  /\ Affirmations
       (snd (server.createAffirmation
               (VObject [("text", VString "t"); ("collectionId", VString "")])
               Scenario.V Scenario.w2))
     = Affirmations Scenario.w2.
Proof.
  destruct (createAffirmation_empty_collectionId
              (VObject [("text", VString "t"); ("collectionId", VString "")])
              Scenario.V (mkUser "v")
              (mkCreateAffirmationInput "t" (Some "") None None None None None)
              Scenario.w2 eq_refl eq_refl eq_refl)
    as (Hr & _ & Ha & _).
  - simpl. intros [H|[]]. discriminate.
  - simpl. intros [H|[]]. discriminate.
  - split; assumption.
Defined.

(** X18: apart from the empty string, [createAffirmation] does what it
    is meant to.  With a supplied non-empty [collectionId] that names no
    collection owned by the caller it fails [NOT_FOUND] and inserts
    nothing; with [collectionId] omitted, and the identifier drawn a
    fresh one, it succeeds and the created row has a null
    [collectionId], [isSystem] false, the caller as owner, the
    identifier just drawn and equal creation and update timestamps, and
    is the row appended to the table. *)
Theorem createAffirmation_spec (request : value) (context : Context)
    (caller_ : User) (input : CreateAffirmationInput) (w : World) :
  caller context = Some caller_ ->
  createAffirmationSchema request = Some input ->
  (forall collectionId,
     ca_collectionId input = Some collectionId ->
     collectionId <> "" ->
     (forall c, In c (AffirmationCollections w) ->
                c_id c = collectionId -> c_userId c <> user_id caller_) ->
     fst (server.createAffirmation request context w)
     = Threw (ActionError NOT_FOUND "Collection not found.")
     /\ Affirmations (snd (server.createAffirmation request context w))
        = Affirmations w
     /\ AffirmationCollections
          (snd (server.createAffirmation request context w))
        = AffirmationCollections w)
  /\ (ca_collectionId input = None ->
      ~ In (uuids w (uuid_calls w)) (map a_id (Affirmations w)) ->
      exists affirmation w',
        server.createAffirmation request context w
        = (Returned (mkResponse true (Some (OneAffirmation affirmation))), w')
        /\ a_collectionId affirmation = None
        /\ a_isSystem affirmation = false
        /\ a_userId affirmation = user_id caller_
        /\ a_id affirmation = uuids w (uuid_calls w)
        /\ uuid_calls w' = S (uuid_calls w)
        /\ a_createdAt affirmation = a_updatedAt affirmation
        /\ Affirmations w' = Affirmations w ++ [affirmation]
        /\ AffirmationCollections w' = AffirmationCollections w).
Proof.
  intros Hu Hs. unfold server.createAffirmation.
  rewrite (defineAction_accepts _ _ _ _ input Hs). split.
  - intros collectionId Hc Hne Hnone.
    assert (Ht : truthy_string collectionId = true).
    { unfold truthy_string. apply negb_true_iff, String.eqb_neq. exact Hne. }
    rewrite (createAffirmation_checked _ _ caller_ w collectionId Hu Hc Ht).
    rewrite filter_none.
    + cbn. repeat split.
    + intros c Hin.
      destruct (own_collection collectionId caller_ c) eqn:E; [|reflexivity].
      apply (and_owner c_userId c_id) in E. destruct E as [E1 E2].
      exfalso. exact (Hnone c Hin E1 E2).
  - intros Hc Hfresh.
    rewrite (createAffirmation_unchecked _ _ caller_ w Hu)
      by (rewrite Hc; reflexivity).
    rewrite affirmation_insertion_fresh;
      [|exact Hfresh|unfold created_affirmation; cbn; rewrite Hc; reflexivity].
    eexists. eexists. split; [reflexivity|].
    unfold created_affirmation. cbn. rewrite Hc. repeat split.
Qed.

Lemma createAffirmation_spec_witness :
  fst (server.createAffirmation
         (VObject [("text", VString "t"); ("collectionId", VString "C1")])
         Scenario.V Scenario.w2)
  = Threw (ActionError NOT_FOUND "Collection not found.")
  /\ exists affirmation w',
       server.createAffirmation (VObject [("text", VString "t")])
         Scenario.V Scenario.w2
       = (Returned (mkResponse true (Some (OneAffirmation affirmation))), w')
       /\ a_collectionId affirmation = None
       /\ a_isSystem affirmation = false
       /\ a_userId affirmation = "v".
Proof.
  split.
  - apply (proj1 (createAffirmation_spec
             (VObject [("text", VString "t"); ("collectionId", VString "C1")])
             Scenario.V (mkUser "v")
             (mkCreateAffirmationInput "t" (Some "C1") None None None None None)
             Scenario.w2 eq_refl eq_refl) "C1" eq_refl).
    + discriminate.
    + intros c [<-|[]] _. discriminate.
  - destruct (proj2 (createAffirmation_spec
                       (VObject [("text", VString "t")])
                       Scenario.V (mkUser "v")
                       (mkCreateAffirmationInput "t" None None None None None None)
                       Scenario.w2 eq_refl eq_refl) eq_refl)
      as (a & w' & Hrun & Hc & Hs & Hu & _).
    + simpl. intros [H|[]]. discriminate.
    + exists a, w'. repeat split; assumption.
Defined.
(* ===================================================================== *)
(** ** Updating an affirmation                                           *)
(* ===================================================================== *)

Section Selected.

Context {R : Type}.

Lemma hd_filter_exists (p : R -> bool) (l : list R) (x : R) :
  In x l -> p x = true ->
  exists y, hd_error (filter p l) = Some y /\ In y l /\ p y = true.
Proof.
  intros Hin Hp.
  assert (Hf : In x (filter p l)) by (apply filter_In; split; assumption).
  destruct (filter p l) as [|y rest] eqn:E; [destruct Hf|].
  exists y. split; [reflexivity|].
  apply filter_In. rewrite E. left. reflexivity.
Qed.

Lemma hd_filter_sound (p : R -> bool) (l : list R) (y : R) :
  hd_error (filter p l) = Some y -> In y l /\ p y = true.
Proof.
  intros H. destruct (filter p l) as [|z rest] eqn:E; [discriminate|].
  injection H as ->. apply filter_In. rewrite E. left. reflexivity.
Qed.

Lemma in_map_selected (cond : R -> bool) (set : R -> R) (l : list R) (y : R) :
  In y l -> cond y = true ->
  In (set y) (map (fun r => if cond r then set r else r) l).
Proof.
  intros Hin Hc. apply in_map_iff. exists y. rewrite Hc. split; auto.
Qed.

Lemma in_map_cases (cond : R -> bool) (set : R -> R) (l : list R) (a : R) :
  In a (map (fun r => if cond r then set r else r) l) ->
  (exists r, In r l /\ cond r = true /\ a = set r)
  \/ (In a l /\ cond a = false).
Proof.
  intros H. apply in_map_iff in H. destruct H as (r & Hr & Hin).
  destruct (cond r) eqn:E.
  - left. exists r. auto.
  - right. subst. auto.
Qed.

Lemma NoDup_map_injective (f : R -> string) (l : list R) (x y : R) :
  NoDup (map f l) -> In x l -> In y l -> f x = f y -> x = y.
Proof.
  induction l as [|z l IH]; simpl; intros Hnd Hx Hy Hf; [destruct Hx|].
  inversion Hnd as [|? ? Hz Hl]; subst.
  destruct Hx as [->|Hx], Hy as [->|Hy]; auto.
  - exfalso. apply Hz. rewrite Hf. apply in_map. exact Hy.
  - exfalso. apply Hz. rewrite <- Hf. apply in_map. exact Hx.
Qed.

End Selected.

Lemma truthy_string_iff (s : string) : truthy_string s = true <-> s <> "".
Proof.
  unfold truthy_string. rewrite negb_true_iff. apply String.eqb_neq.
Qed.

Lemma own_affirmation_iff id u a :
  own_affirmation id u a = true <-> a_id a = id /\ a_userId a = user_id u.
Proof. apply (and_owner a_userId a_id). Qed.

Lemma own_collection_iff id u c :
  own_collection id u c = true <-> c_id c = id /\ c_userId c = user_id u.
Proof. apply (and_owner c_userId c_id). Qed.

(** When the collection an update assigns belongs to the caller, the
    assigned reference holds. *)
Lemma owned_reference_holds input u w :
  (forall c, ua_collectionId input = Some (Some c) ->
     exists col, In col (AffirmationCollections w)
                 /\ c_id col = c /\ c_userId col = user_id u) ->
  assigned_reference_holds input w = true.
Proof.
  intros H. unfold assigned_reference_holds.
  destruct (ua_collectionId input) as [[c|]|]; try reflexivity.
  destruct (H c eq_refl) as (col & Hin & <- & _).
  apply collection_found. exact Hin.
Qed.

(** An update whose collection, if one is named, belongs to the caller
    goes through: the first row selected by identifier and owner is
    merged with the updates, returned, and written back. *)
Lemma updateAffirmation_succeeds input context u w existing :
  caller context = Some u ->
  hd_error (filter (own_affirmation (ua_id input) u) (Affirmations w))
  = Some existing ->
  (forall c, ua_collectionId input = Some (Some c) ->
     exists col, In col (AffirmationCollections w)
                 /\ c_id col = c /\ c_userId col = user_id u) ->
  exists statements,
    Handler.updateAffirmation input context w =
    (Returned
       (mkResponse true
          (Some (OneAffirmation
                   (spread_affirmation existing
                      (affirmation_updates input w))))),
     updated_world input u w statements).
Proof.
  intros Hu He Hcol.
  pose proof (owned_reference_holds input u w Hcol) as Href.
  destruct (truthy_nullable (ua_collectionId input)) eqn:Ht.
  - destruct (ua_collectionId input) as [[c|]|] eqn:Ec; try discriminate.
    cbn in Ht.
    rewrite (updateAffirmation_checked _ _ u w existing c Hu He Ec Ht).
    destruct (Hcol c eq_refl) as (col & Hin & Hid & Hown).
    destruct (hd_filter_exists (own_collection c u) _ col Hin
                (proj2 (own_collection_iff c u col) (conj Hid Hown)))
      as (y & -> & _).
    unfold affirmation_update.
    rewrite Href.
    eexists. reflexivity.
  - rewrite (updateAffirmation_unchecked _ _ u w existing Hu He Ht).
    unfold affirmation_update.
    rewrite Href.
    eexists. reflexivity.
Qed.



(** C5, the claim as stated fails: an affirmation created and then
    updated within the same millisecond keeps its [updatedAt], since the
    new value is the clock reading, which need not exceed the prior one;
    and a valid input that names a collection the caller does not own
    yields no record at all. *)
Lemma update_within_one_millisecond_keeps_updatedAt :
  In Scenario.A1' (Affirmations Scenario.f2)
  /\ fst (server.updateAffirmation
            (VObject [("id", VString "A1"); ("text", VString "I am able")])
            Scenario.U Scenario.f2)
     = Returned (mkResponse true (Some (OneAffirmation Scenario.A1'')))
  /\ In Scenario.A1''
        (Affirmations
           (snd (server.updateAffirmation
                   (VObject [("id", VString "A1");
                             ("text", VString "I am able")])
                   Scenario.U Scenario.f2)))
  /\ a_id Scenario.A1'' = a_id Scenario.A1'
  /\ ~ (a_updatedAt Scenario.A1' < a_updatedAt Scenario.A1'')%Z
  /\ fst (server.updateAffirmation
            (VObject [("id", VString "A1"); ("collectionId", VString "C9")])
            Scenario.U Scenario.f2)
     = Threw (ActionError NOT_FOUND "Collection not found.").
Proof.
  split; [left; reflexivity|].
  split; [reflexivity|]. split; [left; reflexivity|].
  split; [reflexivity|]. split; [cbn; lia|reflexivity].
Qed.

(** C5 (amended): for every existing affirmation owned by the caller and
    every valid [updateAffirmation] input whose [collectionId], when it
    is a string, names a collection of the caller, the call succeeds; the
    returned record is the one persisted under that identifier (these
    being unique); each supplied field
    is replaced and each field not supplied keeps its prior value; [id],
    [userId], [createdAt] and [isSystem] are unchanged; [updatedAt] is the
    clock reading taken by the update, hence later than the prior value
    whenever that reading is; every other row is left as it was. *)
Theorem updateAffirmation_frame (request : value) (context : Context)
    (caller_ : User) (input : UpdateAffirmationInput) (w : World)
    (existing : Affirmation) :
  caller context = Some caller_ ->
  updateAffirmationSchema request = Some input ->
  NoDup (map a_id (Affirmations w)) ->
  In existing (Affirmations w) ->
  a_id existing = ua_id input ->
  a_userId existing = user_id caller_ ->
  (forall c, ua_collectionId input = Some (Some c) ->
     exists col, In col (AffirmationCollections w)
                 /\ c_id col = c /\ c_userId col = user_id caller_) ->
  exists affirmation w',
    server.updateAffirmation request context w
    = (Returned (mkResponse true (Some (OneAffirmation affirmation))), w')
    /\ In affirmation (Affirmations w')
    /\ (forall a, In a (Affirmations w') ->
                  a_id a = a_id existing -> a = affirmation)
    /\ a_id affirmation = a_id existing
    /\ a_userId affirmation = a_userId existing
    /\ a_createdAt affirmation = a_createdAt existing
    /\ a_isSystem affirmation = a_isSystem existing
    /\ replaced_or_kept (ua_text input)
         (a_text existing) (a_text affirmation)
    /\ replaced_or_kept (ua_collectionId input)
         (a_collectionId existing) (a_collectionId affirmation)
    /\ replaced_or_kept_nullable (ua_category input)
         (a_category existing) (a_category affirmation)
    /\ replaced_or_kept_nullable (ua_language input)
         (a_language existing) (a_language affirmation)
    /\ replaced_or_kept_nullable (ua_tags input)
         (a_tags existing) (a_tags affirmation)
    /\ replaced_or_kept_nullable (ua_useTimeOfDay input)
         (a_useTimeOfDay existing) (a_useTimeOfDay affirmation)
    /\ replaced_or_kept (ua_isFavorite input)
         (a_isFavorite existing) (a_isFavorite affirmation)
    /\ a_updatedAt affirmation = dates w (date_calls w)
    /\ ((a_updatedAt existing < dates w (date_calls w))%Z ->
        (a_updatedAt existing < a_updatedAt affirmation)%Z)
    /\ (forall a, a_id a <> a_id existing ->
                  (In a (Affirmations w') <-> In a (Affirmations w)))
    /\ AffirmationCollections w' = AffirmationCollections w.
Proof.
  intros Hu Hs Hnd Hin Hid Hown Hcol. unfold server.updateAffirmation.
  rewrite (defineAction_accepts _ _ _ _ input Hs).
  assert (Hsel : filter (own_affirmation (ua_id input) caller_)
                   (Affirmations w) = [existing]).
  { rewrite <- Hid. unfold own_affirmation.
    apply (select_unique a_userId a_id); assumption. }
  assert (Hcond : own_affirmation (ua_id input) caller_ existing = true)
    by (apply own_affirmation_iff; split; assumption).
  destruct (updateAffirmation_succeeds input context caller_ w existing Hu)
    as (statements & ->); [rewrite Hsel; reflexivity | exact Hcol |].
  eexists. eexists. split; [reflexivity|].
  set (updates := affirmation_updates input w).
  cbn [updated_world Affirmations AffirmationCollections].
  split.
  { apply (in_map_selected (own_affirmation (ua_id input) caller_)
             (fun r => spread_affirmation r updates)); assumption. }
  split.
  { intros a Ha Haid.
    apply in_map_cases in Ha. destruct Ha as [(r & Hr & Hc & ->)|[Ha Hc]].
    - f_equal. apply (NoDup_map_injective a_id (Affirmations w)); auto.
    - assert (a = existing)
        by (apply (NoDup_map_injective a_id (Affirmations w)); auto).
      subst a. congruence. }
  repeat (split; [reflexivity|]).
  split; [cbn; destruct (ua_text input); reflexivity|].
  split; [cbn; destruct (ua_collectionId input); reflexivity|].
  split; [cbn; destruct (ua_category input); reflexivity|].
  split; [cbn; destruct (ua_language input); reflexivity|].
  split; [cbn; destruct (ua_tags input); reflexivity|].
  split; [cbn; destruct (ua_useTimeOfDay input); reflexivity|].
  split; [cbn; destruct (ua_isFavorite input); reflexivity|].
  split; [reflexivity|]. split; [intros Hlt; exact Hlt|].
  split; [|reflexivity].
  intros a Hne. split.
  - intros Ha. apply in_map_cases in Ha.
    destruct Ha as [(r & Hr & Hc & ->)|[Ha _]]; [|exact Ha].
    apply own_affirmation_iff in Hc. destruct Hc as [Hc _].
    exfalso. apply Hne. cbn. congruence.
  - intros Ha. apply in_map_iff. exists a. split; [|exact Ha].
    destruct (own_affirmation (ua_id input) caller_ a) eqn:E; [|reflexivity].
    apply own_affirmation_iff in E. destruct E as [E _].
    exfalso. apply Hne. congruence.
Qed.

Lemma updateAffirmation_frame_witness :
  exists affirmation w',
    server.updateAffirmation
      (VObject [("id", VString "A1"); ("text", VString "I am able")])
      Scenario.U Scenario.w2
    = (Returned (mkResponse true (Some (OneAffirmation affirmation))), w')
    /\ In affirmation (Affirmations w')
    /\ a_text affirmation = "I am able"
    /\ a_collectionId affirmation = Some "C1"
    /\ a_category affirmation = None
    /\ a_createdAt affirmation = 1001%Z
    /\ (a_updatedAt Scenario.A1 < a_updatedAt affirmation)%Z.
Proof.
  destruct (updateAffirmation_frame
              (VObject [("id", VString "A1"); ("text", VString "I am able")])
              Scenario.U (mkUser "u")
              (mkUpdateAffirmationInput "A1" (Some "I am able") None None None
                 None None None)
              Scenario.w2 Scenario.A1 eq_refl eq_refl)
    as (a & w' & Hrun & Hin & _ & _ & _ & Hcreated & _ & Htext & Hcol
        & Hcat & _ & _ & _ & _ & _ & Hlater & _).
  - repeat constructor. simpl. tauto.
  - left. reflexivity.
  - reflexivity.
  - reflexivity.
  - discriminate.
  - exists a, w'. repeat split; try assumption.
    apply Hlater. reflexivity.
Defined.

(* ===================================================================== *)
(** ** Falsy values at the truthiness guards                             *)
(* ===================================================================== *)

(** C10, the claim as stated fails: with [collectionId = ""] neither
    [createAffirmation] nor [updateAffirmation] persists anything.  The
    store refuses the insert and the update, since no collection has the
    empty identifier, and the table of affirmations is as it was. *)
Lemma empty_collectionId_is_not_persisted :
  fst (server.createAffirmation
         (VObject [("text", VString "t"); ("collectionId", VString "")])
         Scenario.U Scenario.w2)
  = Threw (StoreError FOREIGN_KEY)
  /\ Affirmations
       (snd (server.createAffirmation
               (VObject [("text", VString "t"); ("collectionId", VString "")])
               Scenario.U Scenario.w2))
     = Affirmations Scenario.w2
  /\ fst (server.updateAffirmation
            (VObject [("id", VString "A1"); ("collectionId", VString "")])
            Scenario.U Scenario.w2)
     = Threw (StoreError FOREIGN_KEY)
  /\ Affirmations
       (snd (server.updateAffirmation
               (VObject [("id", VString "A1"); ("collectionId", VString "")])
               Scenario.U Scenario.w2))
     = Affirmations Scenario.w2.
Proof. repeat split. Qed.

(** The outcome of an insert or an update of affirmations is never one
    of the handlers' [NOT_FOUND] errors. *)
Lemma affirmation_insertion_not_NOT_FOUND row w statements m :
  fst (affirmation_insertion row w statements)
  <> Threw (ActionError NOT_FOUND m).
Proof.
  unfold affirmation_insertion.
  destruct (Db.affirmation_exists _ _); [discriminate|].
  destruct (Db.reference_holds _ _); discriminate.
Qed.

Lemma affirmation_update_not_NOT_FOUND input u w existing statements m :
  fst (affirmation_update input u w existing statements)
  <> Threw (ActionError NOT_FOUND m).
Proof.
  unfold affirmation_update.
  destruct (assigned_reference_holds _ _); discriminate.
Qed.

Lemma affirmation_insertion_trace row w statements :
  trace (snd (affirmation_insertion row w statements))
  = trace w ++ statements.
Proof.
  unfold affirmation_insertion.
  destruct (Db.affirmation_exists _ _); [reflexivity|].
  destruct (Db.reference_holds _ _); reflexivity.
Qed.

Lemma affirmation_update_trace input u w existing statements :
  trace (snd (affirmation_update input u w existing statements))
  = trace w ++ statements.
Proof.
  unfold affirmation_update.
  destruct (assigned_reference_holds _ _); reflexivity.
Qed.

(** C10 (amended): a falsy but present [collectionId] or [favoritesOnly]
    is treated as absent by the truthiness guards.  [createAffirmation]
    with [collectionId = ""] skips the ownership check entirely: the only
    statement it sends is the insert, and it never fails [NOT_FOUND];
    [updateAffirmation] with [collectionId = ""] on an affirmation of the
    caller likewise skips the re-check: it sends the select and the
    update on affirmations only; [listAffirmations] with
    [collectionId = ""], or with [favoritesOnly = false], does exactly
    what it does when that field is omitted. *)
Theorem falsy_values_are_treated_as_absent (context : Context) (w : World) :
  (forall request caller_ input,
     caller context = Some caller_ ->
     createAffirmationSchema request = Some input ->
     ca_collectionId input = Some "" ->
     trace (snd (server.createAffirmation request context w))
     = trace w ++ [InsertAffirmation]
     /\ forall m, fst (server.createAffirmation request context w)
                  <> Threw (ActionError NOT_FOUND m))
  /\ (forall request caller_ input existing,
        caller context = Some caller_ ->
        updateAffirmationSchema request = Some input ->
        ua_collectionId input = Some (Some "") ->
        In existing (Affirmations w) ->
        a_id existing = ua_id input ->
        a_userId existing = user_id caller_ ->
        trace (snd (server.updateAffirmation request context w))
        = trace w ++ [SelectAffirmations; UpdateAffirmations]
        /\ forall m, fst (server.updateAffirmation request context w)
                     <> Threw (ActionError NOT_FOUND m))
  /\ (forall given omitted,
        get "collectionId" given = VString "" ->
        get "collectionId" omitted = VUndefined ->
        get "favoritesOnly" given = get "favoritesOnly" omitted ->
        server.listAffirmations (VObject given) context w
        = server.listAffirmations (VObject omitted) context w)
  /\ (forall given omitted,
        get "favoritesOnly" given = VBool false ->
        get "favoritesOnly" omitted = VUndefined ->
        get "collectionId" given = get "collectionId" omitted ->
        server.listAffirmations (VObject given) context w
        = server.listAffirmations (VObject omitted) context w).
Proof.
  split; [|split; [|split]].
  - intros request u input Hu Hs Hc. unfold server.createAffirmation.
    rewrite (defineAction_accepts _ _ _ _ input Hs).
    rewrite (createAffirmation_unchecked _ _ u w Hu)
      by (rewrite Hc; reflexivity).
    split; [apply affirmation_insertion_trace|].
    intros m. apply affirmation_insertion_not_NOT_FOUND.
  - intros request u input existing Hu Hs Hc Hin Hid Hown.
    unfold server.updateAffirmation.
    rewrite (defineAction_accepts _ _ _ _ input Hs).
    destruct (hd_filter_exists (own_affirmation (ua_id input) u) _
                existing Hin
                (proj2 (own_affirmation_iff _ _ _) (conj Hid Hown)))
      as (first & Hfirst & Hfin & Hfown).
    rewrite (updateAffirmation_unchecked _ _ u w first Hu Hfirst)
      by (rewrite Hc; reflexivity).
    split; [apply affirmation_update_trace|].
    intros m. apply affirmation_update_not_NOT_FOUND.
  - intros given omitted Hg Ho Hf.
    unfold server.listAffirmations, defineAction, listAffirmationsSchema,
      optional at 1 4.
    rewrite Hg, Ho, Hf. cbn.
    destruct (optional boolean (get "favoritesOnly" omitted)) as [f|];
      [|reflexivity].
    destruct (caller context) as [u|] eqn:Hu.
    + rewrite !(listAffirmations_run _ _ u w Hu). reflexivity.
    + destruct (handlers_anonymous context w Hu)
        as (_ & _ & _ & _ & _ & _ & _ & H8).
      rewrite !H8. reflexivity.
  - intros given omitted Hg Ho Hc.
    unfold server.listAffirmations, defineAction, listAffirmationsSchema,
      optional at 1 4.
    rewrite Hg, Ho, Hc. cbn.
    destruct (optional string_ (get "collectionId" omitted)) as [c|];
      [|reflexivity].
    destruct (caller context) as [u|] eqn:Hu.
    + rewrite !(listAffirmations_run _ _ u w Hu).
      unfold Handler.filters. cbn. reflexivity.
    + destruct (handlers_anonymous context w Hu)
        as (_ & _ & _ & _ & _ & _ & _ & H8).
      rewrite !H8. reflexivity.
Qed.

Lemma falsy_values_are_treated_as_absent_witness :
  trace (snd (server.createAffirmation
                (VObject [("text", VString "t"); ("collectionId", VString "")])
                Scenario.U Scenario.w2))
  = trace Scenario.w2 ++ [InsertAffirmation]
  /\ trace (snd (server.updateAffirmation
                   (VObject [("id", VString "A1");
                             ("collectionId", VString "")])
                   Scenario.U Scenario.w2))
     = trace Scenario.w2 ++ [SelectAffirmations; UpdateAffirmations]
  /\ server.listAffirmations (VObject [("collectionId", VString "")])
       Scenario.U Scenario.w2
     = server.listAffirmations (VObject []) Scenario.U Scenario.w2
  /\ server.listAffirmations (VObject [("favoritesOnly", VBool false)])
       Scenario.U Scenario.w2
     = server.listAffirmations (VObject []) Scenario.U Scenario.w2.
Proof.
  destruct (falsy_values_are_treated_as_absent Scenario.U Scenario.w2)
    as (Hcreate & Hupdate & Hlist1 & Hlist2).
  split; [|split; [|split]].
  - apply (Hcreate
             (VObject [("text", VString "t"); ("collectionId", VString "")])
             (mkUser "u")
             (mkCreateAffirmationInput "t" (Some "") None None None None None));
      reflexivity.
  - apply (Hupdate
             (VObject [("id", VString "A1"); ("collectionId", VString "")])
             (mkUser "u")
             (mkUpdateAffirmationInput "A1" None (Some (Some "")) None None
                None None None)
             Scenario.A1); try reflexivity.
    left. reflexivity.
  - apply Hlist1; reflexivity.
  - apply Hlist2; reflexivity.
Defined.
(* ===================================================================== *)
(** ** Listing affirmations                                              *)
(* ===================================================================== *)

(** The condition built from the [filters] array is the specified one. *)
Lemma filters_listed input u a :
  Db.and (Handler.filters input u) a
  = listed (user_id u) (Handler.input_collectionId input)
      (Handler.input_favoritesOnly input) a.
Proof.
  unfold Handler.filters, listed, Db.and.
  destruct (Handler.input_collectionId input) as [c|];
    destruct (Handler.input_favoritesOnly input) as [[|]|]; cbn.
  - unfold truthy_string. destruct c as [|ch c]; cbn.
    + rewrite !andb_true_r. unfold Db.eq_bool, Db.eq.
      destruct (a_isFavorite a); reflexivity.
    + unfold Db.eq, Db.eq_nullable, Db.eq_bool. rewrite !andb_true_r.
      destruct (a_isFavorite a); rewrite ?andb_assoc; reflexivity.
  - unfold truthy_string. destruct c as [|ch c]; cbn.
    + unfold Db.eq. rewrite !andb_true_r. reflexivity.
    + unfold Db.eq, Db.eq_nullable. rewrite !andb_true_r. reflexivity.
  - unfold truthy_string. destruct c as [|ch c]; cbn.
    + unfold Db.eq. rewrite !andb_true_r. reflexivity.
    + unfold Db.eq, Db.eq_nullable. rewrite !andb_true_r. reflexivity.
  - unfold Db.eq, Db.eq_bool. rewrite !andb_true_r.
    destruct (a_isFavorite a); reflexivity.
  - unfold Db.eq. rewrite !andb_true_r. reflexivity.
  - unfold Db.eq. rewrite !andb_true_r. reflexivity.
Qed.

(** C9, the claim as stated fails: [favoritesOnly] is given, as false,
    and the result holds a row that is not a favourite; [collectionId] is
    given, as the empty string, and the result holds a row of another
    collection. *)
Lemma falsy_filters_keep_other_rows :
  get "favoritesOnly" [("favoritesOnly", VBool false)] = VBool false
  /\ fst (server.listAffirmations (VObject [("favoritesOnly", VBool false)])
            Scenario.U Scenario.w2)
     = Returned (mkResponse true (Some (AffirmationItems [Scenario.A1] 1)))
  /\ a_isFavorite Scenario.A1 = false
  /\ get "collectionId" [("collectionId", VString "")] = VString ""
  /\ fst (server.listAffirmations (VObject [("collectionId", VString "")])
            Scenario.U Scenario.w2)
     = Returned (mkResponse true (Some (AffirmationItems [Scenario.A1] 1)))
  /\ a_collectionId Scenario.A1 <> Some "".
Proof. repeat split. discriminate. Qed.

(** C9 (amended): [listAffirmations] returns, in storage order, exactly
    the rows whose [userId] equals the caller and which, when a non-empty
    [collectionId] is given, have that [collectionId], and, when
    [favoritesOnly] is given as true, have [isFavorite = true]; the
    returned total is the number of returned items; with
    [favoritesOnly = true] every returned row is a favourite whatever the
    other filter. *)
Theorem listAffirmations_spec (request : value) (context : Context)
    (caller_ : User) (input : option ListAffirmationsInput) (w : World) :
  caller context = Some caller_ ->
  listAffirmationsSchema request = Some input ->
  exists items,
    server.listAffirmations request context w
    = (Returned (mkResponse true
                   (Some (AffirmationItems items (length items)))),
       issued w [SelectAffirmations])
    /\ items
       = filter (listed (user_id caller_) (Handler.input_collectionId input)
                   (Handler.input_favoritesOnly input))
                (Affirmations w)
    /\ (forall a, In a items -> a_userId a = user_id caller_)
    /\ (forall c, Handler.input_collectionId input = Some c -> c <> "" ->
                  forall a, In a items -> a_collectionId a = Some c)
    /\ (Handler.input_favoritesOnly input = Some true ->
        forall a, In a items -> a_isFavorite a = true).
Proof.
  intros Hu Hs. unfold server.listAffirmations.
  rewrite (defineAction_accepts _ _ _ _ input Hs).
  rewrite (listAffirmations_run _ _ caller_ w Hu). cbn zeta.
  rewrite (filter_ext _ _ (filters_listed input caller_)).
  eexists. split; [reflexivity|]. split; [reflexivity|].
  split; [|split].
  - intros a Ha. apply filter_In in Ha. destruct Ha as [_ Ha].
    unfold listed in Ha. apply andb_true_iff in Ha. destruct Ha as [Ha _].
    apply andb_true_iff in Ha. destruct Ha as [Ha _].
    apply String.eqb_eq. exact Ha.
  - intros c Hc Hne a Ha. apply filter_In in Ha. destruct Ha as [_ Ha].
    unfold listed in Ha. rewrite Hc in Ha.
    apply andb_true_iff in Ha. destruct Ha as [Ha _].
    apply andb_true_iff in Ha. destruct Ha as [_ Ha].
    destruct c as [|ch c]; [contradiction|].
    destruct (a_collectionId a) as [c'|]; [|discriminate].
    apply String.eqb_eq in Ha. rewrite Ha. reflexivity.
  - intros Hf a Ha. apply filter_In in Ha. destruct Ha as [_ Ha].
    unfold listed in Ha. rewrite Hf in Ha.
    apply andb_true_iff in Ha. destruct Ha as [_ Ha]. exact Ha.
Qed.

Lemma listAffirmations_spec_witness :
  exists items,
    server.listAffirmations
      (VObject [("collectionId", VString "C1"); ("favoritesOnly", VBool true)])
      Scenario.U Scenario.w2
    = (Returned (mkResponse true
                   (Some (AffirmationItems items (length items)))),
       issued Scenario.w2 [SelectAffirmations])
    /\ (forall a, In a items -> a_userId a = "u")
    /\ (forall a, In a items -> a_collectionId a = Some "C1")
    /\ (forall a, In a items -> a_isFavorite a = true).
Proof.
  destruct (listAffirmations_spec
              (VObject [("collectionId", VString "C1");
                        ("favoritesOnly", VBool true)])
              Scenario.U (mkUser "u")
              (Some (mkListAffirmationsInput (Some "C1") (Some true)))
              Scenario.w2 eq_refl eq_refl)
    as (items & Hrun & _ & Hown & Hcol & Hfav).
  exists items. split; [exact Hrun|]. split; [exact Hown|]. split.
  - apply (Hcol "C1" eq_refl). discriminate.
  - apply Hfav. reflexivity.
Defined.

(* ===================================================================== *)
(** ** Deleting a collection                                             *)
(* ===================================================================== *)

(** Selection of the affirmations of a collection that belong to [u]. *)
Lemma in_collection_iff id u a :
  Db.and [Db.eq_nullable a_collectionId id; Db.eq a_userId (user_id u)] a
  = true
  <-> a_collectionId a = Some id /\ a_userId a = user_id u.
Proof.
  unfold Db.and, Db.eq_nullable, Db.eq. cbn.
  rewrite andb_true_r, andb_true_iff, String.eqb_eq.
  destruct (a_collectionId a) as [c|].
  - rewrite String.eqb_eq. split.
    + intros [-> H]. split; [reflexivity|exact H].
    + intros [[= ->] H]. split; [reflexivity|exact H].
  - split; [intros [H _]; discriminate | intros [H _]; discriminate].
Qed.

Lemma in_filter_negb {R} (cond : R -> bool) (l : list R) (r : R) :
  In r (filter (fun x => negb (cond x)) l) <-> In r l /\ cond r = false.
Proof. rewrite filter_In, negb_true_iff. reflexivity. Qed.

(** The scenario of the specification: after [U] deletes the collection
    both listings are empty. *)
Example scenario_after_delete :
  Scenario.result
    (server.listAffirmations (VObject [("collectionId", VString "C1")])
       Scenario.U) Scenario.w2
  = Returned (mkResponse true (Some (AffirmationItems [Scenario.A1] 1)))
  /\ Scenario.result
       (server.listAffirmations (VObject [("collectionId", VString "C1")])
          Scenario.U) Scenario.w3
     = Returned (mkResponse true (Some (AffirmationItems [] 0)))
  /\ Scenario.result (server.listCollections VUndefined Scenario.U)
       Scenario.w3
     = Returned (mkResponse true (Some (CollectionItems [] 0))).
Proof. repeat split. Qed.

Lemma in_own_collection_iff id u a :
  in_own_collection id u a = true
  <-> a_collectionId a = Some id /\ a_userId a = user_id u.
Proof. apply in_collection_iff. Qed.

Lemma references_iff id (a : Affirmation) :
  Db.eq_nullable a_collectionId id a = true <-> a_collectionId a = Some id.
Proof.
  unfold Db.eq_nullable. destruct (a_collectionId a) as [c|].
  - rewrite String.eqb_eq. split; congruence.
  - split; discriminate.
Qed.

(** After the cascade the collection is referenced exactly when an
    affirmation of somebody else references it. *)
Lemma cascade_leaves_no_reference id u w :
  (forall a, In a (Affirmations w) ->
             a_collectionId a = Some id -> a_userId a = user_id u) ->
  still_referenced id u w = false.
Proof.
  intros H. unfold still_referenced. apply not_true_is_false.
  rewrite existsb_exists. intros (r & _ & Hr).
  apply andb_true_iff in Hr. destruct Hr as [Hown Href].
  apply own_collection_iff in Hown. destruct Hown as [Hid _].
  apply existsb_exists in Href. destruct Href as (a & Ha & Hra).
  unfold after_cascade in Ha. apply in_filter_negb in Ha.
  destruct Ha as [Ha Hkept]. apply references_iff in Hra.
  rewrite Hid in Hra.
  assert (in_own_collection id u a = true)
    by (apply in_own_collection_iff; split; [exact Hra|exact (H a Ha Hra)]).
  congruence.
Qed.




(* ===================================================================== *)
(** ** Ownership isolation                                               *)
(* ===================================================================== *)

Lemma isolated_threw uid w e statements :
  isolated uid w (Threw e, issued w statements).
Proof. repeat split; intros ? []. Qed.

Lemma isolated_rejected uid w e : isolated uid w (Threw e, w).
Proof. repeat split; intros ? []. Qed.

(** A throw that left both tables as they were. *)
Lemma isolated_refused uid w e w' :
  AffirmationCollections w' = AffirmationCollections w ->
  Affirmations w' = Affirmations w ->
  isolated uid w (Threw e, w').
Proof.
  intros Hc Ha. unfold isolated, foreign_collections, foreign_affirmations.
  cbn [fst snd]. rewrite Hc, Ha. repeat split; intros ? [].
Qed.

Lemma spread_collection_owner r updates :
  c_userId (spread_collection r updates) = c_userId r.
Proof. reflexivity. Qed.

Lemma spread_affirmation_owner r updates :
  a_userId (spread_affirmation r updates) = a_userId r.
Proof. reflexivity. Qed.

Lemma createCollection_isolated input context u w :
  caller context = Some u ->
  isolated (user_id u) w (Handler.createCollection input context w).
Proof.
  intros Hu. rewrite (createCollection_run _ _ u w Hu).
  unfold collection_insertion.
  destruct (Db.collection_exists _ _);
    [apply isolated_refused; reflexivity|].
  repeat split; cbn.
  - intros c [<-|[]]. reflexivity.
  - intros a [].
  - unfold foreign_collections. cbn. apply filter_app_one.
    cbn. rewrite String.eqb_refl. reflexivity.
Qed.

Lemma updateCollection_isolated input context u w :
  caller context = Some u ->
  isolated (user_id u) w (Handler.updateCollection input context w).
Proof.
  intros Hu. rewrite (updateCollection_run _ _ u w Hu). cbn zeta.
  destruct (hd_error _) as [existing|] eqn:He; [|apply isolated_threw].
  apply hd_filter_sound in He. destruct He as [_ He].
  apply (and_owner c_userId c_id) in He. destruct He as [_ He].
  repeat split; cbn.
  - intros c [<-|[]]. exact He.
  - intros a [].
  - unfold foreign_collections. cbn [AffirmationCollections].
    apply filter_map_outside. intros r Hr.
    apply (and_owner c_userId c_id) in Hr. destruct Hr as [_ Hr].
    split; apply (not_foreign c_userId); [|rewrite spread_collection_owner];
      exact Hr.
Qed.

Lemma cascade_isolated id u w :
  filter (fun a => negb (a_userId a =? user_id u)) (after_cascade id u w)
  = foreign_affirmations (user_id u) w.
Proof.
  unfold after_cascade, foreign_affirmations.
  apply filter_filter_outside. intros r Hr.
  apply in_own_collection_iff in Hr. destruct Hr as [_ Hr].
  apply (not_foreign a_userId). exact Hr.
Qed.

Lemma deleteCollection_isolated input context u w :
  caller context = Some u ->
  isolated (user_id u) w (Handler.deleteCollection input context w).
Proof.
  intros Hu. rewrite (deleteCollection_run _ _ u w Hu).
  destruct (hd_error _) as [existing|]; [|apply isolated_threw].
  destruct (still_referenced _ _ _); repeat split; cbn.
  - intros c [].
  - intros a [].
  - apply cascade_isolated.
  - intros c [].
  - intros a [].
  - unfold foreign_collections. cbn [AffirmationCollections].
    apply filter_filter_outside. intros r Hr.
    apply own_collection_iff in Hr. destruct Hr as [_ Hr].
    apply (not_foreign c_userId). exact Hr.
  - apply cascade_isolated.
Qed.

Lemma listCollections_isolated input context u w :
  caller context = Some u ->
  isolated (user_id u) w (Handler.listCollections input context w).
Proof.
  intros Hu. rewrite (listCollections_run _ _ u w Hu).
  repeat split; cbn.
  - intros c Hc. apply filter_In in Hc. destruct Hc as [_ Hc].
    apply String.eqb_eq. exact Hc.
  - intros a [].
Qed.

Lemma created_isolated input u w statements :
  isolated (user_id u) w
    (affirmation_insertion (created_affirmation input u w) w statements).
Proof.
  unfold affirmation_insertion.
  destruct (Db.affirmation_exists _ _);
    [apply isolated_refused; reflexivity|].
  destruct (Db.reference_holds _ _);
    [|apply isolated_refused; reflexivity].
  repeat split; cbn.
  - intros c [].
  - intros a [<-|[]]. reflexivity.
  - unfold foreign_affirmations. cbn [Affirmations]. apply filter_app_one.
    cbn. rewrite String.eqb_refl. reflexivity.
Qed.

Lemma createAffirmation_isolated input context u w :
  caller context = Some u ->
  isolated (user_id u) w (Handler.createAffirmation input context w).
Proof.
  intros Hu. destruct (truthy_opt (ca_collectionId input)) eqn:Ht.
  - destruct (ca_collectionId input) as [c|] eqn:Hc; [|discriminate].
    rewrite (createAffirmation_checked _ _ u w c Hu Hc Ht).
    destruct (hd_error _); [apply created_isolated|apply isolated_threw].
  - rewrite (createAffirmation_unchecked _ _ u w Hu Ht).
    apply created_isolated.
Qed.

Lemma updated_isolated input u w existing statements :
  a_userId existing = user_id u ->
  isolated (user_id u) w (affirmation_update input u w existing statements).
Proof.
  intros He. unfold affirmation_update.
  destruct (assigned_reference_holds _ _);
    [|apply isolated_refused; reflexivity].
  repeat split; cbn.
  - intros c [].
  - intros a [<-|[]]. exact He.
  - unfold foreign_affirmations. cbn [updated_world Affirmations].
    apply filter_map_outside. intros r Hr.
    apply own_affirmation_iff in Hr. destruct Hr as [_ Hr].
    split; apply (not_foreign a_userId); [|rewrite spread_affirmation_owner];
      exact Hr.
Qed.

Lemma updateAffirmation_isolated input context u w :
  caller context = Some u ->
  isolated (user_id u) w (Handler.updateAffirmation input context w).
Proof.
  intros Hu.
  destruct (hd_error (filter (own_affirmation (ua_id input) u)
                        (Affirmations w))) as [existing|] eqn:He.
  - assert (Hown : a_userId existing = user_id u).
    { apply hd_filter_sound in He. destruct He as [_ He].
      apply own_affirmation_iff in He. tauto. }
    destruct (truthy_nullable (ua_collectionId input)) eqn:Ht.
    + destruct (ua_collectionId input) as [[c|]|] eqn:Hc; try discriminate.
      rewrite (updateAffirmation_checked _ _ u w existing c Hu He Hc Ht).
      destruct (hd_error (filter (own_collection c u)
                            (AffirmationCollections w)));
        [apply updated_isolated; exact Hown | apply isolated_threw].
    + rewrite (updateAffirmation_unchecked _ _ u w existing Hu He Ht).
      apply updated_isolated. exact Hown.
  - rewrite (updateAffirmation_missing _ _ u w Hu).
    + apply isolated_threw.
    + destruct (filter _ (Affirmations w)); [reflexivity|discriminate].
Qed.

Lemma deleteAffirmation_isolated input context u w :
  caller context = Some u ->
  isolated (user_id u) w (Handler.deleteAffirmation input context w).
Proof.
  intros Hu. rewrite (deleteAffirmation_run _ _ u w Hu).
  destruct (hd_error _) as [existing|]; [|apply isolated_threw].
  repeat split; cbn.
  - intros c [].
  - intros a [].
  - unfold foreign_affirmations. cbn [Affirmations].
    apply filter_filter_outside. intros r Hr.
    apply own_affirmation_iff in Hr. destruct Hr as [_ Hr].
    apply (not_foreign a_userId). exact Hr.
Qed.

Lemma listAffirmations_isolated input context u w :
  caller context = Some u ->
  isolated (user_id u) w (Handler.listAffirmations input context w).
Proof.
  intros Hu. rewrite (listAffirmations_run _ _ u w Hu).
  repeat split; cbn.
  - intros c [].
  - intros a Ha. apply filter_In in Ha. destruct Ha as [_ Ha].
    rewrite filters_listed in Ha. unfold listed in Ha.
    apply andb_true_iff in Ha. destruct Ha as [Ha _].
    apply andb_true_iff in Ha. destruct Ha as [Ha _].
    apply String.eqb_eq. exact Ha.
Qed.

(** C1: ownership isolation holds for every operation.  Whatever the
    request, a call made by an authenticated user returns in its success
    payload only rows owned by that user, and leaves the rows of every
    other user, collections and affirmations alike, exactly as they were:
    none modified, none deleted.  In particular [updateCollection] called
    on a collection of somebody else fails [NOT_FOUND] after its lookup
    and leaves both tables unchanged (identifiers being unique). *)
Theorem ownership_isolation :
  (forall (op : Operation) (request : value) (context : Context)
          (caller_ : User) (w : World),
     caller context = Some caller_ ->
     (forall c, In c (payload_collections (fst (call op request context w))) ->
                c_userId c = user_id caller_)
     /\ (forall a,
           In a (payload_affirmations (fst (call op request context w))) ->
           a_userId a = user_id caller_)
     /\ foreign_collections (user_id caller_) (snd (call op request context w))
        = foreign_collections (user_id caller_) w
     /\ foreign_affirmations (user_id caller_)
          (snd (call op request context w))
        = foreign_affirmations (user_id caller_) w)
  /\ (forall (request : value) (context : Context) (caller_ : User)
             (input : UpdateCollectionInput) (w : World) (c : Collection),
        caller context = Some caller_ ->
        updateCollectionSchema request = Some input ->
        NoDup (map c_id (AffirmationCollections w)) ->
        In c (AffirmationCollections w) ->
        c_id c = uc_id input ->
        c_userId c <> user_id caller_ ->
        fst (server.updateCollection request context w)
        = Threw (ActionError NOT_FOUND "Collection not found.")
        /\ AffirmationCollections
             (snd (server.updateCollection request context w))
           = AffirmationCollections w
        /\ Affirmations (snd (server.updateCollection request context w))
           = Affirmations w).
Proof.
  split.
  - intros op request context u w Hu.
    change (isolated (user_id u) w (call op request context w)).
    destruct op; cbn [call];
      unfold server.createCollection, server.updateCollection,
        server.deleteCollection, server.listCollections,
        server.createAffirmation, server.updateAffirmation,
        server.deleteAffirmation, server.listAffirmations, defineAction.
    + destruct (createCollectionSchema request);
        [apply createCollection_isolated; exact Hu | apply isolated_rejected].
    + destruct (updateCollectionSchema request);
        [apply updateCollection_isolated; exact Hu | apply isolated_rejected].
    + destruct (idSchema request);
        [apply deleteCollection_isolated; exact Hu | apply isolated_rejected].
    + destruct (listCollectionsSchema request);
        [apply listCollections_isolated; exact Hu | apply isolated_rejected].
    + destruct (createAffirmationSchema request);
        [apply createAffirmation_isolated; exact Hu | apply isolated_rejected].
    + destruct (updateAffirmationSchema request);
        [apply updateAffirmation_isolated; exact Hu | apply isolated_rejected].
    + destruct (idSchema request);
        [apply deleteAffirmation_isolated; exact Hu | apply isolated_rejected].
    + destruct (listAffirmationsSchema request);
        [apply listAffirmations_isolated; exact Hu | apply isolated_rejected].
  - intros request context u input w c Hu Hs Hnd Hin Hid Hown.
    unfold server.updateCollection.
    rewrite (defineAction_accepts _ _ _ _ input Hs).
    rewrite (updateCollection_run _ _ u w Hu). cbn zeta.
    rewrite <- Hid.
    rewrite (select_foreign c_userId c_id _ c (user_id u) Hnd Hin Hown).
    repeat split.
Qed.

Lemma ownership_isolation_witness :
  (forall a,
     In a (payload_affirmations
             (fst (call ListAffirmations
                     (VObject [("collectionId", VString "C1")])
                     Scenario.V Scenario.shared))) ->
     a_userId a = "v")
  /\ foreign_affirmations "v"
       (snd (call DeleteAffirmation (VObject [("id", VString "A1")])
               Scenario.V Scenario.shared))
     = foreign_affirmations "v" Scenario.shared
  /\ fst (server.updateCollection
            (VObject [("id", VString "C1"); ("name", VString "Mine")])
            Scenario.V Scenario.shared)
     = Threw (ActionError NOT_FOUND "Collection not found.")
  /\ AffirmationCollections
       (snd (server.updateCollection
               (VObject [("id", VString "C1"); ("name", VString "Mine")])
               Scenario.V Scenario.shared))
     = AffirmationCollections Scenario.shared.
Proof.
  destruct ownership_isolation as [Hall Hupdate].
  split; [|split].
  - apply (Hall ListAffirmations (VObject [("collectionId", VString "C1")])
             Scenario.V (mkUser "v") Scenario.shared eq_refl).
  - apply (Hall DeleteAffirmation (VObject [("id", VString "A1")])
             Scenario.V (mkUser "v") Scenario.shared eq_refl).
  - destruct (Hupdate
                (VObject [("id", VString "C1"); ("name", VString "Mine")])
                Scenario.V (mkUser "v")
                (mkUpdateCollectionInput "C1" (Some "Mine") None None None)
                Scenario.shared Scenario.C1 eq_refl eq_refl)
      as (Hr & Hc & _).
    + repeat constructor. simpl. tauto.
    + left. reflexivity.
    + reflexivity.
    + discriminate.
    + split; assumption.
Defined.

(* ===================================================================== *)
(** ** The effect of a call                                              *)
(* ===================================================================== *)

Lemma issued_nil (w : World) : issued w [] = w.
Proof.
  destruct w. unfold issued, with_trace. cbn. rewrite app_nil_r. reflexivity.
Qed.

Lemma effect_unchanged op request context w e :
  effect op request context w (Threw e) w.
Proof.
  rewrite <- (issued_nil w) at 2. apply threw.
Qed.

Lemma falsy_needs_no_collection (o : option string) (w : World) (u : User) :
  truthy_opt o = false ->
  forall c, o = Some c -> c <> "" ->
    exists col, In col (AffirmationCollections w)
                /\ c_id col = c /\ c_userId col = user_id u.
Proof.
  intros Ht c -> Hne. cbn in Ht.
  apply truthy_string_iff in Hne. congruence.
Qed.

Lemma found_collection (c : string) (u : User) (w : World) (first : Collection) :
  hd_error (filter (own_collection c u) (AffirmationCollections w))
  = Some first ->
  exists col, In col (AffirmationCollections w)
              /\ c_id col = c /\ c_userId col = user_id u.
Proof.
  intros H. apply hd_filter_sound in H. destruct H as [Hin Hc].
  apply own_collection_iff in Hc. exists first. tauto.
Qed.

Lemma createCollection_effect request context w :
  effect CreateCollection request context w
    (fst (server.createCollection request context w))
    (snd (server.createCollection request context w)).
Proof.
  unfold server.createCollection, defineAction.
  destruct (createCollectionSchema request) as [input|] eqn:Hs;
    [|apply effect_unchanged].
  destruct (caller context) as [u|] eqn:Hu.
  - rewrite (createCollection_run _ _ u w Hu). unfold collection_insertion.
    destruct (Db.collection_exists _ _); cbn [fst snd].
    + apply refused; reflexivity.
    + apply (collection_inserted _ _ _ _ u input [InsertCollection]); auto.
  - destruct (handlers_anonymous context w Hu) as (H & _). rewrite H.
    apply effect_unchanged.
Qed.

Lemma updateCollection_effect request context w :
  effect UpdateCollection request context w
    (fst (server.updateCollection request context w))
    (snd (server.updateCollection request context w)).
Proof.
  unfold server.updateCollection, defineAction.
  destruct (updateCollectionSchema request) as [input|] eqn:Hs;
    [|apply effect_unchanged].
  destruct (caller context) as [u|] eqn:Hu.
  - rewrite (updateCollection_run _ _ u w Hu). cbn zeta.
    destruct (hd_error _) as [existing|] eqn:He; cbn [fst snd];
      [|apply threw].
    apply hd_filter_sound in He. destruct He as [Hin Hc].
    rewrite <- app_assoc.
    apply (collections_updated _ _ _ _ u input existing
             ([SelectCollections] ++ [UpdateCollections])); auto.
  - destruct (handlers_anonymous context w Hu) as (_ & H & _). rewrite H.
    apply effect_unchanged.
Qed.

Lemma deleteCollection_effect request context w :
  effect DeleteCollection request context w
    (fst (server.deleteCollection request context w))
    (snd (server.deleteCollection request context w)).
Proof.
  unfold server.deleteCollection, defineAction.
  destruct (idSchema request) as [input|] eqn:Hs; [|apply effect_unchanged].
  destruct (caller context) as [u|] eqn:Hu.
  - rewrite (deleteCollection_run _ _ u w Hu).
    destruct (hd_error _) as [existing|]; cbn [fst snd]; [|apply threw].
    destruct (still_referenced _ _ _); cbn [fst snd].
    + apply (cascade_refused _ _ _ _ u (in_id input)); auto.
    + apply (collection_deleted _ _ _ _ u (in_id input)
               [SelectCollections; DeleteAffirmations; DeleteCollections]);
        auto.
  - destruct (handlers_anonymous context w Hu) as (_ & _ & H & _). rewrite H.
    apply effect_unchanged.
Qed.

Lemma listCollections_effect request context w :
  effect ListCollections request context w
    (fst (server.listCollections request context w))
    (snd (server.listCollections request context w)).
Proof.
  unfold server.listCollections, defineAction.
  destruct (listCollectionsSchema request) as [input|] eqn:Hs;
    [|apply effect_unchanged].
  destruct (caller context) as [u|] eqn:Hu.
  - rewrite (listCollections_run _ _ u w Hu). cbn [fst snd].
    apply collections_listed. reflexivity.
  - destruct (handlers_anonymous context w Hu) as (_ & _ & _ & H & _).
    rewrite H. apply effect_unchanged.
Qed.

Lemma createAffirmation_effect request context w :
  effect CreateAffirmation request context w
    (fst (server.createAffirmation request context w))
    (snd (server.createAffirmation request context w)).
Proof.
  unfold server.createAffirmation, defineAction.
  destruct (createAffirmationSchema request) as [input|] eqn:Hs;
    [|apply effect_unchanged].
  destruct (caller context) as [u|] eqn:Hu.
  - destruct (truthy_opt (ca_collectionId input)) eqn:Ht.
    + destruct (ca_collectionId input) as [c|] eqn:Hc; [|discriminate].
      rewrite (createAffirmation_checked _ _ u w c Hu Hc Ht).
      destruct (hd_error _) as [first|] eqn:He; cbn [fst snd]; [|apply threw].
      unfold affirmation_insertion.
      destruct (Db.affirmation_exists _ _);
        [apply refused; reflexivity|].
      destruct (Db.reference_holds _ _);
        [|apply refused; reflexivity].
      apply (affirmation_inserted _ _ _ _ u input
               [SelectCollections; InsertAffirmation]); auto.
      intros c' Hc' _. rewrite Hc in Hc'. injection Hc' as <-.
      apply (found_collection c u w first). exact He.
    + rewrite (createAffirmation_unchecked _ _ u w Hu Ht).
      unfold affirmation_insertion.
      destruct (Db.affirmation_exists _ _);
        [apply refused; reflexivity|].
      destruct (Db.reference_holds _ _);
        [|apply refused; reflexivity].
      apply (affirmation_inserted _ _ _ _ u input [InsertAffirmation]); auto.
      apply falsy_needs_no_collection. exact Ht.
  - destruct (handlers_anonymous context w Hu) as (_ & _ & _ & _ & H & _).
    rewrite H. apply effect_unchanged.
Qed.

Lemma updateAffirmation_effect request context w :
  effect UpdateAffirmation request context w
    (fst (server.updateAffirmation request context w))
    (snd (server.updateAffirmation request context w)).
Proof.
  unfold server.updateAffirmation, defineAction.
  destruct (updateAffirmationSchema request) as [input|] eqn:Hs;
    [|apply effect_unchanged].
  destruct (caller context) as [u|] eqn:Hu.
  - destruct (hd_error (filter (own_affirmation (ua_id input) u)
                          (Affirmations w))) as [existing|] eqn:He.
    + destruct (hd_filter_sound _ _ _ He) as [Hin Hown].
      destruct (truthy_nullable (ua_collectionId input)) eqn:Ht.
      * destruct (ua_collectionId input) as [[c|]|] eqn:Hc; try discriminate.
        rewrite (updateAffirmation_checked _ _ u w existing c Hu He Hc Ht).
        destruct (hd_error (filter (own_collection c u)
                              (AffirmationCollections w)))
          as [first|] eqn:Hf; cbn [fst snd]; [|apply threw].
        unfold affirmation_update.
        destruct (assigned_reference_holds _ _);
          [|apply refused; reflexivity].
        apply (affirmations_updated _ _ _ _ u input existing); auto.
        intros c' Hc' _. rewrite Hc in Hc'. injection Hc' as <-.
        apply (found_collection c u w first). exact Hf.
      * rewrite (updateAffirmation_unchecked _ _ u w existing Hu He Ht).
        unfold affirmation_update.
        destruct (assigned_reference_holds _ _);
          [|apply refused; reflexivity].
        apply (affirmations_updated _ _ _ _ u input existing); auto.
        intros c Hc Hne. destruct (ua_collectionId input) as [[c'|]|];
          try discriminate.
        injection Hc as ->. cbn in Ht.
        apply truthy_string_iff in Hne. congruence.
    + rewrite (updateAffirmation_missing _ _ u w Hu); [apply threw|].
      destruct (filter _ (Affirmations w)); [reflexivity|discriminate].
  - destruct (handlers_anonymous context w Hu)
      as (_ & _ & _ & _ & _ & H & _).
    rewrite H. apply effect_unchanged.
Qed.

Lemma deleteAffirmation_effect request context w :
  effect DeleteAffirmation request context w
    (fst (server.deleteAffirmation request context w))
    (snd (server.deleteAffirmation request context w)).
Proof.
  unfold server.deleteAffirmation, defineAction.
  destruct (idSchema request) as [input|] eqn:Hs; [|apply effect_unchanged].
  destruct (caller context) as [u|] eqn:Hu.
  - rewrite (deleteAffirmation_run _ _ u w Hu).
    destruct (hd_error _) as [existing|]; cbn [fst snd]; [|apply threw].
    apply (affirmation_deleted _ _ _ _ u (in_id input)); auto.
  - destruct (handlers_anonymous context w Hu)
      as (_ & _ & _ & _ & _ & _ & H & _).
    rewrite H. apply effect_unchanged.
Qed.

Lemma listAffirmations_effect request context w :
  effect ListAffirmations request context w
    (fst (server.listAffirmations request context w))
    (snd (server.listAffirmations request context w)).
Proof.
  unfold server.listAffirmations, defineAction.
  destruct (listAffirmationsSchema request) as [input|] eqn:Hs;
    [|apply effect_unchanged].
  destruct (caller context) as [u|] eqn:Hu.
  - rewrite (listAffirmations_run _ _ u w Hu). cbn [fst snd].
    apply affirmations_listed. reflexivity.
  - destruct (handlers_anonymous context w Hu)
      as (_ & _ & _ & _ & _ & _ & _ & H).
    rewrite H. apply effect_unchanged.
Qed.

(** Every call has one of the effects. *)
Lemma call_effect op request context w :
  effect op request context w
    (fst (call op request context w)) (snd (call op request context w)).
Proof.
  destruct op; cbn [call].
  - apply createCollection_effect.
  - apply updateCollection_effect.
  - apply deleteCollection_effect.
  - apply listCollections_effect.
  - apply createAffirmation_effect.
  - apply updateAffirmation_effect.
  - apply deleteAffirmation_effect.
  - apply listAffirmations_effect.
Qed.

(* ===================================================================== *)
(** ** What the schemas let in                                           *)
(* ===================================================================== *)

Lemma string_sound v s : string_ v = Some s -> v = VString s.
Proof. destruct v; cbn; try discriminate. intros [= ->]. reflexivity. Qed.

Lemma string_min1_sound v s :
  string_min1 v = Some s -> v = VString s /\ s <> "".
Proof.
  destruct v as [| | | |s'|]; cbn; try discriminate.
  destruct s'; cbn; [discriminate|]. intros [= <-]. split; [reflexivity|].
  discriminate.
Qed.

Lemma enum_sound allowed v s :
  enum allowed v = Some s -> v = VString s /\ In s allowed.
Proof.
  destruct v as [| | | |s'|]; cbn; try discriminate.
  destruct (existsb (String.eqb s') allowed) eqn:E; [|discriminate].
  intros [= <-]. split; [reflexivity|].
  apply existsb_exists in E. destruct E as (x & Hx & E).
  apply String.eqb_eq in E. subst. exact Hx.
Qed.

Lemma optional_some {A} (schema : value -> option A) v a :
  optional schema v = Some (Some a) -> schema v = Some a.
Proof.
  unfold optional. destruct v; try discriminate;
    destruct (schema _); congruence.
Qed.

Lemma nullable_some {A} (schema : value -> option A) v a :
  nullable schema v = Some (Some a) -> schema v = Some a.
Proof.
  unfold nullable. destruct v; try discriminate;
    destruct (schema _); congruence.
Qed.

(** Splits a hypothesis [schema request = Some input] into the results
    of the field parsers. *)
Ltac parse_fields H :=
  repeat match type of H with
         | context [match ?x with _ => _ end] => destruct x eqn:?
         end;
  try discriminate; injection H as <-.

Lemma createCollectionSchema_sound request input :
  createCollectionSchema request = Some input -> cc_name input <> "".
Proof.
  intros H. unfold createCollectionSchema in H. parse_fields H. cbn.
  match goal with E : string_min1 _ = Some _ |- _ =>
    apply string_min1_sound in E; tauto end.
Qed.

Lemma updateCollectionSchema_sound request input :
  updateCollectionSchema request = Some input ->
  forall n, uc_name input = Some n -> n <> "".
Proof.
  intros H n Hn. unfold updateCollectionSchema, refine in H.
  destruct (updateCollectionObject request) as [i|] eqn:E; [|discriminate].
  destruct (_ || _); [|discriminate]. injection H as <-.
  unfold updateCollectionObject in E. parse_fields E. cbn in Hn. subst.
  match goal with E : optional string_min1 _ = Some _ |- _ =>
    apply optional_some, string_min1_sound in E; tauto end.
Qed.

Lemma createAffirmationSchema_sound request input :
  createAffirmationSchema request = Some input ->
  ca_text input <> ""
  /\ (forall t, ca_useTimeOfDay input = Some t -> In t timeOfDay)
  /\ (forall c, ca_collectionId input = Some c ->
                supplied_collectionId request = VString c).
Proof.
  intros H. unfold createAffirmationSchema in H. parse_fields H. cbn.
  repeat split.
  - match goal with E : string_min1 _ = Some _ |- _ =>
      apply string_min1_sound in E; tauto end.
  - intros t ->.
    match goal with E : optional (enum _) _ = Some _ |- _ =>
      apply optional_some, enum_sound in E; tauto end.
  - intros c ->.
    match goal with E : optional string_ (get "collectionId" _) = Some _ |- _ =>
      apply optional_some, string_sound in E; exact E end.
Qed.

Lemma updateAffirmationSchema_sound request input :
  updateAffirmationSchema request = Some input ->
  (forall t, ua_text input = Some t -> t <> "")
  /\ (forall t, ua_useTimeOfDay input = Some t -> In t timeOfDay)
  /\ (forall c, ua_collectionId input = Some (Some c) ->
                supplied_collectionId request = VString c).
Proof.
  intros H. unfold updateAffirmationSchema, refine in H.
  destruct (updateAffirmationObject request) as [i|] eqn:E; [|discriminate].
  destruct (_ || _); [|discriminate]. injection H as <-.
  unfold updateAffirmationObject in E. parse_fields E. cbn.
  repeat split.
  - intros t ->.
    match goal with E : optional string_min1 _ = Some _ |- _ =>
      apply optional_some, string_min1_sound in E; tauto end.
  - intros t ->.
    match goal with E : optional (enum _) _ = Some _ |- _ =>
      apply optional_some, enum_sound in E; tauto end.
  - intros c ->.
    match goal with E : optional (nullable string_) _ = Some _ |- _ =>
      apply optional_some, nullable_some, string_sound in E; exact E end.
Qed.

(* ===================================================================== *)
(** ** Invariants kept by every call                                     *)
(* ===================================================================== *)

Section Tables.

Context {R : Type}.
Variable id : R -> string.

Lemma NoDup_snoc (l : list string) (x : string) :
  NoDup l -> ~ In x l -> NoDup (l ++ [x]).
Proof.
  induction l as [|y l IH]; cbn; intros Hnd Hx.
  - constructor; [intros []|constructor].
  - inversion Hnd as [|? ? Hy Hl]; subst. constructor.
    + rewrite in_app_iff. cbn. intros [H|[H|[]]]; [contradiction|].
      apply Hx. left. symmetry. exact H.
    + apply IH; [exact Hl|]. intros H. apply Hx. right. exact H.
Qed.

Lemma map_id_updated (cond : R -> bool) (set : R -> R) (l : list R) :
  (forall r, id (set r) = id r) ->
  map id (map (fun r => if cond r then set r else r) l) = map id l.
Proof.
  intros H. rewrite map_map. apply map_ext. intros r.
  destruct (cond r); [apply H|reflexivity].
Qed.

Lemma NoDup_map_filter (p : R -> bool) (l : list R) :
  NoDup (map id l) -> NoDup (map id (filter p l)).
Proof.
  induction l as [|x l IH]; cbn; intros Hnd; [constructor|].
  inversion Hnd as [|? ? Hx Hl]; subst.
  destruct (p x); cbn; [|apply IH; exact Hl].
  constructor; [|apply IH; exact Hl].
  intros H. apply Hx. apply in_map_iff in H. destruct H as (y & Hy & Hin).
  apply filter_In in Hin. apply in_map_iff. exists y. tauto.
Qed.

End Tables.

(** X9: a call that throws the validation error, [UNAUTHORIZED] or
    [NOT_FOUND], that is anything but an error of the store, has changed
    no row and has drawn neither a clock reading nor an identifier. *)
Theorem failed_call_changes_nothing (op : Operation) (request : value)
    (context : Context) (w : World) (e : Thrown) :
  fst (call op request context w) = Threw e ->
  (forall k, e <> StoreError k) ->
  AffirmationCollections (snd (call op request context w))
  = AffirmationCollections w
  /\ Affirmations (snd (call op request context w)) = Affirmations w
  /\ date_calls (snd (call op request context w)) = date_calls w
  /\ uuid_calls (snd (call op request context w)) = uuid_calls w.
Proof.
  pose proof (call_effect op request context w) as E. revert E.
  generalize (fst (call op request context w)).
  generalize (snd (call op request context w)).
  intros w' r E Hr Hk. destruct E; try discriminate.
  - repeat split.
  - injection Hr as <-. exfalso. exact (Hk _ eq_refl).
  - injection Hr as <-. exfalso. exact (Hk _ eq_refl).
Qed.

Lemma failed_call_changes_nothing_witness :
  Affirmations
    (snd (call CreateAffirmation
            (VObject [("text", VString "t"); ("collectionId", VString "C1")])
            Scenario.V Scenario.shared))
  = Affirmations Scenario.shared
  /\ uuid_calls
       (snd (call CreateAffirmation
               (VObject [("text", VString "t");
                         ("collectionId", VString "C1")])
               Scenario.V Scenario.shared))
     = uuid_calls Scenario.shared.
Proof.
  destruct (failed_call_changes_nothing CreateAffirmation
              (VObject [("text", VString "t"); ("collectionId", VString "C1")])
              Scenario.V Scenario.shared
              (ActionError NOT_FOUND "Collection not found.") eq_refl)
    as (_ & Ha & _ & Hu).
  - discriminate.
  - split; assumption.
Defined.

(** X10: unique identifiers are kept by every call, provided the
    identifier the generator would hand out next is not yet in use in
    either table. *)
Theorem unique_ids_preserved (op : Operation) (request : value)
    (context : Context) (w : World) :
  unique_ids w ->
  ~ In (uuids w (uuid_calls w)) (map c_id (AffirmationCollections w)) ->
  ~ In (uuids w (uuid_calls w)) (map a_id (Affirmations w)) ->
  unique_ids (snd (call op request context w)).
Proof.
  intros [Hc Ha] Hfc Hfa.
  destruct (call_effect op request context w)
    as [e st|k w' Hsc Hsa|u id w' Hop Hu Hsc Hsa
        |items st|items st|u input st Hop Hu Hs
        |u input existing st Hop Hu Hs Hin Hown|u id st Hop Hu
        |u input st Hop Hu Hs Hcol
        |u input existing st Hop Hu Hs Hcol Hin Hown|u id st Hop Hu];
    split;
    cbn [issued with_trace updated_world AffirmationCollections Affirmations];
    try assumption.
  - rewrite Hsc. exact Hc.
  - rewrite Hsa. exact Ha.
  - rewrite Hsc. exact Hc.
  - rewrite Hsa. apply NoDup_map_filter. exact Ha.
  - rewrite map_app. apply NoDup_snoc; assumption.
  - rewrite map_id_updated; [assumption|reflexivity].
  - apply NoDup_map_filter. exact Hc.
  - apply NoDup_map_filter. exact Ha.
  - rewrite map_app. apply NoDup_snoc; assumption.
  - rewrite map_id_updated; [assumption|reflexivity].
  - apply NoDup_map_filter. exact Ha.
Qed.

Lemma unique_ids_preserved_witness :
  unique_ids
    (snd (call CreateAffirmation (VObject [("text", VString "t")])
            Scenario.V Scenario.w2)).
Proof.
  apply (unique_ids_preserved CreateAffirmation
           (VObject [("text", VString "t")]) Scenario.V Scenario.w2).
  - split; repeat constructor; simpl; tauto.
  - simpl. intros [H|[]]. discriminate.
  - simpl. intros [H|[]]. discriminate.
Defined.

(** X11: referential integrity is kept by every call whose request does
    not carry the empty string as [collectionId]: if every non-null
    [collectionId] names a collection of the affirmation's owner before
    the call, the same holds after it. *)
Theorem references_preserved (op : Operation) (request : value)
    (context : Context) (w : World) :
  references_hold w ->
  supplied_collectionId request <> VString "" ->
  references_hold (snd (call op request context w)).
Proof.
  intros Href Hsupplied.
  destruct (call_effect op request context w)
    as [e st|k w' Hsc Hsa|u id w' Hop Hu Hsc Hsa
        |items st|items st|u input st Hop Hu Hs
        |u input existing st Hop Hu Hs Hin Hown|u id st Hop Hu
        |u input st Hop Hu Hs Hcol
        |u input existing st Hop Hu Hs Hcol Hin Hown|u id st Hop Hu];
    intros a c;
    cbn [issued with_trace updated_world AffirmationCollections Affirmations];
    intros Ha Hc.
  - exact (Href a c Ha Hc).
  - rewrite Hsa in Ha. rewrite Hsc. exact (Href a c Ha Hc).
  - rewrite Hsa in Ha. rewrite Hsc.
    apply in_filter_negb in Ha. exact (Href a c (proj1 Ha) Hc).
  - exact (Href a c Ha Hc).
  - exact (Href a c Ha Hc).
  - destruct (Href a c Ha Hc) as (col & Hcol & Hid & Howner).
    exists col. rewrite in_app_iff. tauto.
  - destruct (Href a c Ha Hc) as (col & Hcol & Hid & Howner).
    exists (if own_collection (uc_id input) u col
            then spread_collection col (collection_updates input w)
            else col).
    split.
    + apply in_map_iff. exists col. split; [reflexivity|exact Hcol].
    + destruct (own_collection (uc_id input) u col); cbn; tauto.
  - apply in_filter_negb in Ha. destruct Ha as [Ha Hkept].
    destruct (Href a c Ha Hc) as (col & Hcol & Hid & Howner).
    exists col. split; [|tauto].
    apply in_filter_negb. split; [exact Hcol|].
    destruct (own_collection id u col) eqn:E; [|reflexivity].
    apply own_collection_iff in E. destruct E as [E1 E2].
    assert (in_own_collection id u a = true)
      by (apply in_own_collection_iff; split; congruence).
    congruence.
  - apply in_app_iff in Ha. destruct Ha as [Ha|[<-|[]]].
    + exact (Href a c Ha Hc).
    + cbn in Hc. destruct (ca_collectionId input) as [c'|] eqn:Ec;
        [|discriminate].
      cbn in Hc. injection Hc as ->.
      destruct (createAffirmationSchema_sound _ _ Hs) as (_ & _ & Hreq).
      apply (Hcol c eq_refl). intros ->.
      apply Hsupplied. apply Hreq. exact Ec.
  - apply in_map_cases in Ha. destruct Ha as [(r & Hr & Hcond & ->)|[Ha _]].
    + apply own_affirmation_iff in Hcond. destruct Hcond as [_ Hru].
      cbn in Hc |- *.
      destruct (ua_collectionId input) as [[c'|]|] eqn:Ec; cbn in Hc.
      * injection Hc as ->. rewrite Hru.
        destruct (updateAffirmationSchema_sound _ _ Hs) as (_ & _ & Hreq).
        apply (Hcol c eq_refl). intros ->.
        apply Hsupplied. apply Hreq. exact Ec.
      * discriminate.
      * exact (Href r c Hr Hc).
    + exact (Href a c Ha Hc).
  - apply in_filter_negb in Ha. destruct Ha as [Ha _].
    exact (Href a c Ha Hc).
Qed.

Lemma references_preserved_witness :
  references_hold
    (snd (call DeleteCollection (VObject [("id", VString "C1")])
            Scenario.U Scenario.w2)).
Proof.
  apply (references_preserved DeleteCollection
           (VObject [("id", VString "C1")]) Scenario.U Scenario.w2).
  - intros a c [<-|[]] [= <-].
    exists Scenario.C1. repeat split. left. reflexivity.
  - discriminate.
Defined.

(** X12: the column constraints of the schemas are kept by every call:
    if every stored collection has a non-empty name and every stored
    affirmation a non-empty text and a time of day that is null or one of
    morning, evening, any, the same holds after any call. *)
Theorem well_formed_preserved (op : Operation) (request : value)
    (context : Context) (w : World) :
  well_formed w -> well_formed (snd (call op request context w)).
Proof.
  intros [Hwc Hwa].
  destruct (call_effect op request context w)
    as [e st|k w' Hsc Hsa|u id w' Hop Hu Hsc Hsa
        |items st|items st|u input st Hop Hu Hs
        |u input existing st Hop Hu Hs Hin Hown|u id st Hop Hu
        |u input st Hop Hu Hs Hcol
        |u input existing st Hop Hu Hs Hcol Hin Hown|u id st Hop Hu];
    split;
    cbn [issued with_trace updated_world AffirmationCollections Affirmations];
    try assumption.
  - rewrite Hsc. exact Hwc.
  - rewrite Hsa. exact Hwa.
  - rewrite Hsc. exact Hwc.
  - rewrite Hsa. intros a Ha. apply filter_In in Ha. exact (Hwa a (proj1 Ha)).
  - intros c Hc. apply in_app_iff in Hc. destruct Hc as [Hc|[<-|[]]];
      [exact (Hwc c Hc)|].
    exact (createCollectionSchema_sound _ _ Hs).
  - intros c Hc. apply in_map_cases in Hc.
    destruct Hc as [(r & Hr & _ & ->)|[Hc _]]; [|exact (Hwc c Hc)].
    unfold well_formed_collection. cbn.
    destruct (uc_name input) as [n|] eqn:En; cbn.
    + exact (updateCollectionSchema_sound _ _ Hs n En).
    + exact (Hwc r Hr).
  - intros c Hc. apply filter_In in Hc. exact (Hwc c (proj1 Hc)).
  - intros a Ha. apply filter_In in Ha. exact (Hwa a (proj1 Ha)).
  - intros a Ha. apply in_app_iff in Ha. destruct Ha as [Ha|[<-|[]]];
      [exact (Hwa a Ha)|].
    destruct (createAffirmationSchema_sound _ _ Hs) as (Ht & He & _).
    split; assumption.
  - intros a Ha. apply in_map_cases in Ha.
    destruct Ha as [(r & Hr & _ & ->)|[Ha _]]; [|exact (Hwa a Ha)].
    destruct (updateAffirmationSchema_sound _ _ Hs) as (Ht & He & _).
    destruct (Hwa r Hr) as [Hrt Hre]. split; cbn.
    + destruct (ua_text input) as [t|] eqn:Et; cbn;
        [exact (Ht t eq_refl)|exact Hrt].
    + intros t. destruct (ua_useTimeOfDay input) as [t'|] eqn:Et; cbn.
      * intros [= <-]. exact (He t' eq_refl).
      * apply Hre.
  - intros a Ha. apply filter_In in Ha. exact (Hwa a (proj1 Ha)).
Qed.

Lemma well_formed_preserved_witness :
  well_formed
    (snd (call UpdateAffirmation
            (VObject [("id", VString "A1"); ("useTimeOfDay", VString "any")])
            Scenario.U Scenario.w2)).
Proof.
  apply (well_formed_preserved UpdateAffirmation
           (VObject [("id", VString "A1"); ("useTimeOfDay", VString "any")])
           Scenario.U Scenario.w2).
  split.
  - intros c [<-|[]]. discriminate.
  - intros a [<-|[]]. split; [discriminate|]. intros t. discriminate.
Defined.

(** X13: no call rewrites the identity of a stored row.  After any call,
    every affirmation in the table either stems from a row that was
    there before with the same [id], [userId], [createdAt] and
    [isSystem], or is the row just created: it carries the identifier
    just drawn, the caller as owner, [isSystem] false and equal
    timestamps.  The same holds for collections.  In particular no call
    makes a system-curated affirmation or moves a row to another owner. *)
Theorem identity_columns_are_immutable (op : Operation) (request : value)
    (context : Context) (w : World) :
  (forall a', In a' (Affirmations (snd (call op request context w))) ->
     (exists a, In a (Affirmations w)
                /\ a_id a = a_id a' /\ a_userId a = a_userId a'
                /\ a_createdAt a = a_createdAt a'
                /\ a_isSystem a = a_isSystem a')
     \/ (a_id a' = uuids w (uuid_calls w)
         /\ a_isSystem a' = false
         /\ a_createdAt a' = a_updatedAt a'
         /\ exists u, caller context = Some u /\ a_userId a' = user_id u))
  /\ (forall c', In c' (AffirmationCollections
                         (snd (call op request context w))) ->
        (exists c, In c (AffirmationCollections w)
                   /\ c_id c = c_id c' /\ c_userId c = c_userId c'
                   /\ c_createdAt c = c_createdAt c')
        \/ (c_id c' = uuids w (uuid_calls w)
            /\ c_createdAt c' = c_updatedAt c'
            /\ exists u, caller context = Some u /\ c_userId c' = user_id u)).
Proof.
  assert (Ha : forall a', In a' (Affirmations w) ->
            exists a, In a (Affirmations w)
                      /\ a_id a = a_id a' /\ a_userId a = a_userId a'
                      /\ a_createdAt a = a_createdAt a'
                      /\ a_isSystem a = a_isSystem a')
    by (intros a' H; exists a'; tauto).
  assert (Hc : forall c', In c' (AffirmationCollections w) ->
            exists c, In c (AffirmationCollections w)
                      /\ c_id c = c_id c' /\ c_userId c = c_userId c'
                      /\ c_createdAt c = c_createdAt c')
    by (intros c' H; exists c'; tauto).
  destruct (call_effect op request context w)
    as [e st|k w' Hsc Hsa|u id w' Hop Hu Hsc Hsa
        |items st|items st|u input st Hop Hu Hs
        |u input existing st Hop Hu Hs Hin Hown|u id st Hop Hu
        |u input st Hop Hu Hs Hcol
        |u input existing st Hop Hu Hs Hcol Hin Hown|u id st Hop Hu];
    split;
    cbn [issued with_trace updated_world AffirmationCollections Affirmations];
    try (intros x Hx; left; auto; fail).
  - rewrite Hsa. intros x Hx. left. auto.
  - rewrite Hsc. intros x Hx. left. auto.
  - rewrite Hsa. intros a' H. apply filter_In in H. left. apply Ha. tauto.
  - rewrite Hsc. intros x Hx. left. auto.
  - intros c' H. apply in_app_iff in H. destruct H as [H|[<-|[]]];
      [left; auto|].
    right. cbn. repeat split. exists u. auto.
  - intros c' H. apply in_map_cases in H.
    destruct H as [(r & Hr & _ & ->)|[H _]]; [|left; auto].
    left. exists r. cbn. tauto.
  - intros a' H. apply filter_In in H. left. apply Ha. tauto.
  - intros c' H. apply filter_In in H. left. apply Hc. tauto.
  - intros a' H. apply in_app_iff in H. destruct H as [H|[<-|[]]];
      [left; auto|].
    right. cbn. repeat split. exists u. auto.
  - intros a' H. apply in_map_cases in H.
    destruct H as [(r & Hr & _ & ->)|[H _]]; [|left; auto].
    left. exists r. cbn. tauto.
  - intros a' H. apply filter_In in H. left. apply Ha. tauto.
Qed.

(** X14: each table is written only by its own operations.  The three
    operations [createCollection], [updateCollection], [listCollections]
    leave the table of affirmations as it was, and the four affirmation
    operations leave the table of collections as it was, for every
    request and caller. *)
Theorem tables_are_separate (op : Operation) (request : value)
    (context : Context) (w : World) :
  (collection_only op = true ->
   Affirmations (snd (call op request context w)) = Affirmations w)
  /\ (affirmation_only op = true ->
      AffirmationCollections (snd (call op request context w))
      = AffirmationCollections w).
Proof.
  destruct (call_effect op request context w); subst; split; intros Honly;
    try discriminate; try reflexivity; assumption.
Qed.

Lemma tables_are_separate_witness :
  Affirmations
    (snd (call UpdateCollection
            (VObject [("id", VString "C1"); ("name", VString "Calm")])
            Scenario.U Scenario.w2))
  = Affirmations Scenario.w2
  /\ AffirmationCollections
       (snd (call DeleteAffirmation (VObject [("id", VString "A1")])
               Scenario.U Scenario.w2))
     = AffirmationCollections Scenario.w2.
Proof.
  split.
  - apply (tables_are_separate UpdateCollection
             (VObject [("id", VString "C1"); ("name", VString "Calm")])
             Scenario.U Scenario.w2).
    reflexivity.
  - apply (tables_are_separate DeleteAffirmation
             (VObject [("id", VString "A1")]) Scenario.U Scenario.w2).
    reflexivity.
Defined.

(** X15: the two list operations are read-only.  Whatever the request
    and the caller, they leave both tables, the clock and the identifier
    generator untouched, and the only statement they can send is one
    select on their own table. *)
Theorem lists_are_read_only (request : value) (context : Context)
    (w : World) :
  (snd (server.listCollections request context w) = w
   \/ snd (server.listCollections request context w)
      = issued w [SelectCollections])
  /\ (snd (server.listAffirmations request context w) = w
      \/ snd (server.listAffirmations request context w)
         = issued w [SelectAffirmations]).
Proof.
  destruct (caller context) as [u|] eqn:Hu.
  - split.
    + unfold server.listCollections, defineAction.
      destruct (listCollectionsSchema request); [|left; reflexivity].
      rewrite (listCollections_run _ _ u w Hu). right. reflexivity.
    + unfold server.listAffirmations, defineAction.
      destruct (listAffirmationsSchema request); [|left; reflexivity].
      rewrite (listAffirmations_run _ _ u w Hu). right. reflexivity.
  - destruct (handlers_anonymous context w Hu)
      as (_ & _ & _ & H4 & _ & _ & _ & H8).
    split; left.
    + unfold server.listCollections, defineAction.
      destruct (listCollectionsSchema request); [rewrite H4|]; reflexivity.
    + unfold server.listAffirmations, defineAction.
      destruct (listAffirmationsSchema request); [rewrite H8|]; reflexivity.
Qed.

Lemma identity_columns_are_immutable_witness :
  exists a, In a (Affirmations Scenario.w2)
            /\ a_id a = "A1" /\ a_userId a = "u"
            /\ a_createdAt a = 1001%Z /\ a_isSystem a = false.
Proof.
  destruct (proj1 (identity_columns_are_immutable UpdateAffirmation
                     (VObject [("id", VString "A1");
                               ("text", VString "I am able")])
                     Scenario.U Scenario.w2)
              (mkAffirmation "A1" (Some "C1") "u" "I am able" None None None
                 None false false 1001 1002)
              (or_introl eq_refl))
    as [(a & Hin & Hid & Hu & Hc & Hs)|(Hid & _)].
  - exists a. repeat split; assumption.
  - discriminate.
Defined.

(* ===================================================================== *)
(** ** Updating a collection                                             *)
(* ===================================================================== *)

(** X1: [updateCollection] on a collection the caller owns (identifiers
    being unique) succeeds after one select and one update.  The
    returned record is the row persisted under that identifier: each
    supplied field is replaced, each field not supplied keeps its prior
    value, [id], [userId] and [createdAt] are unchanged and [updatedAt]
    is the clock reading taken by the update.  Every other collection
    and every affirmation is left as it was. *)
Theorem updateCollection_frame (request : value) (context : Context)
    (caller_ : User) (input : UpdateCollectionInput) (w : World)
    (existing : Collection) :
  caller context = Some caller_ ->
  updateCollectionSchema request = Some input ->
  NoDup (map c_id (AffirmationCollections w)) ->
  In existing (AffirmationCollections w) ->
  c_id existing = uc_id input ->
  c_userId existing = user_id caller_ ->
  exists collection w',
    server.updateCollection request context w
    = (Returned (mkResponse true (Some (OneCollection collection))), w')
    /\ trace w' = trace w ++ [SelectCollections; UpdateCollections]
    /\ In collection (AffirmationCollections w')
    /\ (forall c, In c (AffirmationCollections w') ->
                  c_id c = c_id existing -> c = collection)
    /\ c_id collection = c_id existing
    /\ c_userId collection = c_userId existing
    /\ c_createdAt collection = c_createdAt existing
    /\ replaced_or_kept (uc_name input)
         (c_name existing) (c_name collection)
    /\ replaced_or_kept_nullable (uc_description input)
         (c_description existing) (c_description collection)
    /\ replaced_or_kept_nullable (uc_icon input)
         (c_icon existing) (c_icon collection)
    /\ replaced_or_kept (uc_isDefault input)
         (c_isDefault existing) (c_isDefault collection)
    /\ c_updatedAt collection = dates w (date_calls w)
    /\ (forall c, c_id c <> c_id existing ->
                  (In c (AffirmationCollections w') <->
                   In c (AffirmationCollections w)))
    /\ Affirmations w' = Affirmations w.
Proof.
  intros Hu Hs Hnd Hin Hid Hown. unfold server.updateCollection.
  rewrite (defineAction_accepts _ _ _ _ input Hs).
  rewrite (updateCollection_run _ _ caller_ w Hu). cbn zeta.
  assert (Hcond : own_collection (uc_id input) caller_ existing = true)
    by (apply own_collection_iff; split; assumption).
  assert (Hsel : filter (Db.and [Db.eq c_id (uc_id input);
                                 Db.eq c_userId (user_id caller_)])
                   (AffirmationCollections w) = [existing]).
  { rewrite <- Hid. apply (select_unique c_userId c_id); assumption. }
  rewrite Hsel.
  cbn [hd_error]. eexists. eexists. split; [reflexivity|].
  cbn [trace AffirmationCollections Affirmations].
  split; [rewrite <- app_assoc; reflexivity|].
  split.
  { apply (in_map_selected (own_collection (uc_id input) caller_)
             (fun r => spread_collection r _)); assumption. }
  split.
  { intros c Hc Hcid. apply in_map_cases in Hc.
    destruct Hc as [(r & Hr & Hrc & ->)|[Hc Hcc]].
    - f_equal. apply (NoDup_map_injective c_id (AffirmationCollections w));
        auto.
    - assert (c = existing)
        by (apply (NoDup_map_injective c_id (AffirmationCollections w));
            auto).
      subst c. unfold own_collection in Hcond. congruence. }
  repeat (split; [reflexivity|]).
  split; [cbn; destruct (uc_name input); reflexivity|].
  split; [cbn; destruct (uc_description input); reflexivity|].
  split; [cbn; destruct (uc_icon input); reflexivity|].
  split; [cbn; destruct (uc_isDefault input); reflexivity|].
  split; [reflexivity|]. split; [|reflexivity].
  intros c Hne. split.
  - intros Hc. apply in_map_cases in Hc.
    destruct Hc as [(r & Hr & Hrc & ->)|[Hc _]]; [|exact Hc].
    apply (and_owner c_userId c_id) in Hrc. destruct Hrc as [Hrc _].
    exfalso. apply Hne. cbn. congruence.
  - intros Hc. apply in_map_iff. exists c. split; [|exact Hc].
    destruct (Db.and _ c) eqn:E; [|reflexivity].
    apply (and_owner c_userId c_id) in E. destruct E as [E _].
    exfalso. apply Hne. congruence.
Qed.

Lemma updateCollection_frame_witness :
  exists collection w',
    server.updateCollection
      (VObject [("id", VString "C1"); ("icon", VString "sun")])
      Scenario.U Scenario.w2
    = (Returned (mkResponse true (Some (OneCollection collection))), w')
    /\ In collection (AffirmationCollections w')
    /\ c_name collection = "Confidence"
    /\ c_icon collection = Some "sun"
    /\ c_createdAt collection = 1000%Z
    /\ c_updatedAt collection = 1002%Z
    /\ Affirmations w' = Affirmations Scenario.w2.
Proof.
  destruct (updateCollection_frame
              (VObject [("id", VString "C1"); ("icon", VString "sun")])
              Scenario.U (mkUser "u")
              (mkUpdateCollectionInput "C1" None None (Some "sun") None)
              Scenario.w2 Scenario.C1 eq_refl eq_refl)
    as (c & w' & Hrun & _ & Hin & _ & _ & _ & Hcreated & Hname & _ & Hicon
        & _ & Hupdated & _ & Haff).
  - repeat constructor. simpl. tauto.
  - left. reflexivity.
  - reflexivity.
  - reflexivity.
  - exists c, w'. repeat split; assumption.
Defined.

(* ===================================================================== *)
(** ** Rows that are not there                                           *)
(* ===================================================================== *)

(** X2: the four operations addressed by an identifier fail [NOT_FOUND]
    when the caller owns no row with that identifier, whether the row is
    missing or somebody else's: [updateCollection] and
    [deleteCollection] with "Collection not found.", [updateAffirmation]
    and [deleteAffirmation] with "Affirmation not found.".  Each has
    sent its lookup select and nothing else, so no row has changed. *)
Theorem not_found_without_own_row (context : Context) (caller_ : User)
    (w : World) (id : string) :
  caller context = Some caller_ ->
  ((forall c, In c (AffirmationCollections w) ->
              c_id c = id -> c_userId c <> user_id caller_) ->
   (forall request input,
      updateCollectionSchema request = Some input -> uc_id input = id ->
      server.updateCollection request context w
      = (Threw (ActionError NOT_FOUND "Collection not found."),
         issued w [SelectCollections]))
   /\ (forall o, get "id" o = VString id ->
         server.deleteCollection (VObject o) context w
         = (Threw (ActionError NOT_FOUND "Collection not found."),
            issued w [SelectCollections])))
  /\ ((forall a, In a (Affirmations w) ->
                 a_id a = id -> a_userId a <> user_id caller_) ->
      (forall request input,
         updateAffirmationSchema request = Some input -> ua_id input = id ->
         server.updateAffirmation request context w
         = (Threw (ActionError NOT_FOUND "Affirmation not found."),
            issued w [SelectAffirmations]))
      /\ (forall o, get "id" o = VString id ->
            server.deleteAffirmation (VObject o) context w
            = (Threw (ActionError NOT_FOUND "Affirmation not found."),
               issued w [SelectAffirmations]))).
Proof.
  intros Hu. split.
  - intros Hnone.
    assert (Hsel : filter (own_collection id caller_)
                     (AffirmationCollections w) = []).
    { apply filter_none. intros c Hc.
      destruct (own_collection id caller_ c) eqn:E; [|reflexivity].
      apply own_collection_iff in E. destruct E as [E1 E2].
      exfalso. exact (Hnone c Hc E1 E2). }
    split.
    + intros request input Hs <-. unfold server.updateCollection.
      rewrite (defineAction_accepts _ _ _ _ input Hs).
      rewrite (updateCollection_run _ _ caller_ w Hu). cbn zeta.
      unfold own_collection in Hsel. rewrite Hsel. reflexivity.
    + intros o Ho. unfold server.deleteCollection.
      rewrite (defineAction_accepts _ _ _ _ (mkIdInput id))
        by (unfold idSchema; rewrite Ho; reflexivity).
      rewrite (deleteCollection_run _ _ caller_ w Hu). cbn [in_id].
      rewrite Hsel. reflexivity.
  - intros Hnone.
    assert (Hsel : filter (own_affirmation id caller_) (Affirmations w) = []).
    { apply filter_none. intros a Ha.
      destruct (own_affirmation id caller_ a) eqn:E; [|reflexivity].
      apply own_affirmation_iff in E. destruct E as [E1 E2].
      exfalso. exact (Hnone a Ha E1 E2). }
    split.
    + intros request input Hs <-. unfold server.updateAffirmation.
      rewrite (defineAction_accepts _ _ _ _ input Hs).
      apply (updateAffirmation_missing _ _ caller_ w Hu). exact Hsel.
    + intros o Ho. unfold server.deleteAffirmation.
      rewrite (defineAction_accepts _ _ _ _ (mkIdInput id))
        by (unfold idSchema; rewrite Ho; reflexivity).
      rewrite (deleteAffirmation_run _ _ caller_ w Hu). cbn [in_id].
      rewrite Hsel. reflexivity.
Qed.

Lemma not_found_without_own_row_witness :
  server.deleteCollection (VObject [("id", VString "C1")])
    Scenario.V Scenario.w2
  = (Threw (ActionError NOT_FOUND "Collection not found."),
     issued Scenario.w2 [SelectCollections])
  /\ server.deleteAffirmation (VObject [("id", VString "nope")])
       Scenario.U Scenario.w2
     = (Threw (ActionError NOT_FOUND "Affirmation not found."),
        issued Scenario.w2 [SelectAffirmations]).
Proof.
  split.
  - apply (proj1 (not_found_without_own_row Scenario.V (mkUser "v")
                    Scenario.w2 "C1" eq_refl)).
    + intros c [<-|[]] _. discriminate.
    + reflexivity.
  - apply (proj2 (not_found_without_own_row Scenario.U (mkUser "u")
                    Scenario.w2 "nope" eq_refl)).
    + intros a [<-|[]]. discriminate.
    + reflexivity.
Defined.

(* ===================================================================== *)
(** ** Deleting an affirmation                                           *)
(* ===================================================================== *)

(** X3: [deleteAffirmation] of an affirmation the caller owns sends one
    select and one delete and returns the bare success signal.  Gone are
    exactly the caller's rows with that identifier; every other
    affirmation and every collection stays.  Repeating the same call
    then fails [NOT_FOUND]. *)
Theorem deleteAffirmation_spec (o : list (string * value))
    (context : Context) (caller_ : User) (w : World) (id : string)
    (a : Affirmation) :
  caller context = Some caller_ ->
  get "id" o = VString id ->
  In a (Affirmations w) ->
  a_id a = id ->
  a_userId a = user_id caller_ ->
  exists w',
    server.deleteAffirmation (VObject o) context w
    = (Returned (mkResponse true None), w')
    /\ trace w' = trace w ++ [SelectAffirmations; DeleteAffirmations]
    /\ (forall a', In a' (Affirmations w') <->
                   In a' (Affirmations w)
                   /\ ~ (a_id a' = id /\ a_userId a' = user_id caller_))
    /\ AffirmationCollections w' = AffirmationCollections w
    /\ server.deleteAffirmation (VObject o) context w'
       = (Threw (ActionError NOT_FOUND "Affirmation not found."),
          issued w' [SelectAffirmations]).
Proof.
  intros Hu Ho Hin Hid Hown. unfold server.deleteAffirmation.
  rewrite (defineAction_accepts _ _ _ _ (mkIdInput id))
    by (unfold idSchema; rewrite Ho; reflexivity).
  rewrite (deleteAffirmation_run _ _ caller_ w Hu). cbn [in_id].
  destruct (hd_filter_exists (own_affirmation id caller_) _ a Hin
              (proj2 (own_affirmation_iff id caller_ a) (conj Hid Hown)))
    as (first & -> & _).
  eexists. split; [reflexivity|].
  cbn [trace Affirmations AffirmationCollections].
  split; [reflexivity|].
  assert (Hrows : forall a',
            In a' (filter (fun r => negb (own_affirmation id caller_ r))
                     (Affirmations w)) <->
            In a' (Affirmations w)
            /\ ~ (a_id a' = id /\ a_userId a' = user_id caller_)).
  { intros a'. rewrite in_filter_negb, <- own_affirmation_iff.
    rewrite not_true_iff_false. reflexivity. }
  split; [exact Hrows|]. split; [reflexivity|].
  rewrite (deleteAffirmation_run _ _ caller_ _ Hu).
  cbn [in_id Affirmations].
  rewrite filter_none; [reflexivity|].
  intros a' Ha'. apply in_filter_negb in Ha'. tauto.
Qed.

Lemma deleteAffirmation_spec_witness :
  exists w',
    server.deleteAffirmation (VObject [("id", VString "A1")])
      Scenario.U Scenario.shared
    = (Returned (mkResponse true None), w')
    /\ ~ In Scenario.A1 (Affirmations w')
    /\ In Scenario.B1 (Affirmations w')
    /\ fst (server.deleteAffirmation (VObject [("id", VString "A1")])
              Scenario.U w')
       = Threw (ActionError NOT_FOUND "Affirmation not found.").
Proof.
  destruct (deleteAffirmation_spec [("id", VString "A1")]
              Scenario.U (mkUser "u") Scenario.shared "A1" Scenario.A1
              eq_refl eq_refl (or_introl eq_refl) eq_refl eq_refl)
    as (w' & Hrun & _ & Hrows & _ & Hagain).
  exists w'. split; [exact Hrun|]. split; [|split].
  - intros H. apply Hrows in H. destruct H as [_ H]. apply H.
    split; reflexivity.
  - apply Hrows. split.
    + right. left. reflexivity.
    + intros [H _]. discriminate.
  - rewrite Hagain. reflexivity.
Defined.

(* ===================================================================== *)
(** ** Listing collections                                               *)
(* ===================================================================== *)

(** X4: [listCollections] ignores its input: called by a signed-in user
    with no input or with any object, it returns, in storage order,
    exactly the collections whose [userId] is the caller, with [total]
    their number, after one select. *)
Theorem listCollections_spec (request : value) (context : Context)
    (caller_ : User) (w : World) :
  caller context = Some caller_ ->
  (request = VUndefined \/ exists o, request = VObject o) ->
  exists items,
    server.listCollections request context w
    = (Returned (mkResponse true
                   (Some (CollectionItems items (length items)))),
       issued w [SelectCollections])
    /\ items = filter (fun c => c_userId c =? user_id caller_)
                 (AffirmationCollections w)
    /\ (forall c, In c items <->
                  In c (AffirmationCollections w)
                  /\ c_userId c = user_id caller_).
Proof.
  intros Hu Hreq. unfold server.listCollections.
  assert (Hs : exists input, listCollectionsSchema request = Some input).
  { destruct Hreq as [->|(o & ->)]; eexists; reflexivity. }
  destruct Hs as (input & Hs).
  rewrite (defineAction_accepts _ _ _ _ input Hs).
  rewrite (listCollections_run _ _ caller_ w Hu). cbn zeta.
  eexists. split; [reflexivity|]. split; [reflexivity|].
  intros c. rewrite filter_In. unfold Db.eq. rewrite String.eqb_eq.
  reflexivity.
Qed.

Lemma listCollections_spec_witness :
  exists items,
    server.listCollections (VObject [("page", VNumber 2)])
      Scenario.U Scenario.w2
    = (Returned (mkResponse true
                   (Some (CollectionItems items (length items)))),
       issued Scenario.w2 [SelectCollections])
    /\ (forall c, In c items <->
                  In c (AffirmationCollections Scenario.w2)
                  /\ c_userId c = "u").
Proof.
  destruct (listCollections_spec (VObject [("page", VNumber 2)])
              Scenario.U (mkUser "u") Scenario.w2 eq_refl)
    as (items & Hrun & _ & Hitems).
  - right. eexists. reflexivity.
  - exists items. split; assumption.
Defined.

(* ===================================================================== *)
(** ** Creating, then listing or deleting                                *)
(* ===================================================================== *)

Section Appended.

Context {R : Type}.

Lemma filter_snoc_kept (p : R -> bool) (l : list R) (x : R) :
  p x = true -> filter p (l ++ [x]) = filter p l ++ [x].
Proof. intros H. rewrite filter_app. cbn. rewrite H. reflexivity. Qed.

Lemma filter_all (p : R -> bool) (l : list R) :
  (forall r, In r l -> p r = true) -> filter p l = l.
Proof.
  induction l as [|x l IH]; cbn; intros H; [reflexivity|].
  rewrite (H x (or_introl eq_refl)). f_equal. apply IH.
  intros r Hr. apply H. right. exact Hr.
Qed.

(** Deleting by a condition that selects the last row and no other gives
    back the rows before it. *)
Lemma delete_appended (cond : R -> bool) (l : list R) (x : R) :
  cond x = true -> (forall r, In r l -> cond r = false) ->
  filter (fun r => negb (cond r)) (l ++ [x]) = l.
Proof.
  intros Hx Hl. rewrite filter_app. cbn. rewrite Hx. cbn.
  rewrite app_nil_r. apply filter_all. intros r Hr.
  rewrite (Hl r Hr). reflexivity.
Qed.

End Appended.

(** A creation whose collection, if one is named, belongs to the caller
    goes through when the identifier drawn is a fresh one. *)
Lemma createAffirmation_succeeds input context u w :
  caller context = Some u ->
  (forall c, ca_collectionId input = Some c ->
     exists col, In col (AffirmationCollections w)
                 /\ c_id col = c /\ c_userId col = user_id u) ->
  ~ In (uuids w (uuid_calls w)) (map a_id (Affirmations w)) ->
  exists statements,
    Handler.createAffirmation input context w =
    (Returned (mkResponse true
                 (Some (OneAffirmation (created_affirmation input u w)))),
     after_create w (AffirmationCollections w)
       (Affirmations w ++ [created_affirmation input u w]) statements).
Proof.
  intros Hu Hcol Hfresh.
  assert (Href : Db.reference_holds
                   (a_collectionId (created_affirmation input u w)) w = true).
  { change (a_collectionId (created_affirmation input u w))
      with (or_null (ca_collectionId input)).
    destruct (ca_collectionId input) as [c|]; [|reflexivity].
    destruct (Hcol c eq_refl) as (col & Hin & <- & _).
    apply collection_found. exact Hin. }
  destruct (truthy_opt (ca_collectionId input)) eqn:Ht.
  - destruct (ca_collectionId input) as [c|] eqn:Hc; [|discriminate].
    rewrite (createAffirmation_checked _ _ u w c Hu Hc Ht).
    destruct (Hcol c eq_refl) as (col & Hin & Hid & Hown).
    destruct (hd_filter_exists (own_collection c u) _ col Hin
                (proj2 (own_collection_iff c u col) (conj Hid Hown)))
      as (y & -> & _).
    rewrite (affirmation_insertion_fresh (created_affirmation input u w) w
               _ Hfresh Href).
    eexists. reflexivity.
  - rewrite (createAffirmation_unchecked _ _ u w Hu Ht).
    rewrite (affirmation_insertion_fresh (created_affirmation input u w) w
               _ Hfresh Href).
    eexists. reflexivity.
Qed.

(** X5: [createAffirmation] into a collection the caller owns, under a
    fresh identifier, succeeds and stores that [collectionId]; listing
    the collection right after returns what it returned before followed
    by the new affirmation. *)
Theorem createAffirmation_then_list (request : value) (context : Context)
    (caller_ : User) (input : CreateAffirmationInput) (w : World)
    (c : string) (col : Collection) :
  caller context = Some caller_ ->
  createAffirmationSchema request = Some input ->
  ca_collectionId input = Some c ->
  c <> "" ->
  In col (AffirmationCollections w) ->
  c_id col = c ->
  c_userId col = user_id caller_ ->
  ~ In (uuids w (uuid_calls w)) (map a_id (Affirmations w)) ->
  exists affirmation w',
    server.createAffirmation request context w
    = (Returned (mkResponse true (Some (OneAffirmation affirmation))), w')
    /\ a_collectionId affirmation = Some c
    /\ a_userId affirmation = user_id caller_
    /\ Affirmations w' = Affirmations w ++ [affirmation]
    /\ payload_affirmations
         (fst (server.listAffirmations
                 (VObject [("collectionId", VString c)]) context w'))
       = payload_affirmations
           (fst (server.listAffirmations
                   (VObject [("collectionId", VString c)]) context w))
         ++ [affirmation].
Proof.
  intros Hu Hs Hc Hne Hin Hid Hown Hfresh. unfold server.createAffirmation.
  rewrite (defineAction_accepts _ _ _ _ input Hs).
  destruct (createAffirmation_succeeds input context caller_ w Hu)
    as (statements & ->); [|exact Hfresh|].
  { intros c' Hc'. rewrite Hc in Hc'. injection Hc' as <-.
    exists col. auto. }
  eexists. eexists. split; [reflexivity|].
  split; [cbn; rewrite Hc; reflexivity|].
  split; [reflexivity|]. split; [reflexivity|].
  unfold server.listAffirmations.
  rewrite (defineAction_accepts _ _ _ _
             (Some (mkListAffirmationsInput (Some c) None)))
    by reflexivity.
  rewrite !(listAffirmations_run _ _ caller_ _ Hu).
  cbn [fst payload_affirmations after_create Affirmations]. cbn zeta.
  apply filter_snoc_kept.
  rewrite filters_listed. unfold listed, created_affirmation. cbn.
  rewrite Hc. cbn. rewrite !String.eqb_refl.
  destruct c; [contradiction|reflexivity].
Qed.

Lemma createAffirmation_then_list_witness :
  exists affirmation w',
    server.createAffirmation
      (VObject [("text", VString "I am calm");
                ("collectionId", VString "C1")])
      Scenario.U Scenario.w2
    = (Returned (mkResponse true (Some (OneAffirmation affirmation))), w')
    /\ payload_affirmations
         (fst (server.listAffirmations
                 (VObject [("collectionId", VString "C1")]) Scenario.U w'))
       = [Scenario.A1; affirmation].
Proof.
  destruct (createAffirmation_then_list
              (VObject [("text", VString "I am calm");
                        ("collectionId", VString "C1")])
              Scenario.U (mkUser "u")
              (mkCreateAffirmationInput "I am calm" (Some "C1") None None
                 None None None)
              Scenario.w2 "C1" Scenario.C1 eq_refl eq_refl eq_refl)
    as (a & w' & Hrun & _ & _ & _ & Hlist).
  - discriminate.
  - left. reflexivity.
  - reflexivity.
  - reflexivity.
  - simpl. intros [H|[]]. discriminate.
  - exists a, w'. split; [exact Hrun|]. rewrite Hlist. reflexivity.
Defined.

(** X6: [createCollection] under a fresh identifier succeeds, and
    [listCollections] by the same caller right after returns what it
    returned before followed by the new collection. *)
Theorem createCollection_then_list (request : value) (context : Context)
    (caller_ : User) (input : CreateCollectionInput) (w : World) :
  caller context = Some caller_ ->
  createCollectionSchema request = Some input ->
  ~ In (uuids w (uuid_calls w)) (map c_id (AffirmationCollections w)) ->
  exists collection w',
    server.createCollection request context w
    = (Returned (mkResponse true (Some (OneCollection collection))), w')
    /\ payload_collections
         (fst (server.listCollections VUndefined context w'))
       = payload_collections
           (fst (server.listCollections VUndefined context w))
         ++ [collection].
Proof.
  intros Hu Hs Hfresh. unfold server.createCollection.
  rewrite (defineAction_accepts _ _ _ _ input Hs).
  rewrite (createCollection_run _ _ caller_ w Hu).
  rewrite collection_insertion_fresh by exact Hfresh.
  eexists. eexists. split; [reflexivity|].
  unfold server.listCollections.
  rewrite (defineAction_accepts _ _ _ _ None) by reflexivity.
  rewrite !(listCollections_run _ _ caller_ _ Hu).
  cbn [fst payload_collections after_create AffirmationCollections].
  cbn zeta.
  apply filter_snoc_kept. unfold Db.eq. cbn. apply String.eqb_refl.
Qed.

Lemma createCollection_then_list_witness :
  exists collection w',
    server.createCollection (VObject [("name", VString "Work")])
      Scenario.U Scenario.w2
    = (Returned (mkResponse true (Some (OneCollection collection))), w')
    /\ payload_collections
         (fst (server.listCollections VUndefined Scenario.U w'))
       = [Scenario.C1; collection].
Proof.
  destruct (createCollection_then_list (VObject [("name", VString "Work")])
              Scenario.U (mkUser "u")
              (mkCreateCollectionInput "Work" None None None)
              Scenario.w2 eq_refl eq_refl)
    as (c & w' & Hrun & Hlist).
  - simpl. intros [H|[]]. discriminate.
  - exists c, w'. split; [exact Hrun|]. rewrite Hlist. reflexivity.
Defined.

(** X7: create then delete is a round trip on the table of
    affirmations.  When the collection named, if any, belongs to the
    caller and the identifier drawn is not yet in the table, the
    creation succeeds, and deleting the created affirmation by the
    identifier it was given succeeds and leaves both tables exactly as
    they were before the creation. *)
Theorem createAffirmation_then_delete (request : value) (context : Context)
    (caller_ : User) (input : CreateAffirmationInput) (w : World) :
  caller context = Some caller_ ->
  createAffirmationSchema request = Some input ->
  (forall c, ca_collectionId input = Some c ->
     exists col, In col (AffirmationCollections w)
                 /\ c_id col = c /\ c_userId col = user_id caller_) ->
  ~ In (uuids w (uuid_calls w)) (map a_id (Affirmations w)) ->
  exists affirmation w1 w2,
    server.createAffirmation request context w
    = (Returned (mkResponse true (Some (OneAffirmation affirmation))), w1)
    /\ server.deleteAffirmation
         (VObject [("id", VString (a_id affirmation))]) context w1
       = (Returned (mkResponse true None), w2)
    /\ Affirmations w2 = Affirmations w
    /\ AffirmationCollections w2 = AffirmationCollections w.
Proof.
  intros Hu Hs Hcol Hfresh. unfold server.createAffirmation.
  rewrite (defineAction_accepts _ _ _ _ input Hs).
  destruct (createAffirmation_succeeds input context caller_ w Hu Hcol Hfresh)
    as (statements & ->).
  set (a := created_affirmation input caller_ w).
  assert (Hown : own_affirmation (a_id a) caller_ a = true)
    by (apply own_affirmation_iff; split; reflexivity).
  exists a. eexists. eexists. split; [reflexivity|].
  unfold server.deleteAffirmation.
  rewrite (defineAction_accepts _ _ _ _ (mkIdInput (a_id a)))
    by reflexivity.
  rewrite (deleteAffirmation_run _ _ caller_ _ Hu).
  cbn [in_id after_create Affirmations AffirmationCollections].
  destruct (hd_filter_exists (own_affirmation (a_id a) caller_)
              (Affirmations w ++ [a]) a)
    as (first & -> & _);
    [apply in_app_iff; right; left; reflexivity | exact Hown |].
  split; [reflexivity|].
  cbn [Affirmations AffirmationCollections]. split; [|reflexivity].
  apply delete_appended; [exact Hown|].
  intros r Hr. destruct (own_affirmation (a_id a) caller_ r) eqn:E;
    [|reflexivity].
  apply own_affirmation_iff in E. destruct E as [E1 _].
  exfalso. apply Hfresh. apply in_map_iff. exists r. split; assumption.
Qed.

Lemma createAffirmation_then_delete_witness :
  exists affirmation w1 w2,
    server.createAffirmation (VObject [("text", VString "I am calm")])
      Scenario.U Scenario.w2
    = (Returned (mkResponse true (Some (OneAffirmation affirmation))), w1)
    /\ server.deleteAffirmation
         (VObject [("id", VString (a_id affirmation))]) Scenario.U w1
       = (Returned (mkResponse true None), w2)
    /\ Affirmations w2 = Affirmations Scenario.w2.
Proof.
  destruct (createAffirmation_then_delete
              (VObject [("text", VString "I am calm")])
              Scenario.U (mkUser "u")
              (mkCreateAffirmationInput "I am calm" None None None None None
                 None)
              Scenario.w2 eq_refl eq_refl)
    as (a & w1 & w2 & Hc & Hd & Ha & _).
  - intros c H. discriminate.
  - simpl. intros [H|[]]. discriminate.
  - exists a, w1, w2. repeat split; assumption.
Defined.

(** X8: create then delete is a round trip for collections too.  When
    the identifier drawn for a new collection is not yet in the table
    and no affirmation references it, the creation succeeds, and
    deleting the created collection by the identifier it was given
    succeeds and leaves both tables exactly as they were before the
    creation. *)
Theorem createCollection_then_delete (request : value) (context : Context)
    (caller_ : User) (input : CreateCollectionInput) (w : World) :
  caller context = Some caller_ ->
  createCollectionSchema request = Some input ->
  ~ In (uuids w (uuid_calls w)) (map c_id (AffirmationCollections w)) ->
  (forall a, In a (Affirmations w) ->
     a_collectionId a <> Some (uuids w (uuid_calls w))) ->
  exists collection w1 w2,
    server.createCollection request context w
    = (Returned (mkResponse true (Some (OneCollection collection))), w1)
    /\ server.deleteCollection
         (VObject [("id", VString (c_id collection))]) context w1
       = (Returned (mkResponse true None), w2)
    /\ AffirmationCollections w2 = AffirmationCollections w
    /\ Affirmations w2 = Affirmations w.
Proof.
  intros Hu Hs Hfresh Hunref. unfold server.createCollection.
  rewrite (defineAction_accepts _ _ _ _ input Hs).
  rewrite (createCollection_run _ _ caller_ w Hu).
  rewrite collection_insertion_fresh by exact Hfresh.
  set (c := created_collection input caller_ w).
  set (w1 := after_create w _ _ _).
  assert (Hown : own_collection (c_id c) caller_ c = true)
    by (apply own_collection_iff; split; reflexivity).
  assert (Hnone : forall a, In a (Affirmations w1) ->
            in_own_collection (c_id c) caller_ a = false).
  { intros a Ha. apply not_true_is_false. rewrite in_own_collection_iff.
    intros [H _]. exact (Hunref a Ha H). }
  exists c, w1. eexists. split; [reflexivity|].
  unfold server.deleteCollection.
  rewrite (defineAction_accepts _ _ _ _ (mkIdInput (c_id c)))
    by reflexivity.
  rewrite (deleteCollection_run _ _ caller_ _ Hu). cbn [in_id].
  destruct (hd_filter_exists (own_collection (c_id c) caller_)
              (AffirmationCollections w1) c)
    as (first & -> & _);
    [apply in_app_iff; right; left; reflexivity | exact Hown |].
  rewrite cascade_leaves_no_reference.
  - split; [reflexivity|].
    cbn [after_delete Affirmations AffirmationCollections]. split.
    + apply (delete_appended (own_collection (c_id c) caller_));
        [exact Hown|].
      intros r Hr. destruct (own_collection (c_id c) caller_ r) eqn:E;
        [|reflexivity].
      apply own_collection_iff in E. destruct E as [E1 _].
      exfalso. apply Hfresh. apply in_map_iff. exists r. split; assumption.
    + unfold after_cascade. apply filter_all. intros a Ha.
      rewrite (Hnone a Ha). reflexivity.
  - intros a Ha Hra. exfalso. exact (Hunref a Ha Hra).
Qed.

Lemma createCollection_then_delete_witness :
  exists collection w1 w2,
    server.createCollection (VObject [("name", VString "Work")])
      Scenario.U Scenario.w2
    = (Returned (mkResponse true (Some (OneCollection collection))), w1)
    /\ server.deleteCollection
         (VObject [("id", VString (c_id collection))]) Scenario.U w1
       = (Returned (mkResponse true None), w2)
    /\ AffirmationCollections w2 = AffirmationCollections Scenario.w2
    /\ Affirmations w2 = Affirmations Scenario.w2.
Proof.
  destruct (createCollection_then_delete
              (VObject [("name", VString "Work")])
              Scenario.U (mkUser "u")
              (mkCreateCollectionInput "Work" None None None)
              Scenario.w2 eq_refl eq_refl)
    as (c & w1 & w2 & H).
  - simpl. intros [H|[]]. discriminate.
  - intros a [<-|[]]. discriminate.
  - exists c, w1, w2. exact H.
Defined.

(* ===================================================================== *)
(** ** Requests the schemas turn down                                    *)
(* ===================================================================== *)

Lemma enum_rejects (allowed : list string) (s : string) :
  ~ In s allowed -> optional (enum allowed) (VString s) = None.
Proof.
  intros H. cbn. destruct (existsb (String.eqb s) allowed) eqn:E;
    [|reflexivity].
  exfalso. apply H. apply existsb_exists in E. destruct E as (x & Hx & E).
  apply String.eqb_eq in E. subst. exact Hx.
Qed.

(** Closes a goal [schema (VObject o) = None] once one field parser is
    known to fail. *)
Ltac reject_fields :=
  repeat match goal with
         | |- context [match ?x with _ => _ end] =>
             lazymatch x with
             | context [match _ with _ => _ end] => fail
             | _ => destruct x
             end
         end;
  reflexivity.

(** X16: the validation of affirmations.  For any caller,
    [createAffirmation] is turned down with the validation error, the
    world untouched, when [text] is missing or empty or when
    [useTimeOfDay] is a string other than morning, evening, any;
    [updateAffirmation] is turned down when [text] is supplied empty or
    [useTimeOfDay] is such a string, whatever else is supplied. *)
Theorem affirmation_validation (o : list (string * value))
    (context : Context) (w : World) :
  (get "text" o = VUndefined \/ get "text" o = VString ""
   \/ (exists s, get "useTimeOfDay" o = VString s /\ ~ In s timeOfDay) ->
   server.createAffirmation (VObject o) context w
   = (Threw ActionInputError, w))
  /\ (get "text" o = VString ""
      \/ (exists s, get "useTimeOfDay" o = VString s /\ ~ In s timeOfDay) ->
      server.updateAffirmation (VObject o) context w
      = (Threw ActionInputError, w)).
Proof.
  split; intros H; apply defineAction_rejects.
  - unfold createAffirmationSchema.
    destruct H as [H|[H|(s & H & Hs)]]; rewrite H.
    + reflexivity.
    + reflexivity.
    + rewrite (enum_rejects timeOfDay s Hs). reject_fields.
  - unfold updateAffirmationSchema, refine, updateAffirmationObject.
    destruct H as [H|(s & H & Hs)]; rewrite H.
    + replace (optional string_min1 (VString "")) with (@None (option string))
        by reflexivity.
      reject_fields.
    + rewrite (enum_rejects timeOfDay s Hs). reject_fields.
Qed.

Lemma affirmation_validation_witness :
  server.createAffirmation
    (VObject [("text", VString "t"); ("useTimeOfDay", VString "noon")])
    Scenario.U Scenario.w2
  = (Threw ActionInputError, Scenario.w2)
  /\ server.updateAffirmation
       (VObject [("id", VString "A1"); ("text", VString "")])
       Scenario.U Scenario.w2
     = (Threw ActionInputError, Scenario.w2).
Proof.
  split.
  - apply (proj1 (affirmation_validation
             [("text", VString "t"); ("useTimeOfDay", VString "noon")]
             Scenario.U Scenario.w2)).
    right. right. exists "noon". split; [reflexivity|].
    cbn. intros [H|[H|[H|[]]]]; discriminate.
  - apply (proj2 (affirmation_validation
             [("id", VString "A1"); ("text", VString "")]
             Scenario.U Scenario.w2)).
    left. reflexivity.
Defined.

(** X17: a request that is not an object is turned down by every
    operation with the validation error and no effect, with one
    exception: the two list operations take [undefined], and then do
    what they do on an empty object. *)
Theorem non_object_requests (op : Operation) (request : value)
    (context : Context) (w : World) :
  (forall o, request <> VObject o) ->
  (request <> VUndefined ->
   call op request context w = (Threw ActionInputError, w))
  /\ (op <> ListCollections -> op <> ListAffirmations ->
      call op request context w = (Threw ActionInputError, w))
  /\ server.listCollections VUndefined context w
     = server.listCollections (VObject []) context w
  /\ server.listAffirmations VUndefined context w
     = server.listAffirmations (VObject []) context w.
Proof.
  intros Hno. split; [|split; [|split]].
  - intros Hdef.
    destruct op; cbn [call]; apply defineAction_rejects;
      destruct request; try reflexivity; try contradiction;
      exfalso; eapply Hno; reflexivity.
  - intros H1 H2.
    destruct op; try contradiction; cbn [call]; apply defineAction_rejects;
      destruct request; try reflexivity; exfalso; eapply Hno; reflexivity.
  - unfold server.listCollections, defineAction. cbn.
    destruct (caller context) as [u|] eqn:Hu.
    + rewrite !(listCollections_run _ _ u w Hu). reflexivity.
    + destruct (handlers_anonymous context w Hu) as (_ & _ & _ & H & _).
      rewrite !H. reflexivity.
  - unfold server.listAffirmations, defineAction. cbn.
    destruct (caller context) as [u|] eqn:Hu.
    + rewrite !(listAffirmations_run _ _ u w Hu). reflexivity.
    + destruct (handlers_anonymous context w Hu)
        as (_ & _ & _ & _ & _ & _ & _ & H).
      rewrite !H. reflexivity.
Qed.

Lemma non_object_requests_witness :
  call DeleteCollection (VString "C1") Scenario.U Scenario.w2
  = (Threw ActionInputError, Scenario.w2)
  /\ call ListAffirmations VNull Scenario.U Scenario.w2
     = (Threw ActionInputError, Scenario.w2).
Proof.
  split.
  - apply (proj1 (proj2 (non_object_requests DeleteCollection (VString "C1")
                           Scenario.U Scenario.w2 ltac:(discriminate))));
      discriminate.
  - apply (proj1 (non_object_requests ListAffirmations VNull
                    Scenario.U Scenario.w2 ltac:(discriminate))).
    discriminate.
Defined.
